(** * bedrock-mantle: the chat CLI of src/main.py

    A shallow embedding of the interactive chat client: the two chat loops
    (Chat Completions and Responses), the streaming event handler, the text
    extraction helper and the [chat] command, followed by the properties the
    specification states about them.

    Conventions of the embedding.
    - Python [str] values are [string]s, read as sequences of code points
      below 256.
    - An attribute the source probes with [hasattr] is an [option]: [None]
      is the absent attribute.  Attributes the source reads unprobed have the
      type the SDK declares for them.
    - Terminal output, sleeping and the calls made through the SDK client are
      recorded, in order, as a list of [effect]s.
    - The remote service is a [Client]: for every method the loops call, a
      function from the number of calls made so far and the request to either
      an exception or a reply. *)

From Stdlib Require Import String Ascii List Bool Arith Lia.
From Stdlib Require Import DecimalString ZArith.
Import ListNotations.
Open Scope list_scope.
Open Scope string_scope.

(* ================================================================= *)
(** ** Python strings *)

Module Py.

Definition LF : string := String (ascii_of_nat 10) EmptyString.

Definition in_range (lo hi n : nat) : bool := (lo <=? n)%nat && (n <=? hi)%nat.

(** [str.isspace] on one code point below 256: tab to carriage return,
    the four separators 28-31, space, NEL and the no-break space. *)
Definition isspace (c : ascii) : bool :=
  let n := nat_of_ascii c in
  in_range 9 13 n || in_range 28 32 n || (n =? 133)%nat || (n =? 160)%nat.

(** [str.lower] on one code point below 256: the upper-case letters are
    A-Z and the Latin-1 block 192-222 without the multiplication sign. *)
Definition lower_char (c : ascii) : ascii :=
  let n := nat_of_ascii c in
  if in_range 65 90 n || in_range 192 214 n || in_range 216 222 n
  then ascii_of_nat (n + 32) else c.

Fixpoint lower (s : string) : string :=
  match s with
  | EmptyString => EmptyString
  | String c s' => String (lower_char c) (lower s')
  end.

Fixpoint lstrip (s : string) : string :=
  match s with
  | EmptyString => EmptyString
  | String c s' => if isspace c then lstrip s' else s
  end.

Fixpoint rstrip (s : string) : string :=
  match s with
  | EmptyString => EmptyString
  | String c s' =>
      match rstrip s' with
      | EmptyString => if isspace c then EmptyString else String c EmptyString
      | r => String c r
      end
  end.

(** [str.strip()] with no argument. *)
Definition strip (s : string) : string := rstrip (lstrip s).

(** Truth value of a string: [not s] holds of the empty string only. *)
Definition truthy (s : string) : bool :=
  match s with EmptyString => false | _ => true end.

(** Truth value of an [Optional[str]]. *)
Definition truthy_opt (o : option string) : bool :=
  match o with Some s => truthy s | None => false end.

(** [x in xs] for a collection of strings. *)
Definition mem (x : string) (xs : list string) : bool :=
  existsb (String.eqb x) xs.

(** [s * n] *)
Fixpoint repeat_str (s : string) (n : nat) : string :=
  match n with O => EmptyString | S n' => s ++ repeat_str s n' end.

(** [str(n)] for a non-negative [int]. *)
Definition str_of_nat (n : nat) : string :=
  NilZero.string_of_uint (Nat.to_uint n).

(** [sep.join(xs)] *)
Fixpoint join (sep : string) (xs : list string) : string :=
  match xs with
  | [] => EmptyString
  | [x] => x
  | x :: rest => x ++ sep ++ join sep rest
  end.

(** [needle in haystack] for two strings. *)
Fixpoint contains (needle haystack : string) : bool :=
  String.prefix needle haystack ||
  match haystack with
  | EmptyString => false
  | String _ rest => contains needle rest
  end.

End Py.

(* ================================================================= *)
(** ** Data *)

(** One entry of the Chat Completions history or of a Responses input batch:
    the dict with keys role and content.  The content of an assistant
    message is whatever the SDK returned, possibly Python's [None]. *)
Record message : Type := Message {
  role : string;
  content : option string
}.

Definition system_message (system : string) : message :=
  {| role := "system"; content := Some system |}.
Definition user_message (user_input : string) : message :=
  {| role := "user"; content := Some user_input |}.
Definition assistant_message (text : option string) : message :=
  {| role := "assistant"; content := text |}.

(** The keyword arguments of [client.responses.create]: the dict
    [request_params].  The keys model and input are always present; the
    other three are set or left out, and background and stream are only
    ever set to [True]. *)
Record request_params : Type := RequestParams {
  rp_model : string;
  rp_input : list message;
  rp_previous_response_id : option string;
  rp_background : bool;
  rp_stream : bool
}.

(** Exceptions below [Exception].  [APIError] stands for the exceptions
    that come out of the SDK and of the libraries under it (a transport or
    remote failure, arguments the constructor refuses); [Abort] is what
    [click.prompt] raises when the input ends; the others are raised by the
    interpreter or by the program.  Each carries what [str(e)] shows. *)
Inductive exn : Type :=
| APIError (msg : string)
| IndexError (msg : string)
| AttributeError (attr : string)
| ClickException (msg : string)
| EOFError
| Abort.

(** [str(e)].  The objects whose attribute the program can miss are the
    SDK's [Response] objects. *)
Definition exn_str (e : exn) : string :=
  match e with
  | APIError msg => msg
  | IndexError msg => msg
  | AttributeError attr => "'Response' object has no attribute '" ++ attr ++ "'"
  | ClickException msg => msg
  | EOFError => EmptyString
  | Abort => EmptyString
  end.

(** An object the program iterates over once: the items it yields and,
    when the connection breaks, the exception raised after the last one. *)
Record Stream (A : Type) : Type := mkStream {
  items : list A;
  failure : option exn
}.
Arguments mkStream {A} _ _.
Arguments items {A} _.
Arguments failure {A} _.

(** A streamed chat-completion chunk: [chunk.choices[i].delta.content]. *)
Record Chunk : Type := mkChunk { chunk_choices : list (option string) }.

(** A chat completion: [response.choices[i].message.content]. *)
Record chat_completion : Type := ChatCompletion { choices : list (option string) }.

(** A streamed Responses event; every attribute is probed by the handler.
    [ev_response] is [event.response], itself probed for its [id]. *)
Record Event : Type := mkEvent {
  ev_type : option string;
  ev_delta : option string;
  ev_response : option (option string);
  ev_id : option string
}.

(** One part of an output item: [content.text]. *)
Record content_part : Type := ContentPart { part_text : option string }.

(** One item of [response.output]: its [content], and what [repr] shows. *)
Record output_item : Type := OutputItem {
  item_content : option (list content_part);
  item_repr : string
}.

(** A Responses API response object. *)
Record Response : Type := mkResponse {
  resp_id : string;
  resp_status : option string;
  resp_output_text : option string;
  resp_output : option (list output_item)
}.

(** What the program does to the outside world. *)
Inductive effect : Type :=
| Prompt                                          (* click.prompt *)
| Echo (msg : string) (nl : bool)                 (* click.echo *)
| Sleep (seconds : nat)                           (* time.sleep *)
| ClientCreated                                   (* OpenAI(...) *)
| ChatCreate (model : string) (messages : list message) (streaming : bool)
| ResponsesCreate (params : request_params)
| ResponsesRetrieve (response_id : string).

(** The remote end, as seen through the SDK client.  The first argument of
    every method is the number of calls the session has made before. *)
Record Client : Type := {
  chat_create : nat -> string -> list message -> exn + chat_completion;
  chat_create_stream : nat -> string -> list message -> exn + Stream Chunk;
  responses_create : nat -> request_params -> exn + Response;
  responses_create_stream : nat -> request_params -> exn + Stream Event;
  responses_retrieve : nat -> string -> exn + Response
}.

(** What [create_client] finds outside the program: the two environment
    variables it reads, and the constructor of the SDK's client.
    [OpenAI base_url api_key] is the exception the constructor raises for
    arguments it refuses (a malformed URL, say), [None] when it returns a
    client. *)
Record environ : Type := Environ {
  OPENAI_API_KEY : option string;
  OPENAI_BASE_URL : option string;
  OpenAI : option string -> option string -> option exn
}.

(* ================================================================= *)
(** ** Computations with output, a store and exceptions *)

(** How a computation ends: with a value, with a raised exception, or not
    at all within the polls allowed ([Diverge]). *)
Inductive result (A : Type) : Type :=
| Val (a : A)
| Raise (e : exn)
| Diverge.
Arguments Val {A} _.
Arguments Raise {A} _.
Arguments Diverge {A}.

(** What a computation leaves behind: the effects it performed, the number
    of remote calls made so far, the store (the loop's mutable variable)
    and the result. *)
Record run (S A : Type) : Type := Run {
  events : list effect;
  calls : nat;
  store : S;
  outcome : result A
}.
Arguments Run {S A} _ _ _ _.
Arguments events {S A} _.
Arguments calls {S A} _.
Arguments store {S A} _.
Arguments outcome {S A} _.

Definition M (S A : Type) : Type := nat -> S -> run S A.

Definition ret {S A} (a : A) : M S A := fun n s => Run [] n s (Val a).

(** A run that happened after the effects [es]. *)
Definition after {S A} (es : list effect) (r : run S A) : run S A :=
  Run (es ++ events r)%list (calls r) (store r) (outcome r).

Definition bind {S A B} (c : M S A) (k : A -> M S B) : M S B := fun n s =>
  let r := c n s in
  match outcome r with
  | Val a => after (events r) (k a (calls r) (store r))
  | Raise e => Run (events r) (calls r) (store r) (Raise e)
  | Diverge => Run (events r) (calls r) (store r) Diverge
  end.

Declare Scope py_scope.
Delimit Scope py_scope with py.
Notation "x <- c ;; k" := (bind c (fun x => k))
  (at level 61, c at next level, right associativity) : py_scope.
Notation "c ;; k" := (bind c (fun _ => k))
  (at level 61, right associativity) : py_scope.
Open Scope py_scope.

Definition raise {S A} (e : exn) : M S A := fun n s => Run [] n s (Raise e).
Definition diverge {S A} : M S A := fun n s => Run [] n s Diverge.
Definition emit {S} (e : effect) : M S unit := fun n s => Run [e] n s (Val tt).
Definition get {S} : M S S := fun n s => Run [] n s (Val s).
Definition put {S} (s' : S) : M S unit := fun n _ => Run [] n s' (Val tt).

(** [try: c  except Exception as e: h e].  Whatever [c] did to the store
    and to the world before raising stays done. *)
Definition try_catch {S A} (c : M S A) (h : exn -> M S A) : M S A := fun n s =>
  let r := c n s in
  match outcome r with
  | Raise e => after (events r) (h e (calls r) (store r))
  | _ => r
  end.

(** A callee with local state of its own: it runs on [init] and its store
    is dropped when it returns. *)
Definition with_store {S S' A} (init : S') (c : M S' A) : M S A := fun n s =>
  let r := c n init in Run (events r) (calls r) s (outcome r).

(** A pure step that may raise. *)
Definition lift {S A} (r : result A) : M S A := fun n s => Run [] n s r.

(** [click.echo(msg, nl=...)] *)
Definition echo {S} (msg : string) (nl : bool) : M S unit := emit (Echo msg nl).

(** A remote call: the effect is recorded, the call counted, and the
    reply of the remote end returned or its exception raised. *)
Definition remote {S A} (e : effect) (reply : nat -> exn + A) : M S A := fun n s =>
  Run [e] (Datatypes.S n) s (match reply n with inl err => Raise err | inr a => Val a end).

(** [for x in xs: acc = body acc x] *)
Fixpoint for_each {S A B} (body : B -> A -> M S B) (xs : list A) (acc : B) : M S B :=
  match xs with
  | [] => ret acc
  | x :: rest => acc' <- body acc x ;; for_each body rest acc'
  end.

(** The same loop over a [Stream]: the exception of a broken stream is
    raised once its items are consumed. *)
Definition for_stream {S A B} (body : B -> A -> M S B) (xs : Stream A) (acc : B) : M S B :=
  acc' <- for_each body (items xs) acc ;;
  match failure xs with
  | Some e => raise e
  | None => ret acc'
  end.

(** [xs[0]] *)
Definition first {S A} (xs : list A) : M S A :=
  match xs with
  | x :: _ => ret x
  | [] => raise (IndexError "list index out of range")
  end.

(** The output of the effects, as the terminal shows it. *)
Fixpoint stdout (es : list effect) : string :=
  match es with
  | [] => EmptyString
  | Echo msg nl :: rest => msg ++ (if nl then Py.LF else EmptyString) ++ stdout rest
  | _ :: rest => stdout rest
  end.

Definition is_remote_call (e : effect) : bool :=
  match e with
  | ChatCreate _ _ _ | ResponsesCreate _ | ResponsesRetrieve _ => true
  | _ => false
  end.

(* ================================================================= *)
(** ** main.py *)

Definition EXIT_COMMANDS : list string := ["/quit"; "/q"; "/exit"; "/e"].

(** *** process_streaming_events *)

(** The body of the loop over the events; the accumulator is the pair of
    locals [(response_text, response_id)]. *)
Definition on_event {S} (acc : string * option string) (event : Event)
  : M S (string * option string) :=
  let '(response_text, response_id) := acc in
  match ev_type event with
  | Some type =>
      if type =? "response.output_text.delta" then
        match ev_delta event with
        | Some delta => echo delta false ;; ret (response_text ++ delta, response_id)
        | None => ret acc
        end
      else if type =? "response.completed" then
        match ev_response event with
        | Some (Some id) => ret (response_text, Some id)
        | _ => ret acc
        end
      else if type =? "response.queued" then
        echo "[Queued...]" false ;; ret acc
      else if type =? "response.in_progress" then
        echo "[Processing...]" false ;; ret acc
      else ret acc
  | None =>
      match ev_delta event with
      | Some delta => echo delta false ;; ret (response_text ++ delta, response_id)
      | None =>
          match ev_id event with
          | Some id => ret (response_text, Some id)
          | None => ret acc
          end
      end
  end.

Definition process_streaming_events {S} (stream_response : Stream Event)
  : M S (string * option string) :=
  acc <- for_stream on_event stream_response (EmptyString, None) ;;
  echo EmptyString true ;;
  ret acc.

(** *** extract_response_text *)

(** [str(response.output)] for a list: the items' [repr]s in brackets. *)
Definition str_of_output (output : list output_item) : string :=
  "[" ++ Py.join ", " (map item_repr output) ++ "]".

(** The texts the two nested loops append to [text_parts]. *)
Definition texts_of_item (output : output_item) : list string :=
  match item_content output with
  | Some parts =>
      flat_map (fun content =>
                  match part_text content with Some t => [t] | None => [] end) parts
  | None => []
  end.

Definition text_parts (output : list output_item) : list string :=
  flat_map texts_of_item output.

Definition extract_response_text (response : Response) : result string :=
  match resp_output_text response with
  | Some output_text => Val output_text
  | None =>
      match resp_output response with
      | Some output =>
          match output with
          | _ :: _ =>
              match text_parts output with
              | _ :: _ => Val (Py.join EmptyString (text_parts output))
              | [] => Val (str_of_output output)
              end
          | [] => Val (str_of_output output)
          end
      | None => Raise (AttributeError "output")
      end
  end.

(** *** create_client *)

Definition create_client {S} (env : environ) : M S unit :=
  let api_key := OPENAI_API_KEY env in
  let base_url := OPENAI_BASE_URL env in
  if negb (Py.truthy_opt api_key) then
    raise (ClickException
      ("OPENAI_API_KEY is required. Set it in .env file or as environment variable."
       ++ Py.LF ++
       "See: https://docs.aws.amazon.com/bedrock/latest/userguide/api-keys.html"))
  else if negb (Py.truthy_opt base_url) then
    raise (ClickException
      ("OPENAI_BASE_URL is required. Set it in .env file or as environment variable."
       ++ Py.LF ++
       "Example: https://bedrock-mantle.us-east-1.api.aws/v1"))
  else
    match OpenAI env base_url api_key with
    | Some e => raise e
    | None => emit ClientCreated
    end.

(** *** The interactive loops *)

(** How one pass through the body of [while True] ends. *)
Inductive ctl : Type := Continue | Break.

(** [click.prompt("You", prompt_suffix=": ")] on what is left of the
    input: the next line, or, when the input has ended, the [Abort] that
    click raises in place of the terminal's [EOFError]. *)
Definition click_prompt {S} (inputs : list string) : M S string :=
  emit Prompt ;;
  match inputs with
  | line :: _ => ret line
  | [] => raise Abort
  end.

(** [try: user_input = click.prompt(...).strip()  except EOFError: break]:
    [None] stands for the break.  The line is handed on as read; the loop
    bodies strip it. *)
Definition read_line {S} (inputs : list string) : M S (option string) :=
  try_catch (line <- click_prompt inputs ;; ret (Some line))
            (fun e =>
               match e with
               | EOFError => ret None
               | _ => raise e
               end).

(** [while True: ...].  [inputs] are the lines [click.prompt] returns, one
    per call.  When none is left the prompt raises, [except EOFError] lets
    the [Abort] through and nothing after it runs. *)
Fixpoint prompt_loop {S} (body : string -> M S ctl) (inputs : list string) : M S unit :=
  match inputs with
  | [] => _ <- read_line inputs ;; ret tt
  | _ :: rest =>
      user_input <- read_line inputs ;;
      match user_input with
      | None => ret tt
      | Some line =>
          c <- body line ;;
          match c with
          | Break => ret tt
          | Continue => prompt_loop body rest
          end
      end
  end.

(** *** run_chat_completions; the store is the local [messages] *)

(** [messages.append(m)] *)
Definition append_message (m : message) : M (list message) unit :=
  messages <- get ;; put (messages ++ [m])%list.

(** [messages.pop()] *)
Definition pop_message : M (list message) unit :=
  messages <- get ;;
  match messages with
  | [] => raise (IndexError "pop from empty list")
  | _ :: _ => put (removelast messages)
  end.

(** [client.chat.completions.create(model=model, messages=messages)] *)
Definition call_chat_create (client : Client) (model : string)
  : M (list message) chat_completion :=
  messages <- get ;;
  remote (ChatCreate model messages false) (fun n => chat_create client n model messages).

(** The same call with [stream=True]. *)
Definition call_chat_create_stream (client : Client) (model : string)
  : M (list message) (Stream Chunk) :=
  messages <- get ;;
  remote (ChatCreate model messages true)
         (fun n => chat_create_stream client n model messages).

(** The body of [for chunk in stream_response]. *)
Definition on_chunk (response_text : string) (chunk : Chunk) : M (list message) string :=
  content <- first (chunk_choices chunk) ;;
  match content with
  | Some content => echo content false ;; ret (response_text ++ content)
  | None => ret response_text
  end.

(** [click.echo(x)] for an [Optional[str]]: [None] prints as nothing. *)
Definition echo_opt {S} (x : option string) : M S unit :=
  echo (match x with Some s => s | None => EmptyString end) true.

(** The [try] block of a turn. *)
Definition completions_exchange (client : Client) (model : string) (stream : bool)
  : M (list message) unit :=
  if stream then
    stream_response <- call_chat_create_stream client model ;;
    response_text <- for_stream on_chunk stream_response EmptyString ;;
    echo EmptyString true ;;
    append_message (assistant_message (Some response_text))
  else
    response <- call_chat_create client model ;;
    assistant <- first (choices response) ;;
    echo_opt assistant ;;
    append_message (assistant_message assistant).

(** The [except Exception as e] block of a turn. *)
Definition completions_on_error (e : exn) : M (list message) unit :=
  echo (Py.LF ++ "Error: " ++ exn_str e) true ;;
  pop_message.

(** Everything after the command checks: one exchange with the model. *)
Definition completions_turn (client : Client) (model : string) (stream : bool)
  (user_input : string) : M (list message) unit :=
  append_message (user_message user_input) ;;
  echo EmptyString true ;;
  echo "Assistant: " false ;;
  try_catch (completions_exchange client model stream) completions_on_error ;;
  echo EmptyString true.

(** The body of the loop, from the line [click.prompt] returned. *)
Definition completions_body (client : Client) (model : string) (stream : bool)
  (system : string) (line : string) : M (list message) ctl :=
  let user_input := Py.strip line in
  if negb (Py.truthy user_input) then ret Continue
  else if Py.mem (Py.lower user_input) EXIT_COMMANDS then
    echo "Goodbye!" true ;; ret Break
  else if Py.lower user_input =? "/clear" then
    put [system_message system] ;;
    echo ("Conversation cleared." ++ Py.LF) true ;;
    ret Continue
  else if Py.lower user_input =? "/status" then
    messages <- get ;;
    echo "API: Chat Completions (stateless)" true ;;
    echo ("Model: " ++ model) true ;;
    echo ("Messages in history: " ++ Py.str_of_nat (length messages)) true ;;
    echo EmptyString true ;;
    ret Continue
  else
    completions_turn client model stream user_input ;;
    ret Continue.

(** The loop from a given history. *)
Definition completions_loop (client : Client) (model : string) (stream : bool)
  (system : string) (inputs : list string) : M (list message) unit :=
  prompt_loop (completions_body client model stream system) inputs.

(** [run_chat_completions(client, model, stream, system)] after [n] earlier
    remote calls; the store of the result is [messages] on return. *)
Definition run_chat_completions (client : Client) (model : string) (stream : bool)
  (system : string) (inputs : list string) (n : nat) : run (list message) unit :=
  completions_loop client model stream system inputs n [system_message system].

(** *** run_responses_api; the store is the local [previous_response_id] *)

(** [response.status in ["queued", "in_progress"]] *)
Definition pending (status : option string) : bool :=
  match status with
  | Some s => Py.mem s ["queued"; "in_progress"]
  | None => false
  end.

(** [f"{response.status}"] *)
Definition fmt_status (status : option string) : string :=
  match status with Some s => s | None => "None" end.

(** [status == s] *)
Definition status_is (status : option string) (s : string) : bool :=
  match status with Some s' => s' =? s | None => false end.

(** The polling loop [while response.status in [...]]; [fuel] bounds the
    number of polls the model follows. *)
Fixpoint poll {S} (fuel : nat) (client : Client) (response_id : string)
  (response : Response) (poll_count : nat) : M S (Response * nat) :=
  if pending (resp_status response) then
    match fuel with
    | O => diverge
    | Datatypes.S fuel' =>
        emit (Sleep 1) ;;
        let poll_count := poll_count + 1 in
        (if (poll_count mod 5 =? 0)%nat then echo "." false else ret tt) ;;
        response <- remote (ResponsesRetrieve response_id)
                           (fun n => responses_retrieve client n response_id) ;;
        poll fuel' client response_id response poll_count
    end
  else ret (response, poll_count).

(** The input batch and the request parameters built at the top of the
    [try] block. *)
Definition build_request (model system user_input : string)
  (previous_response_id : option string) : request_params :=
  let input_messages :=
    ((match previous_response_id with
      | None => [system_message system]
      | Some _ => []
      end) ++ [user_message user_input])%list in
  {| rp_model := model;
     rp_input := input_messages;
     rp_previous_response_id :=
       (if Py.truthy_opt previous_response_id then previous_response_id else None);
     rp_background := false;
     rp_stream := false |}.

Definition set_background (p : request_params) : request_params :=
  {| rp_model := rp_model p; rp_input := rp_input p;
     rp_previous_response_id := rp_previous_response_id p;
     rp_background := true; rp_stream := rp_stream p |}.

Definition set_stream (p : request_params) : request_params :=
  {| rp_model := rp_model p; rp_input := rp_input p;
     rp_previous_response_id := rp_previous_response_id p;
     rp_background := rp_background p; rp_stream := true |}.

(** The streaming shapes: create, handle the events, keep the identifier
    if one came. *)
Definition streamed_exchange (client : Client) (request_params : request_params)
  : M (option string) unit :=
  let request_params := set_stream request_params in
  stream_response <- remote (ResponsesCreate request_params)
                            (fun n => responses_create_stream client n request_params) ;;
  r <- process_streaming_events stream_response ;;
  let response_id := snd r in
  if Py.truthy_opt response_id then put response_id else ret tt.

(** The [if]/[elif] chain on the status the polling ended with. *)
Definition report_job (response_id : string) (response : Response)
  : M (option string) unit :=
  if status_is (resp_status response) "completed" then
    text <- lift (extract_response_text response) ;;
    echo text true ;;
    put (Some response_id)
  else if status_is (resp_status response) "failed" then
    echo ("[Background task failed: " ++ fmt_status (resp_status response) ++ "]") true
  else if status_is (resp_status response) "cancelled" then
    echo "[Background task was cancelled]" true
  else
    echo ("[Unexpected status: " ++ fmt_status (resp_status response) ++ "]") true.

(** Background without streaming: create, poll, report. *)
Definition polled_exchange (fuel : nat) (client : Client) (request_params : request_params)
  : M (option string) unit :=
  response <- remote (ResponsesCreate request_params)
                     (fun n => responses_create client n request_params) ;;
  let response_id := resp_id response in
  echo "[Background processing started...]" false ;;
  polled <- poll fuel client response_id response 0 ;;
  let response := fst polled in
  echo EmptyString true ;;
  echo "Assistant: " false ;;
  report_job response_id response.

(** Foreground without streaming. *)
Definition plain_exchange (client : Client) (request_params : request_params)
  : M (option string) unit :=
  response <- remote (ResponsesCreate request_params)
                     (fun n => responses_create client n request_params) ;;
  text <- lift (extract_response_text response) ;;
  echo text true ;;
  put (Some (resp_id response)).

(** The [try] block of a turn. *)
Definition responses_exchange (fuel : nat) (client : Client) (model : string)
  (stream background : bool) (system user_input : string) : M (option string) unit :=
  previous_response_id <- get ;;
  let request_params := build_request model system user_input previous_response_id in
  if background then
    let request_params := set_background request_params in
    if stream then streamed_exchange client request_params
    else polled_exchange fuel client request_params
  else if stream then streamed_exchange client request_params
  else plain_exchange client request_params.

(** The [except Exception as e] block of a turn. *)
Definition responses_on_error (e : exn) : M (option string) unit :=
  echo (Py.LF ++ "Error: " ++ exn_str e) true.

Definition responses_turn (fuel : nat) (client : Client) (model : string)
  (stream background : bool) (system user_input : string) : M (option string) unit :=
  echo EmptyString true ;;
  echo "Assistant: " false ;;
  try_catch (responses_exchange fuel client model stream background system user_input)
            responses_on_error ;;
  echo EmptyString true.

Definition responses_body (fuel : nat) (client : Client) (model : string)
  (stream background : bool) (system : string) (line : string) : M (option string) ctl :=
  let user_input := Py.strip line in
  if negb (Py.truthy user_input) then ret Continue
  else if Py.mem (Py.lower user_input) EXIT_COMMANDS then
    echo "Goodbye!" true ;; ret Break
  else if Py.lower user_input =? "/clear" then
    put None ;;
    echo ("Conversation cleared (stateful context reset)." ++ Py.LF) true ;;
    ret Continue
  else if Py.lower user_input =? "/status" then
    previous_response_id <- get ;;
    echo "API: Responses (stateful)" true ;;
    echo ("Model: " ++ model) true ;;
    echo ("Background: " ++ (if background then "enabled" else "disabled")) true ;;
    echo ("Previous response ID: " ++
          (match previous_response_id with
           | Some id => if Py.truthy id then id else "None (new conversation)"
           | None => "None (new conversation)"
           end)) true ;;
    echo EmptyString true ;;
    ret Continue
  else
    responses_turn fuel client model stream background system user_input ;;
    ret Continue.

Definition responses_loop (fuel : nat) (client : Client) (model : string)
  (stream background : bool) (system : string) (inputs : list string)
  : M (option string) unit :=
  prompt_loop (responses_body fuel client model stream background system) inputs.

(** [run_responses_api(client, model, stream, background, system)] after
    [n] earlier remote calls; the store of the result is
    [previous_response_id] on return. *)
Definition run_responses_api (fuel : nat) (client : Client) (model : string)
  (stream background : bool) (system : string) (inputs : list string) (n : nat)
  : run (option string) unit :=
  responses_loop fuel client model stream background system inputs n None.

(** *** chat *)

Definition chat (fuel : nat) (env : environ) (client : Client)
  (model : string) (no_stream completions background : bool) (system : string)
  (inputs : list string) : M unit unit :=
  let stream := negb no_stream in
  if background && completions then
    raise (ClickException
      ("Background processing is only available with the Responses API."
       ++ Py.LF ++ "Remove --completions to use background mode."))
  else
    (if background && negb no_stream then
       echo "Note: Background mode with streaming - events will stream as processing completes."
            true ;;
       echo EmptyString true
     else ret tt) ;;
    let api_mode := if completions then "Chat Completions" else "Responses" in
    echo "Starting chat session" true ;;
    echo ("  Model: " ++ model) true ;;
    echo ("  API: " ++ api_mode ++ " API") true ;;
    echo ("  Streaming: " ++ (if no_stream then "disabled" else "enabled")) true ;;
    (if negb completions then
       echo ("  Background: " ++ (if background then "enabled" else "disabled")) true
     else ret tt) ;;
    echo EmptyString true ;;
    echo "Type /quit or /q to exit, /clear to reset conversation" true ;;
    echo (Py.repeat_str "-" 60) true ;;
    echo EmptyString true ;;
    try_catch (create_client env) (fun e => raise e) ;;
    try_catch
      (if completions then
         with_store [system_message system]
           (completions_loop client model stream system inputs)
       else
         with_store None
           (responses_loop fuel client model stream background system inputs))
      (fun e =>
         match e with
         | ClickException _ => raise e
         | _ => raise (ClickException ("Chat error: " ++ exn_str e))
         end).

(** What click makes of the command's end: status 0 on return, and for a
    [ClickException] its [exit_code], which is 1. *)
Definition exit_code {A} (r : result A) : option nat :=
  match r with
  | Val _ => Some 0
  | Raise _ => Some 1
  | Diverge => None
  end.

(** *** list_models *)

(** One record of [models.data]: [id] is read unprobed, [created] and
    [owned_by] are probed. *)
Record Model : Type := mkModel {
  model_id : string;
  model_created : option Z;
  model_owned_by : option string
}.

(** [str(i)] for an [int]. *)
Definition str_of_int (i : Z) : string := NilZero.string_of_int (Z.to_int i).

(** [client.models.list()], after [n] earlier calls.  The call is counted
    among the remote calls; the chat loops never make it and [effect] has
    no name for it. *)
Definition call_models_list {S} (models_list : nat -> exn + list Model)
  : M S (list Model) := fun n s =>
  Run [] (Datatypes.S n) s
      (match models_list n with inl err => Raise err | inr models => Val models end).

(** The body of [for model in models.data]. *)
Definition on_model {S} (model : Model) : M S unit :=
  echo ("  ID: " ++ model_id model) true ;;
  (match model_created model with
   | Some created => echo ("      Created: " ++ str_of_int created) true
   | None => ret tt
   end) ;;
  (match model_owned_by model with
   | Some owned_by => echo ("      Owner: " ++ owned_by) true
   | None => ret tt
   end) ;;
  echo EmptyString true.

Definition list_models (env : environ) (models_list : nat -> exn + list Model)
  : M unit unit :=
  try_catch (create_client env) (fun e => raise e) ;;
  let base_url :=
    match OPENAI_BASE_URL env with Some url => url | None => EmptyString end in
  echo ("Endpoint: " ++ base_url) true ;;
  echo EmptyString true ;;
  try_catch
    (models <- call_models_list models_list ;;
     echo "Available Models:" true ;;
     echo (Py.repeat_str "-" 60) true ;;
     for_each (fun _ model => on_model model) models tt)
    (fun e =>
       match e with
       | ClickException _ => raise e
       | _ => raise (ClickException ("Failed to list models: " ++ exn_str e))
       end).

(* ================================================================= *)
(** ** Vocabulary of the properties *)

(** A line that is neither blank nor one of the in-session commands: the
    loops send it to the model. *)
Definition ordinary_input (line : string) : bool :=
  let user_input := Py.strip line in
  Py.truthy user_input
  && negb (Py.mem (Py.lower user_input) EXIT_COMMANDS)
  && negb (Py.lower user_input =? "/clear")
  && negb (Py.lower user_input =? "/status").

(** The history starts with the system message of the session. *)
Definition starts_with_system (system : string) (messages : list message) : Prop :=
  hd_error messages = Some (system_message system).

(** A computation that never touches the store. *)
Definition keeps_store {S A} (c : M S A) : Prop :=
  forall n s, store (c n s) = s.

(** A computation that leaves the store as it found it whenever it raises. *)
Definition atomic {S A} (c : M S A) : Prop :=
  forall n s e, outcome (c n s) = Raise e -> store (c n s) = s.

(** A computation that always ends. *)
Definition ends {S A} (c : M S A) : Prop :=
  forall n s, outcome (c n s) <> Diverge.

(** The rest of a session: [r] followed by the loop [k] run from where [r]
    stopped. *)
Definition then_run {S A B} (r : run S A) (k : M S B) : run S B :=
  after (events r) (k (calls r) (store r)).

(** The request a turn sends: the one built from the stored identifier,
    flagged as the two options say. *)
Definition sent_request (model system user_input : string) (stream background : bool)
  (previous_response_id : option string) : request_params :=
  let request_params := build_request model system user_input previous_response_id in
  let request_params :=
    if background then set_background request_params else request_params in
  if stream then set_stream request_params else request_params.

(** A computation that makes no remote call. *)
Definition quiet {S A} (c : M S A) : Prop :=
  forall n s,
    calls (c n s) = n /\ filter is_remote_call (events (c n s)) = [].

(** A sequence of exchanges: user and assistant messages in turn. *)
Fixpoint exchanges (messages : list message) : bool :=
  match messages with
  | [] => true
  | user :: assistant :: rest =>
      (role user =? "user") && (role assistant =? "assistant") && exchanges rest
  | [_] => false
  end.

(** A history as the loop builds it: the system message of the session,
    then whole exchanges. *)
Definition well_formed_history (system : string) (messages : list message) : Prop :=
  exists rest, messages = system_message system :: rest /\ exchanges rest = true.

(** A line the loops take for an exit command. *)
Definition is_exit (line : string) : bool :=
  Py.mem (Py.lower (Py.strip line)) EXIT_COMMANDS.

(** The lines a loop reads: all of them up to the first exit command. *)
Fixpoint lines_read (inputs : list string) : list string :=
  match inputs with
  | [] => []
  | line :: rest => if is_exit line then [line] else line :: lines_read rest
  end.

(** The turns of a session: the ordinary lines among those read. *)
Definition turns (inputs : list string) : nat :=
  length (filter ordinary_input (lines_read inputs)).

(** How a loop ends: it returns at the first exit command, and raises
    [Abort] when the input ends without one. *)
Definition session_end (inputs : list string) : result unit :=
  if existsb is_exit inputs then Val tt else Raise Abort.

(** *** Streaming, as the specification describes it *)

(** In-order concatenation. *)
Definition concat_all (xs : list string) : string :=
  fold_right String.append EmptyString xs.

Definition opt_list {A} (o : option A) : list A :=
  match o with Some a => [a] | None => [] end.

(** The delta an event contributes: the payload of a text-delta event, or
    the bare [delta] of an event with no type. *)
Definition delta_of (event : Event) : option string :=
  match ev_type event with
  | Some type => if type =? "response.output_text.delta" then ev_delta event else None
  | None => ev_delta event
  end.

(** The identifier of a completed event's nested response. *)
Definition completed_id (event : Event) : option string :=
  match ev_response event with
  | Some (Some id) => Some id
  | _ => None
  end.

(** The identifier an event contributes, as the specification words it:
    from a completed event, or the bare [id] of an event with no type. *)
Definition stated_id_of (event : Event) : option string :=
  match ev_type event with
  | Some type => if type =? "response.completed" then completed_id event else None
  | None => ev_id event
  end.

(** The same, with the precedence of the handler: an event with no type
    that carries a bare [delta] is a delta event, whatever else it has. *)
Definition captured_id_of (event : Event) : option string :=
  match ev_type event with
  | Some type => if type =? "response.completed" then completed_id event else None
  | None => match ev_delta event with Some _ => None | None => ev_id event end
  end.

(** The last of the identifiers, if any. *)
Definition last_id (ids : list string) : option string :=
  last (map Some ids) None.

(** What the handler prints for one event. *)
Definition printed (event : Event) : list effect :=
  match delta_of event with
  | Some delta => [Echo delta false]
  | None =>
      match ev_type event with
      | Some type =>
          if type =? "response.queued" then [Echo "[Queued...]" false]
          else if type =? "response.in_progress" then [Echo "[Processing...]" false]
          else []
      | None => []
      end
  end.

Definition stream_text (evs : list Event) : string :=
  concat_all (flat_map (fun e => opt_list (delta_of e)) evs).

Definition stated_stream_id (evs : list Event) : option string :=
  last_id (flat_map (fun e => opt_list (stated_id_of e)) evs).

Definition stream_id (evs : list Event) : option string :=
  last_id (flat_map (fun e => opt_list (captured_id_of e)) evs).

(** An event with no type that carries both a bare delta and a bare id. *)
Definition delta_with_id : Event :=
  {| ev_type := None; ev_delta := Some "Hi"; ev_response := None;
     ev_id := Some "resp_1" |}.

(** *** Streamed completions and the model listing *)

(** The content a streamed chunk carries: [chunk.choices[0].delta.content]
    of a chunk that has a choice. *)
Definition chunk_content (chunk : Chunk) : option string :=
  match chunk_choices chunk with
  | content :: _ => content
  | [] => None
  end.

Definition has_choice (chunk : Chunk) : bool :=
  match chunk_choices chunk with [] => false | _ :: _ => true end.

Definition chunks_text (chunks : list Chunk) : string :=
  concat_all (flat_map (fun chunk => opt_list (chunk_content chunk)) chunks).

Definition chunks_printed (chunks : list Chunk) : list effect :=
  flat_map (fun chunk =>
              match chunk_content chunk with
              | Some content => [Echo content false]
              | None => []
              end) chunks.

(** What [list_models] prints for one model. *)
Definition model_lines (model : Model) : list effect :=
  [Echo ("  ID: " ++ model_id model) true]
  ++ match model_created model with
     | Some created => [Echo ("      Created: " ++ str_of_int created) true]
     | None => []
     end
  ++ match model_owned_by model with
     | Some owned_by => [Echo ("      Owner: " ++ owned_by) true]
     | None => []
     end
  ++ [Echo EmptyString true].

(** *** Background polling, as the specification describes it *)

(** What the remote job does while it is polled: [rs] are the responses the
    successive retrievals return, the first at call number [n]; the job is
    pending before each of them and settled after the last. *)
Fixpoint job_script (client : Client) (response_id : string) (n : nat)
  (current : Response) (rs : list Response) : Prop :=
  match rs with
  | [] => pending (resp_status current) = false
  | r :: rest =>
      pending (resp_status current) = true /\
      responses_retrieve client n response_id = inr r /\
      job_script client response_id (Datatypes.S n) r rest
  end.

(** The effects of poll number [k]: the sleep, the progress marker on
    every fifth poll, the retrieval. *)
Definition poll_effects (response_id : string) (k : nat) : list effect :=
  [Sleep 1] ++ (if (k mod 5 =? 0)%nat then [Echo "." false] else [])
  ++ [ResponsesRetrieve response_id].

(** The effects of [polls] polls after [poll_count] earlier ones. *)
Definition poll_trace (response_id : string) (poll_count polls : nat) : list effect :=
  flat_map (poll_effects response_id) (seq (poll_count + 1) polls).

(** *** Remote ends used as examples *)

Definition refused : exn := APIError "Connection error.".

(** A remote end that is down: every call raises. *)
Definition offline_client : Client :=
  {| chat_create := fun _ _ _ => inl refused;
     chat_create_stream := fun _ _ _ => inl refused;
     responses_create := fun _ _ => inl refused;
     responses_create_stream := fun _ _ => inl refused;
     responses_retrieve := fun _ _ => inl refused |}.

(** A response that carries its text in the aggregated field. *)
Definition text_response (id status text : string) : Response :=
  {| resp_id := id; resp_status := Some status;
     resp_output_text := Some text; resp_output := None |}.

(** A remote end whose responses carry the empty string as identifier. *)
Definition blank_id_client : Client :=
  {| chat_create := fun _ _ _ => inl refused;
     chat_create_stream := fun _ _ _ => inl refused;
     responses_create := fun _ _ => inr (text_response EmptyString "completed" "Hello!");
     responses_create_stream := fun _ _ => inl refused;
     responses_retrieve := fun _ _ => inl refused |}.

(** A response object with neither an aggregated text nor an output. *)
Definition bare_response : Response :=
  {| resp_id := "resp_1"; resp_status := Some "completed";
     resp_output_text := None; resp_output := None |}.

(** A background job that is still in progress at the first [polls - 1]
    retrievals and completed from then on; its first call is number 0. *)
Definition slow_job_client (polls : nat) : Client :=
  {| chat_create := fun _ _ _ => inl refused;
     chat_create_stream := fun _ _ _ => inl refused;
     responses_create := fun _ _ => inr (text_response "job_1" "queued" EmptyString);
     responses_create_stream := fun _ _ => inl refused;
     responses_retrieve := fun n id =>
       inr (if (n <? polls)%nat then text_response id "in_progress" EmptyString
            else text_response id "completed" "Done.") |}.

(** A stream of one queued event, a text delta, a bare delta and the
    completed event that names the response. *)
Definition sample_events : list Event :=
  [ {| ev_type := Some "response.queued"; ev_delta := None;
       ev_response := None; ev_id := None |};
    {| ev_type := Some "response.output_text.delta"; ev_delta := Some "Hel";
       ev_response := None; ev_id := None |};
    {| ev_type := None; ev_delta := Some "lo"; ev_response := None; ev_id := None |};
    {| ev_type := Some "response.completed"; ev_delta := None;
       ev_response := Some (Some "resp_9"); ev_id := None |} ].

(** A remote end that answers every streamed request with [evs]. *)
Definition streaming_client (evs : list Event) : Client :=
  {| chat_create := fun _ _ _ => inl refused;
     chat_create_stream := fun _ _ _ => inl refused;
     responses_create := fun _ _ => inl refused;
     responses_create_stream := fun _ _ => inr (mkStream evs None);
     responses_retrieve := fun _ _ => inl refused |}.

(** A remote end that answers every chat completion with one choice. *)
Definition canned_client (reply : string) : Client :=
  {| chat_create := fun _ _ _ => inr (ChatCompletion [Some reply]);
     chat_create_stream := fun _ _ _ => inl refused;
     responses_create := fun _ _ => inl refused;
     responses_create_stream := fun _ _ => inl refused;
     responses_retrieve := fun _ _ => inl refused |}.

(** A remote end that answers every plain Responses request at once. *)
Definition answering_client : Client :=
  {| chat_create := fun _ _ _ => inl refused;
     chat_create_stream := fun _ _ _ => inl refused;
     responses_create := fun _ _ => inr (text_response "resp_1" "completed" "Hello!");
     responses_create_stream := fun _ _ => inl refused;
     responses_retrieve := fun _ _ => inl refused |}.

(** A response whose text is spread over the parts of its output. *)
Definition fragmented_response : Response :=
  {| resp_id := "resp_2"; resp_status := Some "completed";
     resp_output_text := None;
     resp_output :=
       Some [ {| item_content := None; item_repr := "Reasoning()" |};
              {| item_content := Some [ContentPart (Some "Hel"); ContentPart None;
                                       ContentPart (Some "lo")];
                 item_repr := "Message()" |} ] |}.

Definition background_request : request_params :=
  set_background (build_request "m" "Be brief." "hello" None).

(** A remote end that gives the same answer to every call of a method. *)
Definition fixed_client (completion : exn + chat_completion)
  (chunks : exn + Stream Chunk) (response : exn + Response)
  (evs : exn + Stream Event) (retrieved : exn + Response) : Client :=
  {| chat_create := fun _ _ _ => completion;
     chat_create_stream := fun _ _ _ => chunks;
     responses_create := fun _ _ => response;
     responses_create_stream := fun _ _ => evs;
     responses_retrieve := fun _ _ => retrieved |}.

(** An environment with both variables set, and one with neither. *)
Definition configured_env : environ :=
  {| OPENAI_API_KEY := Some "key";
     OPENAI_BASE_URL := Some "https://bedrock-mantle.us-east-1.api.aws/v1";
     OpenAI := fun _ _ => None |}.

Definition bare_env : environ :=
  {| OPENAI_API_KEY := None; OPENAI_BASE_URL := None; OpenAI := fun _ _ => None |}.

(** An environment whose base URL, a lone line feed, the constructor
    refuses. *)
Definition malformed_env : environ :=
  {| OPENAI_API_KEY := Some "key";
     OPENAI_BASE_URL := Some Py.LF;
     OpenAI := fun _ _ => Some (APIError "Invalid URL") |}.

(** Two model records, the second without the optional attributes. *)
Definition sample_models : list Model :=
  [ {| model_id := "openai.gpt-oss-20b"; model_created := Some 1700000000%Z;
       model_owned_by := Some "system" |};
    {| model_id := "openai.gpt-oss-120b"; model_created := None;
       model_owned_by := None |} ].

(** Chunks of a streamed completion: two contents around an empty delta. *)
Definition sample_chunks : list Chunk :=
  [mkChunk [Some "Hel"]; mkChunk [None]; mkChunk [Some "lo"]].

(* ================================================================= *)
(** ** Strings *)

Lemma isspace_lower_char (c : ascii) : Py.isspace (Py.lower_char c) = Py.isspace c.
Proof.
  destruct c as [[] [] [] [] [] [] [] []]; vm_compute; reflexivity.
Qed.

Lemma lower_lstrip (s : string) : Py.lower (Py.lstrip s) = Py.lstrip (Py.lower s).
Proof.
  induction s as [|c s IH]; simpl; [reflexivity|].
  rewrite isspace_lower_char.
  destruct (Py.isspace c); [exact IH | reflexivity].
Qed.

Lemma lower_empty (s : string) : Py.lower s = EmptyString -> s = EmptyString.
Proof. destruct s; simpl; [reflexivity | discriminate]. Qed.

Lemma lower_rstrip (s : string) : Py.lower (Py.rstrip s) = Py.rstrip (Py.lower s).
Proof.
  induction s as [|c s IH]; simpl; [reflexivity|].
  rewrite <- IH, isspace_lower_char.
  destruct (Py.rstrip s) as [|d r]; simpl.
  - destruct (Py.isspace c); reflexivity.
  - reflexivity.
Qed.

(** Stripping and lower-casing commute. *)
Lemma lower_strip (s : string) : Py.lower (Py.strip s) = Py.strip (Py.lower s).
Proof. unfold Py.strip. rewrite lower_rstrip, lower_lstrip. reflexivity. Qed.

Lemma truthy_lower (s : string) : Py.truthy (Py.lower s) = Py.truthy s.
Proof. destruct s; reflexivity. Qed.

(** A line whose lower-case form is an exit command has nothing to strip. *)
Lemma exit_line_stripped (line : string) :
  In (Py.lower line) EXIT_COMMANDS -> Py.lower (Py.strip line) = Py.lower line.
Proof.
  intros H. rewrite lower_strip.
  simpl in H.
  destruct H as [H|[H|[H|[H|[]]]]]; rewrite <- H; reflexivity.
Qed.

(** The lines the loops take for an exit command: the lower-case form of
    the line, or of the line without the blanks around it, is one. *)
Lemma exit_line (line : string) :
  In (Py.lower line) EXIT_COMMANDS \/ In (Py.lower (Py.strip line)) EXIT_COMMANDS ->
  In (Py.lower (Py.strip line)) EXIT_COMMANDS.
Proof.
  intros [H|H]; [|exact H]. rewrite (exit_line_stripped line H). exact H.
Qed.

Lemma mem_In (x : string) (xs : list string) : Py.mem x xs = true <-> In x xs.
Proof.
  unfold Py.mem. rewrite existsb_exists. split.
  - intros [y [Hy E]]. apply String.eqb_eq in E. subst. exact Hy.
  - intros H. exists x. split; [exact H | apply String.eqb_refl].
Qed.

(* ================================================================= *)
(** ** The store under composition *)

Lemma keeps_ret {S A} (a : A) : keeps_store (@ret S A a).
Proof. intros n s. reflexivity. Qed.

Lemma keeps_raise {S A} (e : exn) : keeps_store (@raise S A e).
Proof. intros n s. reflexivity. Qed.

Lemma keeps_emit {S} (e : effect) : keeps_store (@emit S e).
Proof. intros n s. reflexivity. Qed.

Lemma keeps_echo {S} (msg : string) (nl : bool) : keeps_store (@echo S msg nl).
Proof. intros n s. reflexivity. Qed.

Lemma keeps_lift {S A} (r : result A) : keeps_store (@lift S A r).
Proof. intros n s. reflexivity. Qed.

Lemma keeps_remote {S A} (e : effect) (reply : nat -> exn + A) :
  keeps_store (@remote S A e reply).
Proof. intros n s. reflexivity. Qed.

Lemma keeps_get {S} : keeps_store (@get S).
Proof. intros n s. reflexivity. Qed.

Lemma keeps_bind {S A B} (c : M S A) (k : A -> M S B) :
  keeps_store c -> (forall a, keeps_store (k a)) -> keeps_store (bind c k).
Proof.
  intros Hc Hk n s. unfold bind.
  destruct (outcome (c n s)) eqn:E; simpl; rewrite ?Hk; apply Hc.
Qed.

Lemma keeps_for_each {S A B} (body : B -> A -> M S B) (xs : list A) :
  (forall acc x, keeps_store (body acc x)) ->
  forall acc, keeps_store (for_each body xs acc).
Proof.
  intros Hb. induction xs as [|x xs IH]; intros acc; simpl.
  - apply keeps_ret.
  - apply keeps_bind; [apply Hb | exact IH].
Qed.

Lemma keeps_for_stream {S A B} (body : B -> A -> M S B) (xs : Stream A) (acc : B) :
  (forall acc x, keeps_store (body acc x)) -> keeps_store (for_stream body xs acc).
Proof.
  intros Hb. unfold for_stream. apply keeps_bind.
  - apply keeps_for_each. exact Hb.
  - intros a. destruct (failure xs); [apply keeps_raise | apply keeps_ret].
Qed.

Lemma keeps_first {S A} (xs : list A) : keeps_store (@first S A xs).
Proof. destruct xs; [apply keeps_raise | apply keeps_ret]. Qed.

Create HintDb store.
#[local] Hint Resolve keeps_ret keeps_raise keeps_emit keeps_echo keeps_lift
  keeps_remote keeps_get keeps_first : store.

(** Whoever keeps the store is atomic. *)
Lemma keeps_atomic {S A} (c : M S A) : keeps_store c -> atomic c.
Proof. intros H n s e _. apply H. Qed.

(** A store-keeping prefix followed by an atomic rest is atomic. *)
Lemma atomic_bind {S A B} (c : M S A) (k : A -> M S B) :
  keeps_store c -> (forall a, atomic (k a)) -> atomic (bind c k).
Proof.
  intros Hc Hk n s e. unfold bind.
  pose proof (Hc n s) as Hs.
  destruct (outcome (c n s)) eqn:E; simpl; intros H.
  - rewrite (Hk a _ _ e H). exact Hs.
  - exact Hs.
  - discriminate.
Qed.

Lemma atomic_put {S} (s' : S) : atomic (put s').
Proof. intros n s e H. discriminate. Qed.

Lemma ends_ret {S A} (a : A) : ends (@ret S A a).
Proof. intros n s. discriminate. Qed.

Lemma ends_raise {S A} (e : exn) : ends (@raise S A e).
Proof. intros n s. discriminate. Qed.

Lemma ends_emit {S} (e : effect) : ends (@emit S e).
Proof. intros n s. discriminate. Qed.

Lemma ends_remote {S A} (e : effect) (reply : nat -> exn + A) : ends (@remote S A e reply).
Proof. intros n s. simpl. destruct (reply n); discriminate. Qed.

Lemma ends_bind {S A B} (c : M S A) (k : A -> M S B) :
  ends c -> (forall a, ends (k a)) -> ends (bind c k).
Proof.
  intros Hc Hk n s. unfold bind.
  pose proof (Hc n s) as H.
  destruct (outcome (c n s)) eqn:E; simpl.
  - apply Hk.
  - discriminate.
  - contradiction.
Qed.

Lemma ends_for_each {S A B} (body : B -> A -> M S B) (xs : list A) :
  (forall acc x, ends (body acc x)) -> forall acc, ends (for_each body xs acc).
Proof.
  intros Hb. induction xs as [|x xs IH]; intros acc; simpl.
  - apply ends_ret.
  - apply ends_bind; [apply Hb | exact IH].
Qed.

Lemma ends_for_stream {S A B} (body : B -> A -> M S B) (xs : Stream A) (acc : B) :
  (forall acc x, ends (body acc x)) -> ends (for_stream body xs acc).
Proof.
  intros Hb. unfold for_stream. apply ends_bind.
  - apply ends_for_each. exact Hb.
  - intros a. destruct (failure xs); [apply ends_raise | apply ends_ret].
Qed.

(* ================================================================= *)
(** ** Running a computation step by step *)

Lemma bind_val {S A B} (c : M S A) (k : A -> M S B) n s ev n1 s1 a :
  c n s = Run ev n1 s1 (Val a) -> bind c k n s = after ev (k a n1 s1).
Proof. intros H. unfold bind. rewrite H. reflexivity. Qed.

Lemma bind_raise {S A B} (c : M S A) (k : A -> M S B) n s ev n1 s1 e :
  c n s = Run ev n1 s1 (Raise e) -> bind c k n s = Run ev n1 s1 (Raise e).
Proof. intros H. unfold bind. rewrite H. reflexivity. Qed.

Lemma bind_diverge {S A B} (c : M S A) (k : A -> M S B) n s ev n1 s1 :
  c n s = Run ev n1 s1 Diverge -> bind c k n s = Run ev n1 s1 Diverge.
Proof. intros H. unfold bind. rewrite H. reflexivity. Qed.

Lemma try_val {S A} (c : M S A) (h : exn -> M S A) n s ev n1 s1 a :
  c n s = Run ev n1 s1 (Val a) -> try_catch c h n s = Run ev n1 s1 (Val a).
Proof. intros H. unfold try_catch. rewrite H. reflexivity. Qed.

Lemma try_raise {S A} (c : M S A) (h : exn -> M S A) n s ev n1 s1 e :
  c n s = Run ev n1 s1 (Raise e) -> try_catch c h n s = after ev (h e n1 s1).
Proof. intros H. unfold try_catch. rewrite H. reflexivity. Qed.

Lemma try_diverge {S A} (c : M S A) (h : exn -> M S A) n s ev n1 s1 :
  c n s = Run ev n1 s1 Diverge -> try_catch c h n s = Run ev n1 s1 Diverge.
Proof. intros H. unfold try_catch. rewrite H. reflexivity. Qed.

Lemma run_eta {S A} (r : run S A) :
  r = Run (events r) (calls r) (store r) (outcome r).
Proof. destruct r. reflexivity. Qed.

Lemma after_nil {S A} (r : run S A) : after [] r = r.
Proof. destruct r. reflexivity. Qed.

Lemma after_after {S A} (es1 es2 : list effect) (r : run S A) :
  after es1 (after es2 r) = after (es1 ++ es2) r.
Proof. unfold after. simpl. rewrite app_assoc. reflexivity. Qed.

(** One step of a computation whose head is a primitive. *)
Ltac prim := erewrite bind_val by reflexivity.

(** Flatten the nested [after]s of a finished run. *)
Ltac run_done :=
  unfold after, echo, emit, ret, put;
  cbn [events calls store outcome app];
  rewrite <- ?app_assoc, ?app_nil_r;
  cbn [app];
  reflexivity.

(* ================================================================= *)
(** ** The Chat Completions loop *)

Lemma keeps_on_chunk (response_text : string) (chunk : Chunk) :
  keeps_store (on_chunk response_text chunk).
Proof.
  unfold on_chunk. apply keeps_bind; [apply keeps_first|].
  intros [content|]; [|apply keeps_ret].
  apply keeps_bind; [apply keeps_echo | intros; apply keeps_ret].
Qed.

Lemma ends_on_chunk (response_text : string) (chunk : Chunk) :
  ends (on_chunk response_text chunk).
Proof.
  unfold on_chunk. apply ends_bind.
  - destruct (chunk_choices chunk); [apply ends_raise | apply ends_ret].
  - intros [content|]; [|apply ends_ret].
    apply ends_bind; [apply ends_emit | intros; apply ends_ret].
Qed.

Lemma append_message_run (m : message) n (messages : list message) :
  append_message m n messages = Run [] n (messages ++ [m])%list (Val tt).
Proof. reflexivity. Qed.

Lemma call_chat_create_run client model n messages :
  call_chat_create client model n messages =
  Run [ChatCreate model messages false] (Datatypes.S n) messages
      (match chat_create client n model messages with
       | inl e => Raise e | inr r => Val r end).
Proof. reflexivity. Qed.

Lemma call_chat_create_stream_run client model n messages :
  call_chat_create_stream client model n messages =
  Run [ChatCreate model messages true] (Datatypes.S n) messages
      (match chat_create_stream client n model messages with
       | inl e => Raise e | inr r => Val r end).
Proof. reflexivity. Qed.

Lemma completions_exchange_cases (client : Client) (model : string) (stream : bool)
  (n : nat) (messages : list message) :
  let r := completions_exchange client model stream n messages in
  (exists a, outcome r = Val tt /\ store r = (messages ++ [assistant_message a])%list)
  \/ (exists e, outcome r = Raise e /\ store r = messages).
Proof.
  unfold completions_exchange. destruct stream.
  - pose proof (call_chat_create_stream_run client model n messages) as Hc.
    destruct (chat_create_stream client n model messages) as [e|st].
    + rewrite (bind_raise _ _ _ _ _ _ _ _ Hc). right. exists e. split; reflexivity.
    + rewrite (bind_val _ _ _ _ _ _ _ _ Hc).
      pose proof (keeps_for_stream on_chunk st EmptyString keeps_on_chunk
                    (Datatypes.S n) messages) as Hs.
      pose proof (ends_for_stream on_chunk st EmptyString ends_on_chunk
                    (Datatypes.S n) messages) as He.
      destruct (for_stream on_chunk st EmptyString (Datatypes.S n) messages)
        as [ev c s o] eqn:E. simpl in Hs, He. subst s.
      destruct o as [text|e|].
      * rewrite (bind_val _ _ _ _ _ _ _ _ E). prim.
        left. exists (Some text). split; reflexivity.
      * rewrite (bind_raise _ _ _ _ _ _ _ _ E). right. exists e. split; reflexivity.
      * contradiction.
  - pose proof (call_chat_create_run client model n messages) as Hc.
    destruct (chat_create client n model messages) as [e|resp].
    + rewrite (bind_raise _ _ _ _ _ _ _ _ Hc). right. exists e. split; reflexivity.
    + rewrite (bind_val _ _ _ _ _ _ _ _ Hc).
      destruct (choices resp) as [|a rest].
      * right. eexists. split; reflexivity.
      * left. exists a. split; reflexivity.
Qed.

Lemma completions_turn_ok client model stream user_input n messages ev c s :
  completions_exchange client model stream n (messages ++ [user_message user_input])%list
    = Run ev c s (Val tt) ->
  completions_turn client model stream user_input n messages
    = Run ([Echo EmptyString true; Echo "Assistant: " false] ++ ev
           ++ [Echo EmptyString true])%list c s (Val tt).
Proof.
  intros E. unfold completions_turn.
  rewrite (bind_val _ _ _ _ _ _ _ _ (append_message_run _ _ _)).
  prim. prim.
  rewrite (bind_val _ _ _ _ _ _ _ _ (try_val _ _ _ _ _ _ _ _ E)).
  reflexivity.
Qed.

Lemma completions_turn_failed client model stream user_input n messages ev c e :
  completions_exchange client model stream n (messages ++ [user_message user_input])%list
    = Run ev c (messages ++ [user_message user_input])%list (Raise e) ->
  completions_turn client model stream user_input n messages
    = Run ([Echo EmptyString true; Echo "Assistant: " false] ++ ev
           ++ [Echo (Py.LF ++ "Error: " ++ exn_str e) true; Echo EmptyString true])%list
          c messages (Val tt).
Proof.
  intros E. unfold completions_turn.
  rewrite (bind_val _ _ _ _ _ _ _ _ (append_message_run _ _ _)).
  prim. prim.
  assert (H : completions_on_error e c (messages ++ [user_message user_input])%list
              = Run [Echo (Py.LF ++ "Error: " ++ exn_str e) true] c messages (Val tt)).
  { unfold completions_on_error. prim. unfold pop_message, bind, get. 
    cbn [outcome events calls store].
    destruct (messages ++ [user_message user_input])%list eqn:E'.
    - destruct messages; discriminate.
    - rewrite <- E'. unfold put, after. cbn [outcome events calls store].
      rewrite removelast_last. reflexivity. }
  rewrite (bind_val _ _ _ _ _ _ _ _
             (eq_trans (try_raise _ _ _ _ _ _ _ _ E) (f_equal (after ev) H))).
  run_done.
Qed.

(** A turn always returns, with the history either as it was or grown by
    the user message and the assistant's reply. *)
Lemma completions_turn_cases client model stream user_input n messages :
  let r := completions_turn client model stream user_input n messages in
  outcome r = Val tt /\
  (store r = messages \/
   exists a, store r = (messages ++ [user_message user_input; assistant_message a])%list).
Proof.
  pose proof (completions_exchange_cases client model stream n
                (messages ++ [user_message user_input])%list) as H.
  destruct (completions_exchange client model stream n
              (messages ++ [user_message user_input])%list) as [ev c s o] eqn:E.
  cbn [outcome store] in H. cbv zeta.
  destruct H as [[a [-> ->]]|[e [-> ->]]].
  - rewrite (completions_turn_ok _ _ _ _ _ _ _ _ _ E). split; [reflexivity|].
    right. exists a. cbn [store]. rewrite <- app_assoc. reflexivity.
  - rewrite (completions_turn_failed _ _ _ _ _ _ _ _ _ E). split; [reflexivity|].
    left. reflexivity.
Qed.

Lemma ordinary_input_inv (line : string) :
  ordinary_input line = true ->
  Py.truthy (Py.strip line) = true /\
  Py.mem (Py.lower (Py.strip line)) EXIT_COMMANDS = false /\
  (Py.lower (Py.strip line) =? "/clear") = false /\
  (Py.lower (Py.strip line) =? "/status") = false.
Proof.
  unfold ordinary_input. cbv zeta.
  rewrite !andb_true_iff, !negb_true_iff. tauto.
Qed.

Lemma completions_body_ordinary client model stream system line :
  ordinary_input line = true ->
  completions_body client model stream system line =
  (completions_turn client model stream (Py.strip line) ;; ret Continue).
Proof.
  intros H. apply ordinary_input_inv in H. destruct H as [H1 [H2 [H3 H4]]].
  unfold completions_body. cbv zeta. rewrite H1, H2, H3, H4. reflexivity.
Qed.

Lemma read_line_run {S} (line : string) (rest : list string) n (s : S) :
  read_line (line :: rest) n s = Run [Prompt] n s (Val (Some line)).
Proof. reflexivity. Qed.

Lemma prompt_loop_nil {S} (body : string -> M S ctl) n s :
  prompt_loop body [] n s = Run [Prompt] n s (Raise Abort).
Proof. reflexivity. Qed.

Lemma prompt_loop_continue {S} (body : string -> M S ctl) line rest n s :
  outcome (body line n s) = Val Continue ->
  prompt_loop body (line :: rest) n s =
  after (Prompt :: events (body line n s))
        (prompt_loop body rest (calls (body line n s)) (store (body line n s))).
Proof.
  intros H. cbn [prompt_loop].
  rewrite (bind_val _ _ _ _ _ _ _ _ (read_line_run line rest n s)).
  destruct (body line n s) as [ev c s' o] eqn:E. cbn [outcome] in H. subst o.
  rewrite (bind_val _ _ _ _ _ _ _ _ E), after_after. reflexivity.
Qed.

Lemma prompt_loop_break {S} (body : string -> M S ctl) line rest n s :
  outcome (body line n s) = Val Break ->
  prompt_loop body (line :: rest) n s =
  Run (Prompt :: events (body line n s)) (calls (body line n s))
      (store (body line n s)) (Val tt).
Proof.
  intros H. cbn [prompt_loop].
  rewrite (bind_val _ _ _ _ _ _ _ _ (read_line_run line rest n s)).
  destruct (body line n s) as [ev c s' o] eqn:E. cbn [outcome] in H. subst o.
  rewrite (bind_val _ _ _ _ _ _ _ _ E). run_done.
Qed.

Lemma prompt_loop_diverge {S} (body : string -> M S ctl) line rest n s :
  outcome (body line n s) = Diverge ->
  prompt_loop body (line :: rest) n s =
  Run (Prompt :: events (body line n s)) (calls (body line n s))
      (store (body line n s)) Diverge.
Proof.
  intros H. cbn [prompt_loop].
  rewrite (bind_val _ _ _ _ _ _ _ _ (read_line_run line rest n s)).
  destruct (body line n s) as [ev c s' o] eqn:E. cbn [outcome] in H. subst o.
  rewrite (bind_diverge _ _ _ _ _ _ _ E). reflexivity.
Qed.

(** Whatever is left of the input, the first thing the loop does is
    prompt. *)
Lemma prompt_loop_prompts {S} (body : string -> M S ctl) inputs n s :
  hd_error (events (prompt_loop body inputs n s)) = Some Prompt.
Proof.
  destruct inputs as [|line rest]; [reflexivity|]. cbn [prompt_loop].
  rewrite (bind_val _ _ _ _ _ _ _ _ (read_line_run line rest n s)). reflexivity.
Qed.

Lemma lower_truthy (s : string) : Py.truthy (Py.lower s) = true -> Py.truthy s = true.
Proof. destruct s; simpl; auto. Qed.

Lemma exit_command_run_completions client model stream system line n messages :
  In (Py.lower (Py.strip line)) EXIT_COMMANDS ->
  completions_body client model stream system line n messages =
  Run [Echo "Goodbye!" true] n messages (Val Break).
Proof.
  intros H. unfold completions_body. cbv zeta.
  assert (Ht : Py.truthy (Py.strip line) = true).
  { apply lower_truthy.
    simpl in H. destruct H as [H|[H|[H|[H|[]]]]]; rewrite <- H; reflexivity. }
  rewrite Ht. apply mem_In in H. rewrite H. reflexivity.
Qed.

(** C9: in completions mode, after a /clear command (in any letter case,
    with any blanks around it) the message list is exactly the one-element
    list holding the configured system message, whatever the history was
    and however long; nothing is sent to the remote end and the loop goes
    on. *)
Theorem clear_resets_history client model stream system line n messages :
  Py.lower (Py.strip line) = "/clear" ->
  completions_body client model stream system line n messages =
  Run [Echo ("Conversation cleared." ++ Py.LF) true] n [system_message system]
      (Val Continue).
Proof.
  intros H. unfold completions_body. cbv zeta. rewrite H.
  assert (Ht : Py.truthy (Py.strip line) = true).
  { apply lower_truthy. rewrite H. reflexivity. }
  rewrite Ht. reflexivity.
Qed.

Lemma completions_body_returns client model stream system line n messages :
  exists c, outcome (completions_body client model stream system line n messages) = Val c.
Proof.
  unfold completions_body. cbv zeta.
  destruct (Py.truthy (Py.strip line)); [|eexists; reflexivity].
  destruct (Py.mem _ EXIT_COMMANDS); [eexists; reflexivity|].
  destruct (_ =? "/clear"); [eexists; reflexivity|].
  destruct (_ =? "/status"); [eexists; reflexivity|].
  cbn [negb].
  pose proof (completions_turn_cases client model stream (Py.strip line) n messages) as [H _].
  destruct (completions_turn client model stream (Py.strip line) n messages)
    as [ev c s o] eqn:E. cbn [outcome] in H. subst o.
  rewrite (bind_val _ _ _ _ _ _ _ _ E). eexists. reflexivity.
Qed.

Lemma completions_body_invariant client model stream system line n messages :
  starts_with_system system messages ->
  starts_with_system system
    (store (completions_body client model stream system line n messages)).
Proof.
  intros Hinv. unfold completions_body. cbv zeta.
  destruct (Py.truthy (Py.strip line)); [|exact Hinv].
  destruct (Py.mem _ EXIT_COMMANDS); [exact Hinv|].
  destruct (_ =? "/clear"); [reflexivity|].
  destruct (_ =? "/status"); [exact Hinv|].
  cbn [negb].
  pose proof (completions_turn_cases client model stream (Py.strip line) n messages)
    as [H Hs].
  destruct (completions_turn client model stream (Py.strip line) n messages)
    as [ev c s o] eqn:E. cbn [outcome store] in H, Hs. subst o.
  rewrite (bind_val _ _ _ _ _ _ _ _ E). cbn [after ret store].
  destruct Hs as [->|[a ->]]; [exact Hinv|].
  unfold starts_with_system in *. destruct messages; [discriminate | exact Hinv].
Qed.

Lemma completions_loop_invariant client model stream system inputs :
  forall n messages,
  starts_with_system system messages ->
  starts_with_system system
    (store (completions_loop client model stream system inputs n messages)).
Proof.
  unfold completions_loop.
  induction inputs as [|line rest IH]; intros n messages Hinv.
  - exact Hinv.
  - destruct (completions_body_returns client model stream system line n messages)
      as [[|] Hc].
    + rewrite (prompt_loop_continue _ _ _ _ _ Hc). cbn [after store].
      apply IH. apply completions_body_invariant. exact Hinv.
    + rewrite (prompt_loop_break _ _ _ _ _ Hc). cbn [store].
      apply completions_body_invariant. exact Hinv.
Qed.

(** C10: in completions mode the message list is never empty and its first
    element is the system message with the configured prompt.  This holds
    of the initial list; every pass through the loop body preserves it,
    whatever the line is (a turn that succeeds, a turn that fails and is
    rolled back, /clear, /status, a blank line, an exit command), and
    every pass returns; so it holds of the list the whole run ends with,
    for every sequence of input lines. *)
Theorem history_starts_with_system client model stream system :
  starts_with_system system [system_message system] /\
  (forall line n messages,
     starts_with_system system messages ->
     let r := completions_body client model stream system line n messages in
     starts_with_system system (store r) /\ exists c, outcome r = Val c) /\
  (forall inputs n,
     starts_with_system system
       (store (run_chat_completions client model stream system inputs n))).
Proof.
  split; [reflexivity|]. split.
  - intros line n messages H. split.
    + apply completions_body_invariant. exact H.
    + apply completions_body_returns.
  - intros inputs n. apply completions_loop_invariant. reflexivity.
Qed.

(** C1: in completions mode, when the exchange of a turn raises an
    exception (the remote call itself, or anything after it inside the
    [try] block), the message list after the turn equals the list before
    it, in contents and so in length; the error is printed inline; the
    body ends by going round the loop again, and the loop reads the rest
    of the input from the restored history. *)
Theorem failed_turn_rolls_back client model stream system line n messages e :
  ordinary_input line = true ->
  outcome (completions_exchange client model stream n
             (messages ++ [user_message (Py.strip line)])%list) = Raise e ->
  let r := completions_body client model stream system line n messages in
  store r = messages /\
  length (store r) = length messages /\
  outcome r = Val Continue /\
  In (Echo (Py.LF ++ "Error: " ++ exn_str e) true) (events r) /\
  forall rest,
    completions_loop client model stream system (line :: rest) n messages =
    after (Prompt :: events r)
          (completions_loop client model stream system rest (calls r) messages).
Proof.
  intros Hord Hx. cbv zeta.
  pose proof (completions_exchange_cases client model stream n
                (messages ++ [user_message (Py.strip line)])%list) as Hc.
  destruct (completions_exchange client model stream n
              (messages ++ [user_message (Py.strip line)])%list) as [ev c s o] eqn:E.
  cbn [outcome store] in Hx, Hc. subst o.
  destruct Hc as [[a [Hc _]]|[e' [_ ->]]]; [discriminate|].
  assert (Hb : completions_body client model stream system line n messages =
               Run ([Echo EmptyString true; Echo "Assistant: " false] ++ ev
                    ++ [Echo (Py.LF ++ "Error: " ++ exn_str e) true;
                        Echo EmptyString true])%list c messages (Val Continue)).
  { rewrite (completions_body_ordinary _ _ _ _ _ Hord).
    rewrite (bind_val _ _ _ _ _ _ _ _ (completions_turn_failed _ _ _ _ _ _ _ _ _ E)).
    run_done. }
  rewrite Hb. cbn [store outcome events calls].
  split; [reflexivity|]. split; [reflexivity|]. split; [reflexivity|]. split.
  - cbn [app]. right. right. apply in_or_app. right. left. reflexivity.
  - intros rest. unfold completions_loop.
    rewrite prompt_loop_continue; rewrite Hb; reflexivity.
Qed.

(* ================================================================= *)
(** ** The streaming handler and the Responses loop *)

Lemma string_app_assoc (a b c : string) : (a ++ b) ++ c = a ++ (b ++ c).
Proof. induction a as [|x a IH]; simpl; [reflexivity | rewrite IH; reflexivity]. Qed.

Lemma string_app_nil_r (a : string) : a ++ EmptyString = a.
Proof. induction a as [|x a IH]; simpl; [reflexivity | rewrite IH; reflexivity]. Qed.

Lemma last_id_app (xs : list string) (y : string) : last_id (xs ++ [y]) = Some y.
Proof. unfold last_id. rewrite map_app. apply last_last. Qed.

Lemma last_id_cons (x : string) (xs : list string) :
  last_id (x :: xs) = match last_id xs with Some y => Some y | None => Some x end.
Proof.
  unfold last_id. revert x. induction xs as [|y ys IH]; intros x; [reflexivity|].
  change (last (map Some (x :: y :: ys)) None) with (last (map Some (y :: ys)) None).
  rewrite IH. destruct (last (map Some ys) None); reflexivity.
Qed.

(** What one event does to the two locals and to the terminal. *)
Lemma on_event_run {S} (text : string) (id : option string) (event : Event) n (s : S) :
  on_event (text, id) event n s =
  Run (printed event) n s
      (Val (text ++ concat_all (opt_list (delta_of event)),
            match captured_id_of event with Some i => Some i | None => id end)).
Proof.
  unfold on_event, printed, delta_of, captured_id_of, completed_id.
  destruct event as [[type|] [delta|] resp eid]; cbn [ev_type ev_delta ev_response ev_id].
  1, 2: repeat match goal with
        | |- context [String.eqb ?t ?c] =>
            is_var t; destruct (String.eqb_spec t c) as [->|?];
            cbn [String.eqb Ascii.eqb Bool.eqb]
        end.
  all: cbn [opt_list concat_all fold_right]; rewrite ?string_app_nil_r;
    try reflexivity.
  all: try (destruct resp as [[i|]|]; reflexivity).
  destruct eid; reflexivity.
Qed.

Lemma concat_all_app (xs ys : list string) :
  concat_all (xs ++ ys) = concat_all xs ++ concat_all ys.
Proof.
  induction xs as [|x xs IH]; cbn [concat_all fold_right app]; [reflexivity|].
  fold (concat_all (xs ++ ys)). fold (concat_all xs).
  rewrite IH, string_app_assoc. reflexivity.
Qed.

Lemma stream_text_cons (event : Event) (evs : list Event) :
  stream_text (event :: evs) =
  concat_all (opt_list (delta_of event)) ++ stream_text evs.
Proof. unfold stream_text. cbn [flat_map]. apply concat_all_app. Qed.

Lemma stream_id_cons (event : Event) (evs : list Event) :
  stream_id (event :: evs) =
  match stream_id evs with Some i => Some i | None => captured_id_of event end.
Proof.
  unfold stream_id. cbn [flat_map].
  destruct (captured_id_of event) as [i|]; cbn [opt_list app].
  - apply last_id_cons.
  - destruct (last_id _); reflexivity.
Qed.

(** The loop over the events, from any value of the two locals. *)
Lemma for_each_on_event {S} (evs : list Event) :
  forall (text : string) (id : option string) n (s : S),
  for_each on_event evs (text, id) n s =
  Run (flat_map printed evs) n s
      (Val (text ++ stream_text evs,
            match stream_id evs with Some i => Some i | None => id end)).
Proof.
  induction evs as [|event evs IH]; intros text id n s.
  - cbn. rewrite string_app_nil_r. reflexivity.
  - cbn [for_each]. rewrite (bind_val _ _ _ _ _ _ _ _ (on_event_run _ _ _ _ _)).
    rewrite IH, stream_text_cons, stream_id_cons, string_app_assoc.
    unfold after. cbn [events calls store outcome flat_map].
    destruct (stream_id evs); reflexivity.
Qed.

Lemma process_streaming_events_run {S} (evs : list Event) n (s : S) :
  process_streaming_events (mkStream evs None) n s =
  Run (flat_map printed evs ++ [Echo EmptyString true]) n s
      (Val (stream_text evs, stream_id evs)).
Proof.
  assert (H : for_stream on_event (mkStream evs None) (EmptyString, None) n s =
              Run (flat_map printed evs) n s (Val (stream_text evs, stream_id evs))).
  { unfold for_stream. cbn [items failure].
    rewrite (bind_val _ _ _ _ _ _ _ _ (for_each_on_event evs _ _ _ _)).
    cbn [String.append]. unfold after, ret. cbn [events calls store outcome].
    rewrite app_nil_r. destruct (stream_id evs); reflexivity. }
  unfold process_streaming_events.
  rewrite (bind_val _ _ _ _ _ _ _ _ H). prim. run_done.
Qed.

Lemma streamed_exchange_run client request_params evs n previous_response_id :
  responses_create_stream client n (set_stream request_params)
    = inr (mkStream evs None) ->
  streamed_exchange client request_params n previous_response_id =
  Run (ResponsesCreate (set_stream request_params)
         :: flat_map printed evs ++ [Echo EmptyString true])
      (Datatypes.S n)
      (if Py.truthy_opt (stream_id evs) then stream_id evs
       else previous_response_id)
      (Val tt).
Proof.
  intros H. unfold streamed_exchange. cbv zeta.
  assert (Hc : remote (ResponsesCreate (set_stream request_params))
                 (fun n => responses_create_stream client n (set_stream request_params))
                 n previous_response_id
               = Run [ResponsesCreate (set_stream request_params)] (Datatypes.S n)
                     previous_response_id (Val (mkStream evs None))).
  { unfold remote. rewrite H. reflexivity. }
  rewrite (bind_val _ _ _ _ _ _ _ _ Hc).
  rewrite (bind_val _ _ _ _ _ _ _ _ (process_streaming_events_run evs _ _)).
  cbn [snd]. destruct (Py.truthy_opt (stream_id evs)); run_done.
Qed.

Lemma keeps_on_event {S} (acc : string * option string) (event : Event) :
  keeps_store (@on_event S acc event).
Proof. intros n s. destruct acc as [text id]. rewrite on_event_run. reflexivity. Qed.

Lemma keeps_process_streaming_events {S} (stream_response : Stream Event) :
  keeps_store (@process_streaming_events S stream_response).
Proof.
  unfold process_streaming_events. apply keeps_bind.
  - apply keeps_for_stream. intros acc x. apply keeps_on_event.
  - intros acc. apply keeps_bind; [apply keeps_echo | intros; apply keeps_ret].
Qed.

Lemma keeps_poll {S} (fuel : nat) client response_id :
  forall response poll_count,
  keeps_store (@poll S fuel client response_id response poll_count).
Proof.
  induction fuel as [|fuel IH]; intros response poll_count; cbn [poll];
    destruct (pending (resp_status response)); try apply keeps_ret.
  - intros n s. reflexivity.
  - apply keeps_bind; [apply keeps_emit|]. intros _.
    apply keeps_bind.
    + destruct (_ =? 0)%nat; [apply keeps_echo | apply keeps_ret].
    + intros _. apply keeps_bind; [apply keeps_remote | intros r; apply IH].
Qed.

Lemma atomic_streamed_exchange client request_params :
  atomic (streamed_exchange client request_params).
Proof.
  unfold streamed_exchange. cbv zeta.
  apply atomic_bind; [apply keeps_remote|]. intros stream_response.
  apply atomic_bind; [apply keeps_process_streaming_events|]. intros r.
  destruct (Py.truthy_opt (snd r)); [apply atomic_put|].
  apply keeps_atomic, keeps_ret.
Qed.

Lemma atomic_put_after_echo {S} (msg : string) (s' : S) :
  atomic (echo msg true ;; put s').
Proof. intros n s e H. discriminate. Qed.

Lemma atomic_polled_exchange fuel client request_params :
  atomic (polled_exchange fuel client request_params).
Proof.
  unfold polled_exchange. cbv zeta.
  apply atomic_bind; [apply keeps_remote|]. intros response.
  apply atomic_bind; [apply keeps_echo|]. intros _.
  apply atomic_bind; [apply keeps_poll|]. intros polled.
  apply atomic_bind; [apply keeps_echo|]. intros _.
  apply atomic_bind; [apply keeps_echo|]. intros _.
  unfold report_job.
  destruct (status_is _ "completed").
  - apply atomic_bind; [apply keeps_lift|]. intros text. apply atomic_put_after_echo.
  - destruct (status_is _ "failed"); [apply keeps_atomic, keeps_echo|].
    destruct (status_is _ "cancelled"); apply keeps_atomic, keeps_echo.
Qed.

Lemma atomic_plain_exchange client request_params :
  atomic (plain_exchange client request_params).
Proof.
  unfold plain_exchange.
  apply atomic_bind; [apply keeps_remote|]. intros response.
  apply atomic_bind; [apply keeps_lift|]. intros text. apply atomic_put_after_echo.
Qed.

(** The whole [try] block: a raised exception finds the identifier as the
    turn found it, whichever of the four shapes was running. *)
Lemma atomic_responses_exchange fuel client model stream background system user_input :
  atomic (responses_exchange fuel client model stream background system user_input).
Proof.
  unfold responses_exchange.
  apply atomic_bind; [apply keeps_get|]. intros previous_response_id. cbv zeta.
  destruct background, stream;
    auto using atomic_streamed_exchange, atomic_polled_exchange, atomic_plain_exchange.
Qed.

Lemma responses_turn_failed fuel client model stream background system user_input
  n previous_response_id ev c e :
  responses_exchange fuel client model stream background system user_input
    n previous_response_id = Run ev c previous_response_id (Raise e) ->
  responses_turn fuel client model stream background system user_input
    n previous_response_id =
  Run ([Echo EmptyString true; Echo "Assistant: " false] ++ ev
       ++ [Echo (Py.LF ++ "Error: " ++ exn_str e) true; Echo EmptyString true])%list
      c previous_response_id (Val tt).
Proof.
  intros E. unfold responses_turn. prim. prim.
  rewrite (bind_val _ _ _ _ _ _ _ _
             (eq_trans (try_raise _ responses_on_error _ _ _ _ _ _ E) eq_refl)).
  run_done.
Qed.

Lemma responses_turn_ok fuel client model stream background system user_input
  n previous_response_id ev c s :
  responses_exchange fuel client model stream background system user_input
    n previous_response_id = Run ev c s (Val tt) ->
  responses_turn fuel client model stream background system user_input
    n previous_response_id =
  Run ([Echo EmptyString true; Echo "Assistant: " false] ++ ev
       ++ [Echo EmptyString true])%list c s (Val tt).
Proof.
  intros E. unfold responses_turn. prim. prim.
  rewrite (bind_val _ _ _ _ _ _ _ _ (try_val _ responses_on_error _ _ _ _ _ _ E)).
  run_done.
Qed.

Lemma responses_turn_diverges fuel client model stream background system user_input
  n previous_response_id ev c s :
  responses_exchange fuel client model stream background system user_input
    n previous_response_id = Run ev c s Diverge ->
  responses_turn fuel client model stream background system user_input
    n previous_response_id =
  Run ([Echo EmptyString true; Echo "Assistant: " false] ++ ev)%list c s Diverge.
Proof.
  intros E. unfold responses_turn. prim. prim.
  rewrite (bind_diverge _ _ _ _ _ _ _
             (try_diverge _ responses_on_error _ _ _ _ _ E)).
  run_done.
Qed.

Lemma responses_body_ordinary fuel client model stream background system line :
  ordinary_input line = true ->
  responses_body fuel client model stream background system line =
  (responses_turn fuel client model stream background system (Py.strip line) ;;
   ret Continue).
Proof.
  intros H. apply ordinary_input_inv in H. destruct H as [H1 [H2 [H3 H4]]].
  unfold responses_body. cbv zeta. rewrite H1, H2, H3, H4. reflexivity.
Qed.

(** C2: in responses mode, for each of the four request shapes (the two
    flags [stream] and [background] are arbitrary), when the exchange of a
    turn raises an exception the stored previous-response identifier after
    the turn equals its value before the turn; the error is printed
    inline; and the loop goes on with the rest of the input from that same
    identifier. *)
Theorem failed_response_keeps_context fuel client model stream background system
  line n previous_response_id e :
  ordinary_input line = true ->
  outcome (responses_exchange fuel client model stream background system
             (Py.strip line) n previous_response_id) = Raise e ->
  let r := responses_body fuel client model stream background system line
             n previous_response_id in
  store r = previous_response_id /\
  outcome r = Val Continue /\
  In (Echo (Py.LF ++ "Error: " ++ exn_str e) true) (events r) /\
  forall rest,
    responses_loop fuel client model stream background system (line :: rest)
      n previous_response_id =
    after (Prompt :: events r)
      (responses_loop fuel client model stream background system rest
         (calls r) previous_response_id).
Proof.
  intros Hord Hx. cbv zeta.
  pose proof (atomic_responses_exchange fuel client model stream background system
                (Py.strip line) n previous_response_id e Hx) as Hs.
  destruct (responses_exchange fuel client model stream background system
              (Py.strip line) n previous_response_id) as [ev c s o] eqn:E.
  cbn [outcome store] in Hx, Hs. subst o s.
  assert (Hb : responses_body fuel client model stream background system line
                 n previous_response_id =
               Run ([Echo EmptyString true; Echo "Assistant: " false] ++ ev
                    ++ [Echo (Py.LF ++ "Error: " ++ exn_str e) true;
                        Echo EmptyString true])%list c previous_response_id
                   (Val Continue)).
  { rewrite (responses_body_ordinary _ _ _ _ _ _ _ Hord).
    rewrite (bind_val _ _ _ _ _ _ _ _ (responses_turn_failed _ _ _ _ _ _ _ _ _ _ _ _ E)).
    run_done. }
  rewrite Hb. cbn [store outcome events calls].
  split; [reflexivity|]. split; [reflexivity|]. split.
  - cbn [app]. right. right. apply in_or_app. right. left. reflexivity.
  - intros rest. unfold responses_loop.
    rewrite prompt_loop_continue; rewrite Hb; reflexivity.
Qed.

(** C5, as amended: for every finite event sequence that ends without an
    exception, the streaming handler returns, as text, the in-order
    concatenation of the delta payloads of the text-delta events and of the
    events with no type that carry a bare delta; as identifier, the one of
    the last event that is either a completed event with a nested response
    identifier or an event with no type that carries a bare id and no bare
    delta; it prints each delta, a status marker for every queued and
    in-progress event (which add nothing to the text or the identifier),
    and a newline after the last event.  The caller then stores the
    identifier if it is a non-empty string and leaves the stored one alone
    otherwise, in particular when none was captured. *)
Theorem streaming_handler_result (evs : list Event) n
  (previous_response_id : option string) :
  process_streaming_events (mkStream evs None) n previous_response_id =
    Run (flat_map printed evs ++ [Echo EmptyString true]) n previous_response_id
        (Val (stream_text evs, stream_id evs)) /\
  (forall event,
     (ev_type event = Some "response.queued" ->
      delta_of event = None /\ captured_id_of event = None /\
      printed event = [Echo "[Queued...]" false]) /\
     (ev_type event = Some "response.in_progress" ->
      delta_of event = None /\ captured_id_of event = None /\
      printed event = [Echo "[Processing...]" false])) /\
  (forall client request_params,
     responses_create_stream client n (set_stream request_params)
       = inr (mkStream evs None) ->
     let r := streamed_exchange client request_params n previous_response_id in
     outcome r = Val tt /\
     store r = (if Py.truthy_opt (stream_id evs) then stream_id evs
                else previous_response_id) /\
     (stream_id evs = None -> store r = previous_response_id)).
Proof.
  split; [apply process_streaming_events_run|]. split.
  - intros event. unfold delta_of, captured_id_of, printed, delta_of.
    split; intros ->; repeat split; reflexivity.
  - intros client request_params H. cbv zeta.
    rewrite (streamed_exchange_run _ _ _ _ _ H). cbn [outcome store].
    split; [reflexivity|]. split; [reflexivity|].
    intros ->. reflexivity.
Qed.

(** C5, as stated, fails: an event with no type, the bare delta Hi and the
    bare id resp_1 is a bare-id event in the claim's words, so the claim
    gives resp_1 as the returned identifier; the handler takes the event
    for a delta and returns no identifier. *)
Lemma stated_identifier_not_captured :
  outcome (process_streaming_events (mkStream [delta_with_id] None) 0 tt)
    = Val ("Hi", None) /\
  stated_stream_id [delta_with_id] = Some "resp_1" /\
  outcome (process_streaming_events (mkStream [delta_with_id] None) 0 tt)
    <> Val (stream_text [delta_with_id], stated_stream_id [delta_with_id]).
Proof. split; [reflexivity|]. split; [reflexivity|]. discriminate. Qed.

(* ================================================================= *)
(** ** Background polling *)

Lemma stdout_app (es1 es2 : list effect) :
  stdout (es1 ++ es2)%list = stdout es1 ++ stdout es2.
Proof.
  induction es1 as [|e es1 IH]; cbn [app stdout]; [reflexivity|].
  destruct e; try exact IH.
  rewrite IH, !string_app_assoc. reflexivity.
Qed.

Lemma div5_succ (c : nat) :
  (c + 1) / 5 = c / 5 + (if ((c + 1) mod 5 =? 0)%nat then 1 else 0).
Proof.
  pose proof (Nat.div_mod_eq c 5) as H1.
  pose proof (Nat.div_mod_eq (c + 1) 5) as H2.
  pose proof (Nat.mod_upper_bound c 5 ltac:(lia)) as H3.
  pose proof (Nat.mod_upper_bound (c + 1) 5 ltac:(lia)) as H4.
  destruct (Nat.eqb_spec ((c + 1) mod 5) 0); lia.
Qed.

Lemma poll_trace_succ response_id poll_count polls :
  poll_trace response_id poll_count (Datatypes.S polls) =
  (poll_effects response_id (poll_count + 1)
   ++ poll_trace response_id (poll_count + 1) polls)%list.
Proof.
  unfold poll_trace. cbn [seq flat_map].
  replace (Datatypes.S (poll_count + 1)) with (poll_count + 1 + 1) by lia.
  reflexivity.
Qed.

(** The terminal shows one dot for every five polls. *)
Lemma stdout_poll_trace response_id polls :
  forall poll_count,
  stdout (poll_trace response_id poll_count polls) =
  Py.repeat_str "." ((poll_count + polls) / 5 - poll_count / 5).
Proof.
  induction polls as [|polls IH]; intros poll_count.
  - rewrite Nat.add_0_r, Nat.sub_diag. reflexivity.
  - rewrite poll_trace_succ, stdout_app, IH.
    replace (poll_count + Datatypes.S polls) with (poll_count + 1 + polls) by lia.
    pose proof (Nat.Div0.div_le_mono (poll_count + 1) (poll_count + 1 + polls) 5
                  ltac:(lia)) as Hle.
    pose proof (div5_succ poll_count) as Hd.
    unfold poll_effects.
    destruct ((poll_count + 1) mod 5 =? 0)%nat.
    + replace ((poll_count + 1 + polls) / 5 - poll_count / 5)
        with (Datatypes.S ((poll_count + 1 + polls) / 5 - (poll_count + 1) / 5)) by lia.
      reflexivity.
    + replace ((poll_count + 1) / 5) with (poll_count / 5) by lia. reflexivity.
Qed.

(** Poll number [k] prints the marker exactly when 5 divides [k]. *)
Lemma marker_on_fifth_poll (response_id : string) (k : nat) :
  In (Echo "." false) (poll_effects response_id k) <-> k mod 5 = 0.
Proof.
  unfold poll_effects.
  destruct (Nat.eqb_spec (k mod 5) 0) as [E|E]; cbn [app In]; split.
  - intros _. exact E.
  - intros _. right. left. reflexivity.
  - intros [H|[H|[]]]; discriminate.
  - intros H. contradiction.
Qed.

Lemma last_cons_default {A} (l : list A) : forall x d, last (x :: l) d = last l x.
Proof.
  induction l as [|y l IH]; intros x d; [reflexivity|].
  change (last (x :: y :: l) d) with (last (y :: l) d).
  rewrite (IH y d), (IH y x). reflexivity.
Qed.

Lemma poll_run {S} client response_id (rs : list Response) :
  forall fuel current poll_count n (s : S),
  job_script client response_id n current rs ->
  length rs <= fuel ->
  poll fuel client response_id current poll_count n s =
  Run (poll_trace response_id poll_count (length rs)) (n + length rs) s
      (Val (last rs current, poll_count + length rs)).
Proof.
  induction rs as [|r rest IH]; intros fuel current poll_count n s Hjob Hfuel.
  - cbn [job_script] in Hjob. cbn [length last poll_trace].
    rewrite !Nat.add_0_r.
    destruct fuel; cbn [poll]; rewrite Hjob; reflexivity.
  - destruct Hjob as [Hp [Hr Hjob]].
    destruct fuel as [|fuel]; [cbn [length] in Hfuel; lia|].
    cbn [poll]. rewrite Hp. prim.
    assert (Hm : (if ((poll_count + 1) mod 5 =? 0)%nat
                  then echo "." false else ret tt) n s =
                 Run (if ((poll_count + 1) mod 5 =? 0)%nat
                      then [Echo "." false] else []) n s (Val tt)).
    { destruct (_ =? 0)%nat; reflexivity. }
    rewrite (bind_val _ _ _ _ _ _ _ _ Hm).
    assert (Hc : remote (ResponsesRetrieve response_id)
                   (fun n => responses_retrieve client n response_id) n s =
                 Run [ResponsesRetrieve response_id] (Datatypes.S n) s (Val r)).
    { unfold remote. rewrite Hr. reflexivity. }
    rewrite (bind_val _ _ _ _ _ _ _ _ Hc).
    cbn [length] in Hfuel.
    rewrite (IH fuel r (poll_count + 1) (Datatypes.S n) s Hjob ltac:(lia)).
    unfold after. cbn [events calls store outcome length].
    f_equal.
    + unfold poll_trace. cbn [seq flat_map]. unfold poll_effects at 2.
      rewrite <- !app_assoc. cbn [app].
      replace (Datatypes.S (poll_count + 1)) with (poll_count + 1 + 1) by lia.
      reflexivity.
    + lia.
    + f_equal. f_equal.
      * symmetry. apply last_cons_default.
      * lia.
Qed.

Lemma extract_response_text_ends (response : Response) :
  extract_response_text response <> Diverge.
Proof.
  unfold extract_response_text.
  destruct (resp_output_text response); [discriminate|].
  destruct (resp_output response) as [output|]; [|discriminate].
  destruct output; [discriminate|].
  destruct (text_parts _); discriminate.
Qed.

(** Everything up to the report: the call, the notice, the polls and the
    fresh line. *)
Lemma polled_exchange_run fuel client request_params n previous_response_id
  (first : Response) (rs : list Response) :
  responses_create client n request_params = inr first ->
  job_script client (resp_id first) (Datatypes.S n) first rs ->
  length rs <= fuel ->
  polled_exchange fuel client request_params n previous_response_id =
  after (ResponsesCreate request_params
           :: Echo "[Background processing started...]" false
           :: poll_trace (resp_id first) 0 (length rs)
           ++ [Echo EmptyString true; Echo "Assistant: " false])
        (report_job (resp_id first) (last rs first)
           (Datatypes.S n + length rs) previous_response_id).
Proof.
  intros Hc Hjob Hfuel. unfold polled_exchange. cbv zeta.
  assert (H1 : remote (ResponsesCreate request_params)
                 (fun n => responses_create client n request_params)
                 n previous_response_id =
               Run [ResponsesCreate request_params] (Datatypes.S n)
                   previous_response_id (Val first)).
  { unfold remote. rewrite Hc. reflexivity. }
  rewrite (bind_val _ _ _ _ _ _ _ _ H1). prim.
  rewrite (bind_val _ _ _ _ _ _ _ _
             (poll_run client (resp_id first) rs fuel first 0 _ _ Hjob Hfuel)).
  cbn [fst]. prim. prim.
  rewrite !after_after. cbn [app]. rewrite <- app_assoc. reflexivity.
Qed.

(** How the report ends: it returns, or the text extraction raises with
    the store untouched; it makes no call. *)
Lemma report_job_run (response_id : string) (response : Response) n
  (previous_response_id : option string) :
  (exists ev id,
     report_job response_id response n previous_response_id = Run ev n id (Val tt)) \/
  (exists e,
     status_is (resp_status response) "completed" = true /\
     extract_response_text response = Raise e /\
     report_job response_id response n previous_response_id =
     Run [] n previous_response_id (Raise e)).
Proof.
  unfold report_job.
  destruct (status_is (resp_status response) "completed").
  - pose proof (extract_response_text_ends response) as He.
    destruct (extract_response_text response) as [text|e|] eqn:Hx.
    + left. exists [Echo text true], (Some response_id).
      unfold lift. prim. prim. run_done.
    + right. exists e. repeat split.
    + contradiction.
  - left. destruct (status_is _ "failed"); [eexists; eexists; reflexivity|].
    destruct (status_is _ "cancelled"); eexists; eexists; reflexivity.
Qed.

(** A turn in background mode without streaming, around its report. *)
Lemma polled_turn_run fuel client model system line n previous_response_id
  (first : Response) (rs : list Response) :
  ordinary_input line = true ->
  responses_create client n
    (set_background (build_request model system (Py.strip line) previous_response_id))
    = inr first ->
  job_script client (resp_id first) (Datatypes.S n) first rs ->
  length rs <= fuel ->
  let before :=
    ([Echo EmptyString true; Echo "Assistant: " false;
      ResponsesCreate
        (set_background
           (build_request model system (Py.strip line) previous_response_id));
      Echo "[Background processing started...]" false]
     ++ poll_trace (resp_id first) 0 (length rs)
     ++ [Echo EmptyString true; Echo "Assistant: " false])%list in
  let r := responses_body fuel client model false true system line
             n previous_response_id in
  (forall ev id,
     report_job (resp_id first) (last rs first) (Datatypes.S n + length rs)
       previous_response_id = Run ev (Datatypes.S n + length rs) id (Val tt) ->
     r = Run (before ++ ev ++ [Echo EmptyString true])%list
             (Datatypes.S n + length rs) id (Val Continue)) /\
  (forall e,
     report_job (resp_id first) (last rs first) (Datatypes.S n + length rs)
       previous_response_id =
     Run [] (Datatypes.S n + length rs) previous_response_id (Raise e) ->
     r = Run (before ++ [Echo (Py.LF ++ "Error: " ++ exn_str e) true;
                         Echo EmptyString true])%list
             (Datatypes.S n + length rs) previous_response_id (Val Continue)).
Proof.
  intros Hord Hc Hjob Hfuel. cbv zeta.
  rewrite (responses_body_ordinary _ _ _ _ _ _ _ Hord).
  assert (E : responses_exchange fuel client model false true system (Py.strip line)
                n previous_response_id =
              polled_exchange fuel client
                (set_background
                   (build_request model system (Py.strip line) previous_response_id))
                n previous_response_id).
  { unfold responses_exchange. prim. rewrite after_nil. reflexivity. }
  rewrite (polled_exchange_run _ _ _ _ _ _ _ Hc Hjob Hfuel) in E.
  split.
  - intros ev id Hr. rewrite Hr in E. unfold after in E.
    cbn [events calls store outcome] in E.
    rewrite (bind_val _ _ _ _ _ _ _ _ (responses_turn_ok _ _ _ _ _ _ _ _ _ _ _ _ E)).
    unfold after, ret. cbn [events calls store outcome app].
    rewrite <- ?app_assoc, ?app_nil_r. cbn [app]. reflexivity.
  - intros e Hr. rewrite Hr in E. unfold after in E.
    cbn [events calls store outcome] in E.
    rewrite (bind_val _ _ _ _ _ _ _ _
               (responses_turn_failed _ _ _ _ _ _ _ _ _ _ _ _ E)).
    unfold after, ret. cbn [events calls store outcome app].
    rewrite <- ?app_assoc, ?app_nil_r. cbn [app]. reflexivity.
Qed.

(** C4: a turn of the Responses loop in background mode without streaming.
    Let the create call, made with the request of the turn flagged as
    background, return [first], and let the job stay queued or in progress
    through the responses [rs] of the successive retrievals, the last of
    which (or [first], when [rs] is empty) is settled.  Then the turn polls
    exactly [length rs] times, each poll a sleep of one second followed by
    a retrieval by the identifier of [first], with the progress marker
    printed at poll number k exactly when 5 divides k, so that the markers
    count [length rs / 5].  After the polls it prints the extracted text
    when the final status is completed, the failure notice for failed, the
    cancellation notice for cancelled and the unexpected-status notice for
    every other value; when the status is completed and the extraction
    raises, it prints the error instead.  The stored identifier becomes the
    job's identifier when the final status is completed and the text was
    extracted, and it changes in no other case.  The loop then goes on with
    the rest of the input from that identifier. *)
Theorem background_polling fuel client model system line n previous_response_id
  (first : Response) (rs : list Response) :
  ordinary_input line = true ->
  responses_create client n
    (set_background (build_request model system (Py.strip line) previous_response_id))
    = inr first ->
  job_script client (resp_id first) (Datatypes.S n) first rs ->
  length rs <= fuel ->
  let request_params :=
    set_background (build_request model system (Py.strip line) previous_response_id) in
  let response_id := resp_id first in
  let final := last rs first in
  let r := responses_body fuel client model false true system line
             n previous_response_id in
  let shown :=
    ([Echo EmptyString true; Echo "Assistant: " false;
      ResponsesCreate request_params;
      Echo "[Background processing started...]" false]
     ++ poll_trace response_id 0 (length rs)
     ++ [Echo EmptyString true; Echo "Assistant: " false])%list in
  let finished (report : string) (id : option string) :=
    r = Run (shown ++ [Echo report true; Echo EmptyString true])%list
            (Datatypes.S n + length rs) id (Val Continue) in
  (forall text, resp_status final = Some "completed" ->
                extract_response_text final = Val text ->
                finished text (Some response_id)) /\
  (forall e, resp_status final = Some "completed" ->
             extract_response_text final = Raise e ->
             finished (Py.LF ++ "Error: " ++ exn_str e) previous_response_id) /\
  (resp_status final = Some "failed" ->
   finished "[Background task failed: failed]" previous_response_id) /\
  (resp_status final = Some "cancelled" ->
   finished "[Background task was cancelled]" previous_response_id) /\
  (status_is (resp_status final) "completed" = false ->
   status_is (resp_status final) "failed" = false ->
   status_is (resp_status final) "cancelled" = false ->
   finished ("[Unexpected status: " ++ fmt_status (resp_status final) ++ "]")
            previous_response_id) /\
  (store r <> previous_response_id ->
   resp_status final = Some "completed" /\ store r = Some response_id) /\
  outcome r = Val Continue /\
  calls r = Datatypes.S n + length rs /\
  (forall rest,
     responses_loop fuel client model false true system (line :: rest)
       n previous_response_id =
     after (Prompt :: events r)
       (responses_loop fuel client model false true system rest (calls r) (store r))) /\
  (forall k, In (Echo "." false) (poll_effects response_id k) <-> k mod 5 = 0) /\
  stdout (poll_trace response_id 0 (length rs)) = Py.repeat_str "." (length rs / 5).
Proof.
  intros Hord Hc Hjob Hfuel. cbv zeta.
  destruct (polled_turn_run fuel client model system line n previous_response_id
              first rs Hord Hc Hjob Hfuel) as [Hok Hfail].
  cbv zeta in Hok, Hfail.
  set (final := last rs first) in *.
  set (n' := Datatypes.S n + length rs) in *.
  set (r := responses_body fuel client model false true system line
              n previous_response_id) in *.
  assert (Hcompleted : forall text,
            status_is (resp_status final) "completed" = true ->
            extract_response_text final = Val text ->
            report_job (resp_id first) final n' previous_response_id =
            Run [Echo text true] n' (Some (resp_id first)) (Val tt)).
  { intros text Hs Hx. unfold report_job. rewrite Hs, Hx.
    unfold lift. prim. prim. run_done. }
  assert (Hraises : forall e,
            status_is (resp_status final) "completed" = true ->
            extract_response_text final = Raise e ->
            report_job (resp_id first) final n' previous_response_id =
            Run [] n' previous_response_id (Raise e)).
  { intros e Hs Hx. unfold report_job. rewrite Hs, Hx. reflexivity. }
  assert (Hcont : outcome r = Val Continue /\ calls r = n').
  { destruct (report_job_run (resp_id first) final n' previous_response_id)
      as [[ev [id Hr]]|[e [_ [_ Hr]]]].
    - rewrite (Hok _ _ Hr). split; reflexivity.
    - rewrite (Hfail _ Hr). split; reflexivity. }
  split; [|split; [|split; [|split; [|split; [|split; [|split; [|split; [|split;
    [|split]]]]]]]]].
  - intros text Hs Hx. rewrite (Hok _ _ (Hcompleted text ltac:(rewrite Hs; reflexivity) Hx)).
    rewrite <- ?app_assoc. reflexivity.
  - intros e Hs Hx. rewrite (Hfail _ (Hraises e ltac:(rewrite Hs; reflexivity) Hx)).
    rewrite <- ?app_assoc. reflexivity.
  - intros Hs.
    rewrite (Hok [Echo "[Background task failed: failed]" true] previous_response_id).
    + rewrite <- ?app_assoc. reflexivity.
    + unfold report_job. rewrite Hs. reflexivity.
  - intros Hs.
    rewrite (Hok [Echo "[Background task was cancelled]" true] previous_response_id).
    + rewrite <- ?app_assoc. reflexivity.
    + unfold report_job. rewrite Hs. reflexivity.
  - intros H1 H2 H3.
    rewrite (Hok [Echo ("[Unexpected status: " ++ fmt_status (resp_status final) ++ "]")
                    true] previous_response_id).
    + rewrite <- ?app_assoc. reflexivity.
    + unfold report_job. rewrite H1, H2, H3. reflexivity.
  - intros H.
    destruct (status_is (resp_status final) "completed") eqn:Hs.
    + split.
      * destruct (resp_status final) as [st|]; [|discriminate].
        cbn [status_is] in Hs. apply String.eqb_eq in Hs. subst st. reflexivity.
      * pose proof (extract_response_text_ends final) as He.
        destruct (extract_response_text final) as [text|e|] eqn:Hx.
        -- rewrite (Hok _ _ (Hcompleted text eq_refl eq_refl)). reflexivity.
        -- exfalso. apply H. rewrite (Hfail _ (Hraises e eq_refl eq_refl)). reflexivity.
        -- contradiction.
    + exfalso. apply H.
      assert (Hr : exists ev,
                report_job (resp_id first) final n' previous_response_id =
                Run ev n' previous_response_id (Val tt)).
      { unfold report_job. rewrite Hs.
        destruct (status_is _ "failed"); [eexists; reflexivity|].
        destruct (status_is _ "cancelled"); eexists; reflexivity. }
      destruct Hr as [ev Hr]. rewrite (Hok _ _ Hr). reflexivity.
  - exact (proj1 Hcont).
  - exact (proj2 Hcont).
  - intros rest. unfold responses_loop. apply prompt_loop_continue. exact (proj1 Hcont).
  - apply marker_on_fifth_poll.
  - rewrite stdout_poll_trace, Nat.sub_0_r. reflexivity.
Qed.

(* ================================================================= *)
(** ** The request of a Responses turn *)

Lemma build_request_blank model system user_input :
  build_request model system user_input (Some EmptyString) =
  {| rp_model := model;
     rp_input := [user_message user_input];
     rp_previous_response_id := None;
     rp_background := false; rp_stream := false |}.
Proof. reflexivity. Qed.

Lemma clear_forgets_context fuel client model stream background system line n
  previous_response_id :
  Py.lower (Py.strip line) = "/clear" ->
  responses_body fuel client model stream background system line n previous_response_id =
  Run [Echo ("Conversation cleared (stateful context reset)." ++ Py.LF) true] n None
      (Val Continue).
Proof.
  intros H. unfold responses_body. cbv zeta. rewrite H.
  assert (Ht : Py.truthy (Py.strip line) = true).
  { apply lower_truthy. rewrite H. reflexivity. }
  rewrite Ht. reflexivity.
Qed.

(** C3, at the failing input: a foreground session without streaming whose
    first response carries the empty string as identifier.  The second
    request has neither the system message nor a reference to a previous
    response. *)
Theorem blank_identifier_loses_context :
  filter is_remote_call
    (events (run_responses_api 0 blank_id_client "m" false false "Be brief."
               ["hi"; "and then?"] 0)) =
  [ ResponsesCreate
      {| rp_model := "m";
         rp_input := [system_message "Be brief."; user_message "hi"];
         rp_previous_response_id := None;
         rp_background := false; rp_stream := false |};
    ResponsesCreate
      {| rp_model := "m";
         rp_input := [user_message "and then?"];
         rp_previous_response_id := None;
         rp_background := false; rp_stream := false |} ].
Proof. vm_compute. reflexivity. Qed.

(* ================================================================= *)
(** ** Text extraction *)

Lemma extract_aggregated (response : Response) (text : string) :
  resp_output_text response = Some text ->
  extract_response_text response = Val text.
Proof. intros H. unfold extract_response_text. rewrite H. reflexivity. Qed.

Lemma extract_fragments (response : Response) (output : list output_item) :
  resp_output_text response = None ->
  resp_output response = Some output ->
  text_parts output <> [] ->
  extract_response_text response = Val (Py.join EmptyString (text_parts output)).
Proof.
  intros H1 H2 H3. unfold extract_response_text. rewrite H1, H2.
  destruct output as [|item rest]; [contradiction H3; reflexivity|].
  destruct (text_parts (item :: rest)); [contradiction H3; reflexivity | reflexivity].
Qed.

Lemma extract_raw (response : Response) (output : list output_item) :
  resp_output_text response = None ->
  resp_output response = Some output ->
  text_parts output = [] ->
  extract_response_text response = Val (str_of_output output).
Proof.
  intros H1 H2 H3. unfold extract_response_text. rewrite H1, H2.
  destruct output; [reflexivity|]. rewrite H3. reflexivity.
Qed.

(** C6, at the failing input: for a response object that has neither an
    aggregated text nor an output attribute, text extraction raises
    [AttributeError] instead of returning a string. *)
Theorem extract_without_output_raises :
  extract_response_text bare_response = Raise (AttributeError "output").
Proof. reflexivity. Qed.

(* ================================================================= *)
(** ** The chat command *)

(** C7: the chat command called with both --completions and --background
    ends by raising a [ClickException], which click turns into exit code
    1; the message names the Responses API; nothing has been printed, no
    client has been constructed and no remote call has been made, whatever
    the environment, the remote end and the other options are. *)
Theorem background_needs_responses_api fuel env client model no_stream system inputs
  n (s : unit) :
  let r := chat fuel env client model no_stream true true system inputs n s in
  events r = [] /\ calls r = n /\
  exit_code (outcome r) = Some 1 /\
  exists msg, outcome r = Raise (ClickException msg) /\
              Py.contains "Responses API" msg = true.
Proof.
  cbv zeta. unfold chat. cbn [andb]. unfold raise. cbn [events calls outcome exit_code].
  repeat split. eexists. split; [reflexivity|]. vm_compute. reflexivity.
Qed.

(* ================================================================= *)
(** ** Leaving the loops *)

Lemma ends_lift_extract {S} (response : Response) :
  ends (@lift S string (extract_response_text response)).
Proof. intros n s. apply extract_response_text_ends. Qed.

Lemma ends_on_event {S} (acc : string * option string) (event : Event) :
  ends (@on_event S acc event).
Proof. intros n s. destruct acc. rewrite on_event_run. discriminate. Qed.

Lemma ends_process_streaming_events {S} (stream_response : Stream Event) :
  ends (@process_streaming_events S stream_response).
Proof.
  unfold process_streaming_events. apply ends_bind.
  - apply ends_for_stream. intros acc x. apply ends_on_event.
  - intros acc. apply ends_bind; [apply ends_emit | intros; apply ends_ret].
Qed.

Lemma ends_put {S} (s' : S) : ends (put s').
Proof. intros n s. discriminate. Qed.

Lemma ends_streamed_exchange client request_params :
  ends (streamed_exchange client request_params).
Proof.
  unfold streamed_exchange. cbv zeta.
  apply ends_bind; [apply ends_remote|]. intros stream_response.
  apply ends_bind; [apply ends_process_streaming_events|]. intros r.
  destruct (Py.truthy_opt (snd r)); [apply ends_put | apply ends_ret].
Qed.

Lemma ends_plain_exchange client request_params :
  ends (plain_exchange client request_params).
Proof.
  unfold plain_exchange.
  apply ends_bind; [apply ends_remote|]. intros response.
  apply ends_bind; [apply ends_lift_extract|]. intros text.
  apply ends_bind; [apply ends_emit | intros; apply ends_put].
Qed.

(** Only the polling of a background job can go on for ever. *)
Lemma ends_responses_exchange fuel client model stream background system user_input :
  background && negb stream = false ->
  ends (responses_exchange fuel client model stream background system user_input).
Proof.
  intros H. unfold responses_exchange.
  apply ends_bind; [intros n s; discriminate|]. intros previous_response_id. cbv zeta.
  destruct background, stream; try discriminate;
    auto using ends_streamed_exchange, ends_plain_exchange.
Qed.

(** A turn returns, or polls on for ever; it never raises. *)
Lemma responses_turn_cases fuel client model stream background system user_input
  n previous_response_id :
  let r := responses_turn fuel client model stream background system user_input
             n previous_response_id in
  outcome r = Val tt \/
  (outcome r = Diverge /\
   outcome (responses_exchange fuel client model stream background system user_input
              n previous_response_id) = Diverge).
Proof.
  cbv zeta.
  pose proof (atomic_responses_exchange fuel client model stream background system
                user_input n previous_response_id) as Ha.
  destruct (responses_exchange fuel client model stream background system user_input
              n previous_response_id) as [ev c s [[]|e|]] eqn:E.
  - left. rewrite (responses_turn_ok _ _ _ _ _ _ _ _ _ _ _ _ E). reflexivity.
  - left. cbn [outcome store] in Ha. rewrite (Ha e eq_refl) in E.
    rewrite (responses_turn_failed _ _ _ _ _ _ _ _ _ _ _ _ E). reflexivity.
  - right. rewrite (responses_turn_diverges _ _ _ _ _ _ _ _ _ _ _ _ E).
    split; reflexivity.
Qed.

Lemma exit_command_run_responses fuel client model stream background system line n
  previous_response_id :
  In (Py.lower (Py.strip line)) EXIT_COMMANDS ->
  responses_body fuel client model stream background system line n previous_response_id =
  Run [Echo "Goodbye!" true] n previous_response_id (Val Break).
Proof.
  intros H. unfold responses_body. cbv zeta.
  assert (Ht : Py.truthy (Py.strip line) = true).
  { apply lower_truthy.
    simpl in H. destruct H as [H|[H|[H|[H|[]]]]]; rewrite <- H; reflexivity. }
  rewrite Ht. apply mem_In in H. rewrite H. reflexivity.
Qed.

Lemma not_mem (x : string) (xs : list string) : ~ In x xs -> Py.mem x xs = false.
Proof.
  intros H. destruct (Py.mem x xs) eqn:E; [|reflexivity].
  apply mem_In in E. contradiction.
Qed.

Lemma completions_body_goes_on client model stream system line n messages :
  ~ In (Py.lower (Py.strip line)) EXIT_COMMANDS ->
  outcome (completions_body client model stream system line n messages) = Val Continue.
Proof.
  intros H. apply not_mem in H.
  unfold completions_body. cbv zeta. rewrite H.
  destruct (Py.truthy (Py.strip line)); [|reflexivity].
  destruct (_ =? "/clear"); [reflexivity|].
  destruct (_ =? "/status"); [reflexivity|].
  cbn [negb].
  pose proof (completions_turn_cases client model stream (Py.strip line) n messages) as [Ho _].
  destruct (completions_turn client model stream (Py.strip line) n messages)
    as [ev c s o] eqn:E. cbn [outcome] in Ho. subst o.
  rewrite (bind_val _ _ _ _ _ _ _ _ E). reflexivity.
Qed.

Lemma responses_body_goes_on fuel client model stream background system line n
  previous_response_id :
  ~ In (Py.lower (Py.strip line)) EXIT_COMMANDS ->
  let r := responses_body fuel client model stream background system line
             n previous_response_id in
  outcome r = Val Continue \/
  (outcome r = Diverge /\ background = true /\ stream = false).
Proof.
  intros H. apply not_mem in H. cbv zeta.
  unfold responses_body. cbv zeta. rewrite H.
  destruct (Py.truthy (Py.strip line)); [|left; reflexivity].
  destruct (_ =? "/clear"); [left; reflexivity|].
  destruct (_ =? "/status"); [left; reflexivity|].
  cbn [negb].
  pose proof (responses_turn_cases fuel client model stream background system
                (Py.strip line) n previous_response_id) as Hc.
  destruct (responses_turn fuel client model stream background system
              (Py.strip line) n previous_response_id) as [ev c s o] eqn:E.
  cbn [outcome] in Hc. destruct Hc as [->|[-> Hd]].
  - left. rewrite (bind_val _ _ _ _ _ _ _ _ E). reflexivity.
  - right. rewrite (bind_diverge _ _ _ _ _ _ _ E). split; [reflexivity|].
    destruct background, stream; try (split; reflexivity); exfalso;
      eapply ends_responses_exchange; try exact Hd; reflexivity.
Qed.

(** C8: in both chat loops, a line whose lower-case form is one of /quit,
    /q, /exit, /e (as typed, or once the blanks around it are stripped)
    makes the body print the farewell and break, so the loop returns
    without reading the rest of the input and without a remote call.  A
    line that, once stripped and lower-cased, is none of the four never
    ends the loop: in completions mode the body ends by going round again,
    and the loop carries on with the rest of the input from where the body
    stopped, its next step being the prompt; in responses mode it does so
    too, unless the turn is still polling a background job when the polls
    allowed run out, in which case the loop has not returned either. *)
Theorem exit_commands_end_the_loop fuel client model stream background system line n :
  (In (Py.lower line) EXIT_COMMANDS \/
   In (Py.lower (Py.strip line)) EXIT_COMMANDS ->
   (forall messages rest,
      completions_body client model stream system line n messages =
        Run [Echo "Goodbye!" true] n messages (Val Break) /\
      completions_loop client model stream system (line :: rest) n messages =
        Run [Prompt; Echo "Goodbye!" true] n messages (Val tt)) /\
   (forall previous_response_id rest,
      responses_body fuel client model stream background system line
          n previous_response_id =
        Run [Echo "Goodbye!" true] n previous_response_id (Val Break) /\
      responses_loop fuel client model stream background system (line :: rest)
          n previous_response_id =
        Run [Prompt; Echo "Goodbye!" true] n previous_response_id (Val tt))) /\
  (~ In (Py.lower (Py.strip line)) EXIT_COMMANDS ->
   (forall messages rest,
      let r := completions_body client model stream system line n messages in
      let next := completions_loop client model stream system rest
                    (calls r) (store r) in
      outcome r = Val Continue /\
      completions_loop client model stream system (line :: rest) n messages =
        after (Prompt :: events r) next /\
      hd_error (events next) = Some Prompt) /\
   (forall previous_response_id rest,
      let r := responses_body fuel client model stream background system line
                 n previous_response_id in
      let next := responses_loop fuel client model stream background system rest
                    (calls r) (store r) in
      (outcome r = Val Continue /\
       responses_loop fuel client model stream background system (line :: rest)
           n previous_response_id =
         after (Prompt :: events r) next /\
       hd_error (events next) = Some Prompt) \/
      (outcome r = Diverge /\ background = true /\ stream = false /\
       responses_loop fuel client model stream background system (line :: rest)
           n previous_response_id =
         Run (Prompt :: events r) (calls r) (store r) Diverge))).
Proof.
  split.
  - intros H. apply exit_line in H. split.
    + intros messages rest.
      pose proof (exit_command_run_completions client model stream system line n
                    messages H) as Hb.
      split; [exact Hb|]. unfold completions_loop.
      rewrite prompt_loop_break; rewrite Hb; reflexivity.
    + intros previous_response_id rest.
      pose proof (exit_command_run_responses fuel client model stream background system
                    line n previous_response_id H) as Hb.
      split; [exact Hb|]. unfold responses_loop.
      rewrite prompt_loop_break; rewrite Hb; reflexivity.
  - intros H. split.
    + intros messages rest. cbv zeta.
      pose proof (completions_body_goes_on client model stream system line n messages H)
        as Ho.
      split; [exact Ho|]. unfold completions_loop.
      split; [apply prompt_loop_continue; exact Ho | apply prompt_loop_prompts].
    + intros previous_response_id rest. cbv zeta.
      destruct (responses_body_goes_on fuel client model stream background system line
                  n previous_response_id H) as [Ho|[Ho [Hb Hs]]].
      * left. split; [exact Ho|]. unfold responses_loop.
        split; [apply prompt_loop_continue; exact Ho | apply prompt_loop_prompts].
      * right. repeat (split; [assumption|]). unfold responses_loop.
        apply prompt_loop_diverge. exact Ho.
Qed.

(* ================================================================= *)
(** ** Further properties of the loops *)

(** X1: in completions mode, when the create call raises, the [try] block
    raises the same exception, having done nothing but the call. *)
Theorem remote_failure_fails_completions client model (stream : bool) n messages e :
  (if stream then (chat_create_stream client n model messages = inl e)
   else (chat_create client n model messages = inl e)) ->
  completions_exchange client model stream n messages =
  Run [ChatCreate model messages stream] (Datatypes.S n) messages (Raise e).
Proof.
  intros H. unfold completions_exchange. destruct stream; apply bind_raise.
  - rewrite call_chat_create_stream_run, H. reflexivity.
  - rewrite call_chat_create_run, H. reflexivity.
Qed.

(** X2: in responses mode, in each of the four shapes, when the create call
    raises, the [try] block raises the same exception, having done nothing
    but the call. *)
Theorem remote_failure_fails_responses fuel client model (stream background : bool)
  system user_input n previous_response_id e :
  let request :=
    sent_request model system user_input stream background previous_response_id in
  (if stream then (responses_create_stream client n request = inl e)
   else (responses_create client n request = inl e)) ->
  responses_exchange fuel client model stream background system user_input
    n previous_response_id =
  Run [ResponsesCreate request] (Datatypes.S n) previous_response_id (Raise e).
Proof.
  cbv zeta. intros H. unfold responses_exchange. prim. rewrite after_nil.
  unfold sent_request in *. cbv zeta in *.
  destruct background, stream;
    unfold streamed_exchange, polled_exchange, plain_exchange; cbv zeta;
    apply bind_raise; unfold remote; rewrite H; reflexivity.
Qed.

(** X3: /status prints the settings and makes no remote call, in both loops;
    the history and the stored identifier stay as they are. *)
Theorem status_makes_no_remote_call fuel client model stream background system line n :
  Py.lower (Py.strip line) = "/status" ->
  (forall messages,
     let r := completions_body client model stream system line n messages in
     filter is_remote_call (events r) = [] /\ calls r = n /\
     store r = messages /\ outcome r = Val Continue) /\
  (forall previous_response_id,
     let r := responses_body fuel client model stream background system line
                n previous_response_id in
     filter is_remote_call (events r) = [] /\ calls r = n /\
     store r = previous_response_id /\ outcome r = Val Continue).
Proof.
  intros H.
  assert (Ht : Py.truthy (Py.strip line) = true).
  { apply lower_truthy. rewrite H. reflexivity. }
  split.
  - intros messages. cbv zeta. unfold completions_body. cbv zeta.
    rewrite H, Ht. repeat split; reflexivity.
  - intros previous_response_id. cbv zeta. unfold responses_body. cbv zeta.
    rewrite H, Ht. repeat split; reflexivity.
Qed.

(** X4: the request of a turn follows the stored identifier: with none
    ([None]) the input is the system message and the user message and no
    reference is sent; with a non-empty one the input is the user message
    alone and the identifier is sent as the reference. *)
Theorem request_follows_context model system user_input :
  build_request model system user_input None =
    {| rp_model := model;
       rp_input := [system_message system; user_message user_input];
       rp_previous_response_id := None;
       rp_background := false; rp_stream := false |} /\
  (forall id,
     Py.truthy id = true ->
     build_request model system user_input (Some id) =
       {| rp_model := model;
          rp_input := [user_message user_input];
          rp_previous_response_id := Some id;
          rp_background := false; rp_stream := false |}).
Proof.
  split; [reflexivity|].
  intros id H. unfold build_request. cbn. rewrite H. reflexivity.
Qed.

(** X5: in responses mode /clear forgets the stored identifier without a
    remote call, so the request of the next turn carries the system message
    and no reference. *)
Theorem clear_restores_system_message fuel client model stream background system
  line user_input n previous_response_id :
  Py.lower (Py.strip line) = "/clear" ->
  let r := responses_body fuel client model stream background system line
             n previous_response_id in
  store r = None /\ outcome r = Val Continue /\ calls r = n /\
  rp_input (build_request model system user_input (store r)) =
    [system_message system; user_message user_input] /\
  rp_previous_response_id (build_request model system user_input (store r)) = None.
Proof.
  intros H. cbv zeta. rewrite (clear_forgets_context _ _ _ _ _ _ _ _ _ H).
  repeat split; reflexivity.
Qed.

(** Joining on the empty string is concatenation. *)
Lemma join_empty (xs : list string) : Py.join EmptyString xs = concat_all xs.
Proof.
  induction xs as [|x xs IH]; [reflexivity|].
  destruct xs as [|y ys].
  - cbn. rewrite string_app_nil_r. reflexivity.
  - change (Py.join EmptyString (x :: y :: ys))
      with (x ++ EmptyString ++ Py.join EmptyString (y :: ys)).
    rewrite IH. reflexivity.
Qed.

(** X6: the three cases of text extraction for a response that has an
    aggregated text or an output: the aggregated text; else the texts of the
    output's parts, joined in order, when there is one; else the output
    converted to a string. *)
Theorem extract_response_text_cases (response : Response) :
  (forall text,
     resp_output_text response = Some text ->
     extract_response_text response = Val text) /\
  (forall output,
     resp_output_text response = None ->
     resp_output response = Some output ->
     text_parts output <> [] ->
     extract_response_text response = Val (concat_all (text_parts output))) /\
  (forall output,
     resp_output_text response = None ->
     resp_output response = Some output ->
     text_parts output = [] ->
     extract_response_text response = Val (str_of_output output)).
Proof.
  split; [|split].
  - apply extract_aggregated.
  - intros output H1 H2 H3. rewrite (extract_fragments _ _ H1 H2 H3).
    f_equal. apply join_empty.
  - apply extract_raw.
Qed.

(** X7: [create_client] fails with a message naming the variable that is
    missing or empty, the key first, before the SDK's constructor is
    called; with both set it calls the constructor on them, and either
    has a client or lets the constructor's exception through. *)
Theorem create_client_needs_credentials (env : environ) n (s : unit) :
  let r := create_client env n s in
  (Py.truthy_opt (OPENAI_API_KEY env) = false ->
   events r = [] /\
   exists msg, outcome r = Raise (ClickException msg) /\
               Py.contains "OPENAI_API_KEY is required" msg = true) /\
  (Py.truthy_opt (OPENAI_API_KEY env) = true ->
   Py.truthy_opt (OPENAI_BASE_URL env) = false ->
   events r = [] /\
   exists msg, outcome r = Raise (ClickException msg) /\
               Py.contains "OPENAI_BASE_URL is required" msg = true) /\
  (Py.truthy_opt (OPENAI_API_KEY env) = true ->
   Py.truthy_opt (OPENAI_BASE_URL env) = true ->
   (OpenAI env (OPENAI_BASE_URL env) (OPENAI_API_KEY env) = None ->
    r = Run [ClientCreated] n s (Val tt)) /\
   (forall e,
      OpenAI env (OPENAI_BASE_URL env) (OPENAI_API_KEY env) = Some e ->
      r = Run [] n s (Raise e))).
Proof.
  cbv zeta. unfold create_client. cbv zeta.
  split; [|split].
  - intros ->. cbn [negb]. split; [reflexivity|].
    eexists. split; [reflexivity|]. vm_compute. reflexivity.
  - intros -> ->. cbn [negb]. split; [reflexivity|].
    eexists. split; [reflexivity|]. vm_compute. reflexivity.
  - intros -> ->. cbn [negb]. split.
    + intros ->. reflexivity.
    + intros e ->. reflexivity.
Qed.

(** When the input ends, [click.prompt] raises [Abort], which the loops'
    [except EOFError] does not catch: both loops end by raising it, with
    nothing changed. *)
Theorem end_of_input_aborts_the_loops fuel client model stream background system n :
  (forall messages,
     completions_loop client model stream system [] n messages =
     Run [Prompt] n messages (Raise Abort)) /\
  (forall previous_response_id,
     responses_loop fuel client model stream background system [] n previous_response_id =
     Run [Prompt] n previous_response_id (Raise Abort)).
Proof. split; intros; reflexivity. Qed.

(** A line of blanks is skipped by both loops: nothing is printed, sent or
    changed. *)
Theorem blank_line_is_skipped fuel client model stream background system line n :
  Py.strip line = EmptyString ->
  (forall messages,
     completions_body client model stream system line n messages =
     Run [] n messages (Val Continue)) /\
  (forall previous_response_id,
     responses_body fuel client model stream background system line n previous_response_id =
     Run [] n previous_response_id (Val Continue)).
Proof.
  intros H. split; intros; unfold completions_body, responses_body; cbv zeta;
    rewrite H; reflexivity.
Qed.

(** X8: a turn of the Responses loop never raises: it returns, or it is
    still polling a background job when the polls allowed run out. *)
Theorem responses_turn_never_raises fuel client model stream background system
  user_input n previous_response_id :
  let r := responses_turn fuel client model stream background system user_input
             n previous_response_id in
  outcome r = Val tt \/ (outcome r = Diverge /\ background = true /\ stream = false).
Proof.
  cbv zeta.
  destruct (responses_turn_cases fuel client model stream background system user_input
              n previous_response_id) as [H|[H Hd]]; [left; exact H|].
  right. split; [exact H|].
  destruct background, stream; try (split; reflexivity); exfalso;
    eapply ends_responses_exchange; try exact Hd; reflexivity.
Qed.

(** X9: a turn of the Chat Completions loop whose exchange succeeds leaves
    the history grown by the user message and the assistant's reply, in that
    order. *)
Theorem successful_turn_appends client model stream system line n messages :
  ordinary_input line = true ->
  outcome (completions_exchange client model stream n
             (messages ++ [user_message (Py.strip line)])%list) = Val tt ->
  let r := completions_body client model stream system line n messages in
  outcome r = Val Continue /\
  exists a, store r =
            (messages ++ [user_message (Py.strip line); assistant_message a])%list.
Proof.
  intros Hord Hx. cbv zeta.
  pose proof (completions_exchange_cases client model stream n
                (messages ++ [user_message (Py.strip line)])%list) as Hc.
  destruct (completions_exchange client model stream n
              (messages ++ [user_message (Py.strip line)])%list) as [ev c s o] eqn:E.
  cbn [outcome store] in Hx, Hc. subst o.
  destruct Hc as [[a [_ ->]]|[e [Hc _]]]; [|discriminate].
  rewrite (completions_body_ordinary _ _ _ _ _ Hord).
  rewrite (bind_val _ _ _ _ _ _ _ _ (completions_turn_ok _ _ _ _ _ _ _ _ _ E)).
  split; [reflexivity|]. exists a. cbn [after ret store].
  rewrite <- app_assoc. reflexivity.
Qed.

(** The foreground exchange without streaming prints the extracted text and
    stores the identifier of the response. *)
Theorem plain_exchange_stores_identifier client request_params n previous_response_id
  response text :
  responses_create client n request_params = inr response ->
  extract_response_text response = Val text ->
  plain_exchange client request_params n previous_response_id =
  Run [ResponsesCreate request_params; Echo text true] (Datatypes.S n)
      (Some (resp_id response)) (Val tt).
Proof.
  intros Hc Hx. unfold plain_exchange.
  assert (H1 : remote (ResponsesCreate request_params)
                 (fun n => responses_create client n request_params)
                 n previous_response_id =
               Run [ResponsesCreate request_params] (Datatypes.S n)
                   previous_response_id (Val response)).
  { unfold remote. rewrite Hc. reflexivity. }
  rewrite (bind_val _ _ _ _ _ _ _ _ H1). rewrite Hx. unfold lift. prim. prim.
  run_done.
Qed.

(* ================================================================= *)
(** ** Counting the remote calls *)

Lemma quiet_ret {S A} (a : A) : quiet (@ret S A a).
Proof. intros n s. split; reflexivity. Qed.

Lemma quiet_raise {S A} (e : exn) : quiet (@raise S A e).
Proof. intros n s. split; reflexivity. Qed.

Lemma quiet_echo {S} (msg : string) (nl : bool) : quiet (@echo S msg nl).
Proof. intros n s. split; reflexivity. Qed.

Lemma quiet_lift {S A} (r : result A) : quiet (@lift S A r).
Proof. intros n s. split; reflexivity. Qed.

Lemma quiet_get {S} : quiet (@get S).
Proof. intros n s. split; reflexivity. Qed.

Lemma quiet_put {S} (s' : S) : quiet (put s').
Proof. intros n s. split; reflexivity. Qed.

Lemma quiet_bind {S A B} (c : M S A) (k : A -> M S B) :
  quiet c -> (forall a, quiet (k a)) -> quiet (bind c k).
Proof.
  intros Hc Hk n s. unfold bind.
  destruct (Hc n s) as [H1 H2].
  destruct (outcome (c n s)) eqn:E; cbn [after calls events]; try (split; assumption).
  destruct (Hk a (calls (c n s)) (store (c n s))) as [H3 H4].
  rewrite filter_app, H2, H4, H3. split; [exact H1 | reflexivity].
Qed.

Lemma quiet_try {S A} (c : M S A) (h : exn -> M S A) :
  quiet c -> (forall e, quiet (h e)) -> quiet (try_catch c h).
Proof.
  intros Hc Hh n s. unfold try_catch.
  destruct (Hc n s) as [H1 H2].
  destruct (outcome (c n s)) eqn:E; cbn [after calls events]; try (split; assumption).
  destruct (Hh e (calls (c n s)) (store (c n s))) as [H3 H4].
  rewrite filter_app, H2, H4, H3. split; [exact H1 | reflexivity].
Qed.

Lemma quiet_for_each {S A B} (body : B -> A -> M S B) (xs : list A) :
  (forall acc x, quiet (body acc x)) -> forall acc, quiet (for_each body xs acc).
Proof.
  intros Hb. induction xs as [|x xs IH]; intros acc; cbn [for_each].
  - apply quiet_ret.
  - apply quiet_bind; [apply Hb | exact IH].
Qed.

Lemma quiet_for_stream {S A B} (body : B -> A -> M S B) (xs : Stream A) (acc : B) :
  (forall acc x, quiet (body acc x)) -> quiet (for_stream body xs acc).
Proof.
  intros Hb. unfold for_stream. apply quiet_bind.
  - apply quiet_for_each. exact Hb.
  - intros a. destruct (failure xs); [apply quiet_raise | apply quiet_ret].
Qed.

Lemma quiet_first {S A} (xs : list A) : quiet (@first S A xs).
Proof. destruct xs; [apply quiet_raise | apply quiet_ret]. Qed.

Lemma quiet_on_chunk (response_text : string) (chunk : Chunk) :
  quiet (on_chunk response_text chunk).
Proof.
  unfold on_chunk. apply quiet_bind; [apply quiet_first|].
  intros [content|]; [|apply quiet_ret].
  apply quiet_bind; [apply quiet_echo | intros; apply quiet_ret].
Qed.

Lemma quiet_append_message (m : message) : quiet (append_message m).
Proof. intros n s. split; reflexivity. Qed.

Lemma quiet_exchange_rest_stream (st : Stream Chunk) :
  quiet (response_text <- for_stream on_chunk st EmptyString ;;
         echo EmptyString true ;;
         append_message (assistant_message (Some response_text))).
Proof.
  apply quiet_bind.
  - apply quiet_for_stream. intros. apply quiet_on_chunk.
  - intros text. apply quiet_bind; [apply quiet_echo|].
    intros _. apply quiet_append_message.
Qed.

Lemma quiet_exchange_rest_plain (response : chat_completion) :
  quiet (assistant <- first (choices response) ;;
         echo_opt assistant ;;
         append_message (assistant_message assistant)).
Proof.
  apply quiet_bind; [apply quiet_first|]. intros a.
  apply quiet_bind; [apply quiet_echo|]. intros _. apply quiet_append_message.
Qed.

(** The [try] block of a Chat Completions turn makes one remote call, the
    create call with the history it finds. *)
Lemma completions_exchange_calls client model stream n messages :
  let r := completions_exchange client model stream n messages in
  calls r = Datatypes.S n /\
  filter is_remote_call (events r) = [ChatCreate model messages stream].
Proof.
  cbv zeta. unfold completions_exchange. destruct stream.
  - pose proof (call_chat_create_stream_run client model n messages) as Hc.
    destruct (chat_create_stream client n model messages) as [e|st].
    + rewrite (bind_raise _ _ _ _ _ _ _ _ Hc). split; reflexivity.
    + rewrite (bind_val _ _ _ _ _ _ _ _ Hc).
      destruct (quiet_exchange_rest_stream st (Datatypes.S n) messages) as [H1 H2].
      cbn [after calls events app filter is_remote_call].
      rewrite H2. split; [exact H1 | reflexivity].
  - pose proof (call_chat_create_run client model n messages) as Hc.
    destruct (chat_create client n model messages) as [e|resp].
    + rewrite (bind_raise _ _ _ _ _ _ _ _ Hc). split; reflexivity.
    + rewrite (bind_val _ _ _ _ _ _ _ _ Hc).
      destruct (quiet_exchange_rest_plain resp (Datatypes.S n) messages) as [H1 H2].
      cbn [after calls events app filter is_remote_call].
      rewrite H2. split; [exact H1 | reflexivity].
Qed.

Lemma completions_body_calls client model stream system line n messages :
  ordinary_input line = true ->
  let r := completions_body client model stream system line n messages in
  calls r = Datatypes.S n /\
  filter is_remote_call (events r) =
    [ChatCreate model (messages ++ [user_message (Py.strip line)]) stream].
Proof.
  intros Hord. cbv zeta.
  pose proof (completions_exchange_cases client model stream n
                (messages ++ [user_message (Py.strip line)])%list) as Hc.
  pose proof (completions_exchange_calls client model stream n
                (messages ++ [user_message (Py.strip line)])%list) as Hn.
  destruct (completions_exchange client model stream n
              (messages ++ [user_message (Py.strip line)])%list) as [ev c s o] eqn:E.
  cbn [outcome store calls events] in Hc, Hn. cbv zeta in Hn. cbn [calls events] in Hn.
  destruct Hn as [-> Hev].
  rewrite (completions_body_ordinary _ _ _ _ _ Hord).
  destruct Hc as [[a [-> ->]]|[e [-> ->]]].
  - rewrite (bind_val _ _ _ _ _ _ _ _ (completions_turn_ok _ _ _ _ _ _ _ _ _ E)).
    cbn [after ret calls events]. split; [reflexivity|].
    rewrite !filter_app, Hev. reflexivity.
  - rewrite (bind_val _ _ _ _ _ _ _ _ (completions_turn_failed _ _ _ _ _ _ _ _ _ E)).
    cbn [after ret calls events]. split; [reflexivity|].
    rewrite !filter_app, Hev. reflexivity.
Qed.

(** X10: every turn of the Chat Completions loop makes exactly one remote
    call, whether it succeeds or fails: the create call, with the whole
    history followed by the new user message. *)
Theorem completions_turn_sends_whole_history client model stream system line n messages :
  ordinary_input line = true ->
  let r := completions_body client model stream system line n messages in
  calls r = Datatypes.S n /\
  filter is_remote_call (events r) =
    [ChatCreate model (messages ++ [user_message (Py.strip line)]) stream].
Proof. apply completions_body_calls. Qed.

Lemma quiet_on_event {S} (acc : string * option string) (event : Event) :
  quiet (@on_event S acc event).
Proof.
  intros n s. destruct acc as [text id]. rewrite on_event_run.
  cbn [calls events]. split; [reflexivity|].
  unfold printed. destruct (delta_of event); [reflexivity|].
  destruct (ev_type event) as [type|]; [|reflexivity].
  destruct (type =? "response.queued"); [reflexivity|].
  destruct (type =? "response.in_progress"); reflexivity.
Qed.

Lemma quiet_process_streaming_events {S} (stream_response : Stream Event) :
  quiet (@process_streaming_events S stream_response).
Proof.
  unfold process_streaming_events. apply quiet_bind.
  - apply quiet_for_stream. intros. apply quiet_on_event.
  - intros acc. apply quiet_bind; [apply quiet_echo | intros; apply quiet_ret].
Qed.

(** A remote call followed by a quiet rest is one call. *)
Lemma one_call_then_quiet {S A B} (e : effect) (reply : nat -> exn + A)
  (k : A -> M S B) n s :
  is_remote_call e = true ->
  (forall a, quiet (k a)) ->
  calls (bind (remote e reply) k n s) = Datatypes.S n /\
  filter is_remote_call (events (bind (remote e reply) k n s)) = [e].
Proof.
  intros He Hk. unfold bind, remote. cbn [outcome events calls store].
  destruct (reply n) as [err|a]; cbn [after events calls filter app].
  - rewrite He. split; reflexivity.
  - destruct (Hk a (Datatypes.S n) s) as [H1 H2].
    rewrite He, H2. split; [exact H1 | reflexivity].
Qed.

(** Whatever follows a remote call, the call is the first effect. *)
Lemma call_comes_first {S A B} (e : effect) (reply : nat -> exn + A)
  (k : A -> M S B) n s :
  exists rest, events (bind (remote e reply) k n s) = e :: rest.
Proof.
  unfold bind, remote. cbn [outcome events calls store].
  destruct (reply n) as [err|a]; cbn [after events app]; eexists; reflexivity.
Qed.

Lemma responses_exchange_calls fuel client model (stream background : bool) system
  user_input n previous_response_id :
  let request :=
    sent_request model system user_input stream background previous_response_id in
  let r := responses_exchange fuel client model stream background system user_input
             n previous_response_id in
  (exists rest, events r = ResponsesCreate request :: rest) /\
  (background && negb stream = false ->
   calls r = Datatypes.S n /\
   filter is_remote_call (events r) = [ResponsesCreate request]).
Proof.
  cbv zeta. unfold responses_exchange. prim. rewrite after_nil.
  unfold sent_request. cbv zeta.
  destruct background, stream;
    unfold streamed_exchange, polled_exchange, plain_exchange; cbv zeta;
    (split; [apply call_comes_first|]); try discriminate; intros _;
    apply one_call_then_quiet; try reflexivity; intros a.
  - apply quiet_bind; [apply quiet_process_streaming_events|]. intros r.
    destruct (Py.truthy_opt (snd r)); [apply quiet_put | apply quiet_ret].
  - apply quiet_bind; [apply quiet_process_streaming_events|]. intros r.
    destruct (Py.truthy_opt (snd r)); [apply quiet_put | apply quiet_ret].
  - apply quiet_bind; [apply quiet_lift|]. intros text.
    apply quiet_bind; [apply quiet_echo | intros; apply quiet_put].
Qed.

Lemma responses_body_calls fuel client model (stream background : bool)
  system line n previous_response_id :
  ordinary_input line = true ->
  let request :=
    sent_request model system (Py.strip line) stream background previous_response_id in
  let r := responses_body fuel client model stream background system line
             n previous_response_id in
  (exists rest,
     events r = ([Echo EmptyString true; Echo "Assistant: " false;
                  ResponsesCreate request] ++ rest)%list) /\
  (background && negb stream = false ->
   calls r = Datatypes.S n /\
   filter is_remote_call (events r) = [ResponsesCreate request]).
Proof.
  intros Hord. cbv zeta.
  pose proof (responses_exchange_calls fuel client model stream background system
                (Py.strip line) n previous_response_id) as Hn.
  pose proof (atomic_responses_exchange fuel client model stream background system
                (Py.strip line) n previous_response_id) as Ha.
  cbv zeta in Hn.
  destruct (responses_exchange fuel client model stream background system
              (Py.strip line) n previous_response_id) as [ev c s o] eqn:E.
  cbn [events calls outcome store] in Hn, Ha.
  destruct Hn as [[rest Hev] Hn].
  rewrite (responses_body_ordinary _ _ _ _ _ _ _ Hord).
  destruct o as [[]|e|].
  - rewrite (bind_val _ _ _ _ _ _ _ _ (responses_turn_ok _ _ _ _ _ _ _ _ _ _ _ _ E)).
    cbn [after ret calls events]. split.
    + rewrite Hev. eexists. cbn [app]. reflexivity.
    + intros H. destruct (Hn H) as [-> Hf]. split; [reflexivity|].
      rewrite !filter_app, Hf. reflexivity.
  - rewrite (Ha e eq_refl) in E.
    rewrite (bind_val _ _ _ _ _ _ _ _ (responses_turn_failed _ _ _ _ _ _ _ _ _ _ _ _ E)).
    cbn [after ret calls events]. split.
    + rewrite Hev. eexists. cbn [app]. reflexivity.
    + intros H. destruct (Hn H) as [-> Hf]. split; [reflexivity|].
      rewrite !filter_app, Hf. reflexivity.
  - rewrite (bind_diverge _ _ _ _ _ _ _ (responses_turn_diverges _ _ _ _ _ _ _ _ _ _ _ _ E)).
    cbn [calls events]. split.
    + rewrite Hev. eexists. cbn [app]. reflexivity.
    + intros H. destruct (Hn H) as [-> Hf]. split; [reflexivity|].
      rewrite !filter_app, Hf. reflexivity.
Qed.

(** X11: every turn of the Responses loop starts by sending the request
    built from the identifier it holds, flagged as the options say; unless
    it polls a background job, that is the only remote call of the turn,
    whether it succeeds or fails. *)
Theorem responses_turn_sends_built_request fuel client model (stream background : bool)
  system line n previous_response_id :
  ordinary_input line = true ->
  let request :=
    sent_request model system (Py.strip line) stream background previous_response_id in
  let r := responses_body fuel client model stream background system line
             n previous_response_id in
  (exists rest,
     events r = ([Echo EmptyString true; Echo "Assistant: " false;
                  ResponsesCreate request] ++ rest)%list) /\
  (background && negb stream = false ->
   calls r = Datatypes.S n /\
   filter is_remote_call (events r) = [ResponsesCreate request]).
Proof. apply responses_body_calls. Qed.

Lemma exit_not_ordinary (line : string) : is_exit line = true -> ordinary_input line = false.
Proof.
  unfold is_exit, ordinary_input. cbv zeta. intros ->.
  rewrite andb_false_r. reflexivity.
Qed.

Lemma turns_cons (line : string) (rest : list string) :
  turns (line :: rest) =
  (if ordinary_input line then 1 else 0) + (if is_exit line then 0 else turns rest).
Proof.
  unfold turns. cbn [lines_read].
  destruct (is_exit line) eqn:E.
  - cbn [filter]. rewrite (exit_not_ordinary line E). reflexivity.
  - cbn [filter]. destruct (ordinary_input line); reflexivity.
Qed.

(** What one pass through the body of the Chat Completions loop does to
    the count of remote calls, and how it ends. *)
Lemma completions_body_step client model stream system line n messages :
  let r := completions_body client model stream system line n messages in
  outcome r = Val (if is_exit line then Break else Continue) /\
  calls r = (if ordinary_input line then 1 else 0) + n /\
  length (filter is_remote_call (events r)) = (if ordinary_input line then 1 else 0).
Proof.
  cbv zeta. destruct (ordinary_input line) eqn:Hord.
  - destruct (completions_body_calls client model stream system line n
                messages Hord) as [H1 H2].
    rewrite H1, H2. repeat split.
    destruct (is_exit line) eqn:E.
    + rewrite (exit_not_ordinary line E) in Hord. discriminate.
    + apply completions_body_goes_on. intros H. apply mem_In in H.
      unfold is_exit in E. congruence.
  - revert Hord. unfold ordinary_input, is_exit, completions_body. cbv zeta.
    destruct (Py.truthy (Py.strip line)) eqn:Ht; cbn [negb andb].
    2:{ intros _. destruct (Py.strip line); [|discriminate]. repeat split. }
    destruct (Py.mem _ EXIT_COMMANDS); cbn [negb andb]; [intros _; repeat split|].
    destruct (_ =? "/clear"); cbn [negb andb]; [intros _; repeat split|].
    destruct (_ =? "/status"); cbn [negb andb]; [intros _; repeat split|].
    discriminate.
Qed.

Lemma responses_body_step fuel client model (stream background : bool) system line n
  previous_response_id :
  background && negb stream = false ->
  let r := responses_body fuel client model stream background system line
             n previous_response_id in
  outcome r = Val (if is_exit line then Break else Continue) /\
  calls r = (if ordinary_input line then 1 else 0) + n /\
  length (filter is_remote_call (events r)) = (if ordinary_input line then 1 else 0).
Proof.
  intros Hshape. cbv zeta. destruct (ordinary_input line) eqn:Hord.
  - destruct (responses_body_calls fuel client model stream background
                system line n previous_response_id Hord) as [_ H].
    destruct (H Hshape) as [H1 H2]. rewrite H1, H2. repeat split.
    destruct (is_exit line) eqn:E.
    + rewrite (exit_not_ordinary line E) in Hord. discriminate.
    + assert (Hn : ~ In (Py.lower (Py.strip line)) EXIT_COMMANDS).
      { intros Hin. apply mem_In in Hin. unfold is_exit in E. congruence. }
      destruct (responses_body_goes_on fuel client model stream background system line
                  n previous_response_id Hn) as [Ho|[_ [-> ->]]];
        [exact Ho | discriminate].
  - revert Hord. unfold ordinary_input, is_exit, responses_body. cbv zeta.
    destruct (Py.truthy (Py.strip line)) eqn:Ht; cbn [negb andb].
    2:{ intros _. destruct (Py.strip line); [|discriminate]. repeat split. }
    destruct (Py.mem _ EXIT_COMMANDS); cbn [negb andb]; [intros _; repeat split|].
    destruct (_ =? "/clear"); cbn [negb andb]; [intros _; repeat split|].
    destruct (_ =? "/status"); cbn [negb andb]; [intros _; repeat split|].
    discriminate.
Qed.

(** A loop whose body makes one remote call on every ordinary line and
    none on the others makes as many calls as the session has turns. *)
Lemma prompt_loop_calls {S} (body : string -> M S ctl) :
  (forall line n s,
     outcome (body line n s) = Val (if is_exit line then Break else Continue) /\
     calls (body line n s) = (if ordinary_input line then 1 else 0) + n /\
     length (filter is_remote_call (events (body line n s))) =
       (if ordinary_input line then 1 else 0)) ->
  forall inputs n s,
    outcome (prompt_loop body inputs n s) = session_end inputs /\
    calls (prompt_loop body inputs n s) = turns inputs + n /\
    length (filter is_remote_call (events (prompt_loop body inputs n s))) = turns inputs.
Proof.
  intros Hb. unfold session_end.
  induction inputs as [|line rest IH]; intros n s.
  - repeat split.
  - destruct (Hb line n s) as [Ho [Hc He]]. rewrite turns_cons. cbn [existsb].
    destruct (is_exit line); cbn [orb].
    + rewrite (prompt_loop_break _ _ _ _ _ Ho). cbn [outcome calls events filter].
      cbn [is_remote_call]. rewrite Hc, He. repeat split; lia.
    + rewrite (prompt_loop_continue _ _ _ _ _ Ho). cbn [after outcome calls events].
      destruct (IH (calls (body line n s)) (store (body line n s))) as [Ho' [Hc' He']].
      cbn [filter is_remote_call app].
      rewrite filter_app, length_app, He', He, Ho', Hc', Hc. repeat split; lia.
Qed.

(** A session makes one remote call for every turn and no other: in the
    Chat Completions loop always, in the Responses loop unless it polls
    background jobs.  Both loops return at the first exit command and
    raise [Abort] when the input ends without one. *)
Lemma session_calls fuel client model (stream background : bool)
  system inputs n :
  (forall messages,
     let r := completions_loop client model stream system inputs n messages in
     outcome r = session_end inputs /\ calls r = turns inputs + n /\
     length (filter is_remote_call (events r)) = turns inputs) /\
  (background && negb stream = false ->
   forall previous_response_id,
     let r := responses_loop fuel client model stream background system inputs
                n previous_response_id in
     outcome r = session_end inputs /\ calls r = turns inputs + n /\
     length (filter is_remote_call (events r)) = turns inputs).
Proof.
  split.
  - intros messages. cbv zeta. unfold completions_loop. apply prompt_loop_calls.
    intros line n' s. apply completions_body_step.
  - intros Hshape previous_response_id. cbv zeta. unfold responses_loop.
    apply prompt_loop_calls. intros line n' s. apply responses_body_step. exact Hshape.
Qed.

(* ================================================================= *)
(** ** The shape of the history *)

Lemma exchanges_app (ys : list message) :
  exchanges ys = true ->
  forall xs,
    (exchanges xs = true -> exchanges (xs ++ ys) = true) /\
    (forall x, exchanges (x :: xs) = true -> exchanges ((x :: xs) ++ ys) = true).
Proof.
  intros Hys. induction xs as [|a xs [IH1 IH2]].
  - split; [intros _; exact Hys | intros x H; discriminate].
  - split; [apply IH2|].
    intros x H. cbn [exchanges app] in *.
    apply andb_true_iff in H. destruct H as [H1 H2].
    rewrite H1. apply IH1. exact H2.
Qed.

Lemma exchanges_even (xs : list message) :
  (exchanges xs = true -> Nat.even (length xs) = true) /\
  (forall x, exchanges (x :: xs) = true -> Nat.even (length (x :: xs)) = true).
Proof.
  induction xs as [|a xs [IH1 IH2]].
  - split; [reflexivity | intros x H; discriminate].
  - split; [apply IH2|].
    intros x H. cbn [exchanges] in H.
    apply andb_true_iff in H. destruct H as [_ H].
    cbn [length Nat.even]. apply IH1. exact H.
Qed.

(** A loop keeps what every pass through its body keeps. *)
Lemma prompt_loop_preserves {S} (P : S -> Prop) (body : string -> M S ctl) :
  (forall line n s, P s ->
     P (store (body line n s)) /\ exists c, outcome (body line n s) = Val c) ->
  forall inputs n s, P s -> P (store (prompt_loop body inputs n s)).
Proof.
  intros Hb. induction inputs as [|line rest IH]; intros n s Hs; [exact Hs|].
  destruct (Hb line n s Hs) as [Hp [[|] Hc]].
  - rewrite (prompt_loop_continue _ _ _ _ _ Hc). cbn [after store]. apply IH. exact Hp.
  - rewrite (prompt_loop_break _ _ _ _ _ Hc). exact Hp.
Qed.

Lemma completions_body_well_formed client model stream system line n messages :
  well_formed_history system messages ->
  well_formed_history system
    (store (completions_body client model stream system line n messages)).
Proof.
  intros Hinv. unfold completions_body. cbv zeta.
  destruct (Py.truthy (Py.strip line)); [|exact Hinv].
  destruct (Py.mem _ EXIT_COMMANDS); [exact Hinv|].
  destruct (_ =? "/clear"); [exists []; split; reflexivity|].
  destruct (_ =? "/status"); [exact Hinv|].
  cbn [negb].
  pose proof (completions_turn_cases client model stream (Py.strip line) n messages)
    as [H Hs].
  destruct (completions_turn client model stream (Py.strip line) n messages)
    as [ev c s o] eqn:E. cbn [outcome store] in H, Hs. subst o.
  rewrite (bind_val _ _ _ _ _ _ _ _ E). cbn [after ret store].
  destruct Hs as [->|[a ->]]; [exact Hinv|].
  destruct Hinv as [rest [-> Hrest]].
  exists (rest ++ [user_message (Py.strip line); assistant_message a])%list.
  split; [reflexivity|].
  apply (exchanges_app [user_message (Py.strip line); assistant_message a] eq_refl rest).
  exact Hrest.
Qed.

(** X12: the history of the Chat Completions loop is always the system
    message of the session followed by whole exchanges, a user message and
    then the assistant's reply, so it holds an odd number of messages: this
    holds at the start, every pass through the loop body keeps it (a turn
    that fails leaves no user message without a reply behind), and so it
    holds of the history the run ends with. *)
Theorem history_alternates client model stream system :
  well_formed_history system [system_message system] /\
  (forall line n messages,
     well_formed_history system messages ->
     well_formed_history system
       (store (completions_body client model stream system line n messages))) /\
  (forall inputs n,
     let messages := store (run_chat_completions client model stream system inputs n) in
     well_formed_history system messages /\ Nat.odd (length messages) = true).
Proof.
  assert (H0 : well_formed_history system [system_message system]).
  { exists []. split; reflexivity. }
  split; [exact H0|]. split.
  - intros line n messages. apply completions_body_well_formed.
  - intros inputs n. cbv zeta.
    assert (H : well_formed_history system
                  (store (run_chat_completions client model stream system inputs n))).
    { unfold run_chat_completions, completions_loop.
      apply (prompt_loop_preserves (well_formed_history system)); [|exact H0].
      intros line n' s Hs. split.
      - apply completions_body_well_formed. exact Hs.
      - apply completions_body_returns. }
    split; [exact H|].
    destruct H as [rest [-> Hrest]]. cbn [length].
    rewrite Nat.odd_succ. apply exchanges_even. exact Hrest.
Qed.

(* ================================================================= *)
(** ** Streamed completions *)

Lemma on_chunk_run (text : string) (chunk : Chunk) n (messages : list message) :
  has_choice chunk = true ->
  on_chunk text chunk n messages =
  Run (chunks_printed [chunk]) n messages (Val (text ++ chunks_text [chunk])).
Proof.
  unfold has_choice, on_chunk, chunks_printed, chunks_text, chunk_content.
  cbn [flat_map]. destruct (chunk_choices chunk) as [|[content|] rest]; [discriminate| |];
    intros _; cbn [opt_list app concat_all fold_right];
    rewrite string_app_nil_r; reflexivity.
Qed.

Lemma chunks_text_cons (chunk : Chunk) (chunks : list Chunk) :
  chunks_text (chunk :: chunks) = chunks_text [chunk] ++ chunks_text chunks.
Proof.
  unfold chunks_text. cbn [flat_map]. rewrite app_nil_r. apply concat_all_app.
Qed.

Lemma chunks_printed_cons (chunk : Chunk) (chunks : list Chunk) :
  chunks_printed (chunk :: chunks) = (chunks_printed [chunk] ++ chunks_printed chunks)%list.
Proof. unfold chunks_printed. cbn [flat_map]. rewrite app_nil_r. reflexivity. Qed.

(** The loop over the chunks, as long as every chunk has a choice. *)
Lemma for_each_on_chunk (chunks : list Chunk) :
  forallb has_choice chunks = true ->
  forall text n (messages : list message),
  for_each on_chunk chunks text n messages =
  Run (chunks_printed chunks) n messages (Val (text ++ chunks_text chunks)).
Proof.
  induction chunks as [|chunk chunks IH]; intros H text n messages.
  - cbn. rewrite string_app_nil_r. reflexivity.
  - cbn [forallb] in H. apply andb_true_iff in H. destruct H as [H1 H2].
    cbn [for_each]. rewrite (bind_val _ _ _ _ _ _ _ _ (on_chunk_run _ _ _ _ H1)).
    rewrite (IH H2), (chunks_text_cons chunk chunks), (chunks_printed_cons chunk chunks),
      string_app_assoc.
    reflexivity.
Qed.

(** The loop stops at the first chunk that has no choice. *)
Lemma for_each_on_chunk_stops (pre post : list Chunk) :
  forallb has_choice pre = true ->
  forall text n (messages : list message),
  for_each on_chunk (pre ++ mkChunk [] :: post) text n messages =
  Run (chunks_printed pre) n messages (Raise (IndexError "list index out of range")).
Proof.
  induction pre as [|chunk pre IH]; intros H text n messages.
  - reflexivity.
  - cbn [forallb] in H. apply andb_true_iff in H. destruct H as [H1 H2].
    cbn [for_each app]. rewrite (bind_val _ _ _ _ _ _ _ _ (on_chunk_run _ _ _ _ H1)).
    rewrite (IH H2), (chunks_printed_cons chunk pre). reflexivity.
Qed.

Lemma stream_call_run client model n messages (st : Stream Chunk) :
  chat_create_stream client n model messages = inr st ->
  call_chat_create_stream client model n messages =
  Run [ChatCreate model messages true] (Datatypes.S n) messages (Val st).
Proof. intros H. rewrite call_chat_create_stream_run, H. reflexivity. Qed.

(** X13: a streamed completion: every content is printed as it comes, and
    the assistant message appended to the history holds their in-order
    concatenation. *)
Theorem streamed_completion_accumulates client model n messages chunks :
  chat_create_stream client n model messages = inr (mkStream chunks None) ->
  forallb has_choice chunks = true ->
  completions_exchange client model true n messages =
  Run (ChatCreate model messages true :: chunks_printed chunks ++ [Echo EmptyString true])
      (Datatypes.S n)
      (messages ++ [assistant_message (Some (chunks_text chunks))])%list
      (Val tt).
Proof.
  intros Hc Hall. unfold completions_exchange.
  rewrite (bind_val _ _ _ _ _ _ _ _ (stream_call_run _ _ _ _ _ Hc)).
  assert (H : for_stream on_chunk (mkStream chunks None) EmptyString
                (Datatypes.S n) messages =
              Run (chunks_printed chunks) (Datatypes.S n) messages
                  (Val (chunks_text chunks))).
  { unfold for_stream. cbn [items failure].
    rewrite (bind_val _ _ _ _ _ _ _ _ (for_each_on_chunk chunks Hall _ _ _)).
    cbn [String.append]. unfold after, ret. cbn [events calls store outcome].
    rewrite app_nil_r. reflexivity. }
  rewrite (bind_val _ _ _ _ _ _ _ _ H). prim.
  unfold append_message. prim. run_done.
Qed.

Lemma failed_exchange_body client model stream system line n messages ev c e :
  ordinary_input line = true ->
  completions_exchange client model stream n
    (messages ++ [user_message (Py.strip line)])%list =
  Run ev c (messages ++ [user_message (Py.strip line)])%list (Raise e) ->
  completions_body client model stream system line n messages =
  Run ([Echo EmptyString true; Echo "Assistant: " false] ++ ev
       ++ [Echo (Py.LF ++ "Error: " ++ exn_str e) true; Echo EmptyString true])%list
      c messages (Val Continue).
Proof.
  intros Hord E.
  rewrite (completions_body_ordinary _ _ _ _ _ Hord).
  rewrite (bind_val _ _ _ _ _ _ _ _ (completions_turn_failed _ _ _ _ _ _ _ _ _ E)).
  run_done.
Qed.

(** X14: a completion that comes without a choice fails the turn with an
    [IndexError]: without streaming when the response has no choice, with
    streaming at the first chunk that has none. What was printed before
    stays printed, the error is reported, the user message is taken off the
    history again, and the loop goes on. *)
Theorem missing_choice_fails_turn client model system line n messages :
  ordinary_input line = true ->
  let history := (messages ++ [user_message (Py.strip line)])%list in
  let report :=
    [Echo (Py.LF ++ "Error: list index out of range") true; Echo EmptyString true] in
  (chat_create client n model history = inr (ChatCompletion []) ->
   completions_body client model false system line n messages =
   Run ([Echo EmptyString true; Echo "Assistant: " false;
         ChatCreate model history false] ++ report)%list
       (Datatypes.S n) messages (Val Continue)) /\
  (forall pre post failure,
     chat_create_stream client n model history =
       inr (mkStream (pre ++ mkChunk [] :: post) failure) ->
     forallb has_choice pre = true ->
     completions_body client model true system line n messages =
     Run ([Echo EmptyString true; Echo "Assistant: " false;
           ChatCreate model history true] ++ chunks_printed pre ++ report)%list
         (Datatypes.S n) messages (Val Continue)).
Proof.
  intros Hord. cbv zeta. split.
  - intros Hc.
    assert (E : completions_exchange client model false n
                  (messages ++ [user_message (Py.strip line)])%list =
                Run [ChatCreate model (messages ++ [user_message (Py.strip line)])%list
                       false] (Datatypes.S n)
                    (messages ++ [user_message (Py.strip line)])%list
                    (Raise (IndexError "list index out of range"))).
    { unfold completions_exchange.
      pose proof (call_chat_create_run client model n
                    (messages ++ [user_message (Py.strip line)])%list) as H.
      rewrite Hc in H. rewrite (bind_val _ _ _ _ _ _ _ _ H). reflexivity. }
    rewrite (failed_exchange_body _ _ _ _ _ _ _ _ _ _ Hord E). reflexivity.
  - intros pre post failure Hc Hpre.
    assert (E : completions_exchange client model true n
                  (messages ++ [user_message (Py.strip line)])%list =
                Run (ChatCreate model (messages ++ [user_message (Py.strip line)])%list
                       true :: chunks_printed pre) (Datatypes.S n)
                    (messages ++ [user_message (Py.strip line)])%list
                    (Raise (IndexError "list index out of range"))).
    { unfold completions_exchange.
      rewrite (bind_val _ _ _ _ _ _ _ _ (stream_call_run _ _ _ _ _ Hc)).
      assert (H : for_stream on_chunk (mkStream (pre ++ mkChunk [] :: post) failure)
                    EmptyString (Datatypes.S n)
                    (messages ++ [user_message (Py.strip line)])%list =
                  Run (chunks_printed pre) (Datatypes.S n)
                      (messages ++ [user_message (Py.strip line)])%list
                      (Raise (IndexError "list index out of range"))).
      { unfold for_stream. cbn [items].
        apply bind_raise. apply for_each_on_chunk_stops. exact Hpre. }
      rewrite (bind_raise _ _ _ _ _ _ _ _ H). reflexivity. }
    rewrite (failed_exchange_body _ _ _ _ _ _ _ _ _ _ Hord E).
    reflexivity.
Qed.

(** X15: a stream that breaks after its last item raises in the middle of
    the exchange. In the Responses loop the events received are printed, the
    closing newline is not, and the identifier stays as it was, even when
    the completed event had arrived; in the Chat Completions loop the
    contents received are printed and no assistant message is appended. *)
Theorem broken_stream_fails_exchange (client : Client) n (e : exn) :
  (forall request_params previous_response_id evs,
     responses_create_stream client n (set_stream request_params)
       = inr (mkStream evs (Some e)) ->
     streamed_exchange client request_params n previous_response_id =
     Run (ResponsesCreate (set_stream request_params) :: flat_map printed evs)
         (Datatypes.S n) previous_response_id (Raise e)) /\
  (forall model messages chunks,
     chat_create_stream client n model messages = inr (mkStream chunks (Some e)) ->
     forallb has_choice chunks = true ->
     completions_exchange client model true n messages =
     Run (ChatCreate model messages true :: chunks_printed chunks)
         (Datatypes.S n) messages (Raise e)).
Proof.
  split.
  - intros request_params previous_response_id evs H.
    unfold streamed_exchange. cbv zeta.
    assert (Hc : remote (ResponsesCreate (set_stream request_params))
                   (fun n => responses_create_stream client n (set_stream request_params))
                   n previous_response_id
                 = Run [ResponsesCreate (set_stream request_params)] (Datatypes.S n)
                       previous_response_id (Val (mkStream evs (Some e)))).
    { unfold remote. rewrite H. reflexivity. }
    rewrite (bind_val _ _ _ _ _ _ _ _ Hc).
    assert (Hs : process_streaming_events (mkStream evs (Some e)) (Datatypes.S n)
                   previous_response_id =
                 Run (flat_map printed evs) (Datatypes.S n) previous_response_id
                     (Raise e)).
    { unfold process_streaming_events. apply bind_raise.
      unfold for_stream. cbn [items failure].
      rewrite (bind_val _ _ _ _ _ _ _ _ (for_each_on_event evs _ _ _ _)).
      unfold after, raise. cbn [events calls store outcome].
      rewrite app_nil_r. reflexivity. }
    rewrite (bind_raise _ _ _ _ _ _ _ _ Hs). reflexivity.
  - intros model messages chunks Hc Hall. unfold completions_exchange.
    rewrite (bind_val _ _ _ _ _ _ _ _ (stream_call_run _ _ _ _ _ Hc)).
    assert (H : for_stream on_chunk (mkStream chunks (Some e)) EmptyString
                  (Datatypes.S n) messages =
                Run (chunks_printed chunks) (Datatypes.S n) messages (Raise e)).
    { unfold for_stream. cbn [items failure].
      rewrite (bind_val _ _ _ _ _ _ _ _ (for_each_on_chunk chunks Hall _ _ _)).
      unfold after, raise. cbn [events calls store outcome].
      rewrite app_nil_r. reflexivity. }
    rewrite (bind_raise _ _ _ _ _ _ _ _ H). reflexivity.
Qed.

(* ================================================================= *)
(** ** Listing the models *)

Lemma create_client_run (env : environ) {S} n (s : S) :
  Py.truthy_opt (OPENAI_API_KEY env) = true ->
  Py.truthy_opt (OPENAI_BASE_URL env) = true ->
  OpenAI env (OPENAI_BASE_URL env) (OPENAI_API_KEY env) = None ->
  create_client env n s = Run [ClientCreated] n s (Val tt).
Proof.
  intros H1 H2 H3. unfold create_client. cbv zeta. rewrite H1, H2, H3. reflexivity.
Qed.

Lemma create_client_fails (env : environ) {S} n (s : S) (e : exn) :
  Py.truthy_opt (OPENAI_API_KEY env) = true ->
  Py.truthy_opt (OPENAI_BASE_URL env) = true ->
  OpenAI env (OPENAI_BASE_URL env) (OPENAI_API_KEY env) = Some e ->
  create_client env n s = Run [] n s (Raise e).
Proof.
  intros H1 H2 H3. unfold create_client. cbv zeta. rewrite H1, H2, H3. reflexivity.
Qed.

Lemma create_client_refuses (env : environ) {S} n (s : S) :
  Py.truthy_opt (OPENAI_API_KEY env) && Py.truthy_opt (OPENAI_BASE_URL env) = false ->
  exists msg, create_client env n s = Run [] n s (Raise (ClickException msg)).
Proof.
  intros H. unfold create_client. cbv zeta.
  destruct (Py.truthy_opt (OPENAI_API_KEY env)); cbn [negb].
  - cbn [andb] in H. rewrite H. cbn [negb]. eexists. reflexivity.
  - eexists. reflexivity.
Qed.

(** The first [try] of both commands lets every exception of
    [create_client] through as it is. *)
Lemma create_client_passes {S} (env : environ) n (s : S) ev e :
  create_client env n s = Run ev n s (Raise e) ->
  try_catch (create_client env) (fun e : exn => raise e) n s = Run ev n s (Raise e).
Proof.
  intros H. rewrite (try_raise _ _ _ _ _ _ _ _ H).
  unfold raise, after. cbn [events calls store outcome]. rewrite app_nil_r. reflexivity.
Qed.

Lemma on_model_run {S} (model : Model) n (s : S) :
  on_model model n s = Run (model_lines model) n s (Val tt).
Proof.
  unfold on_model, model_lines. prim.
  destruct (model_created model), (model_owned_by model); reflexivity.
Qed.

Lemma for_each_on_model {S} (models : list Model) n (s : S) :
  for_each (fun _ model => on_model model) models tt n s =
  Run (flat_map model_lines models) n s (Val tt).
Proof.
  induction models as [|model models IH]; [reflexivity|].
  cbn [for_each flat_map].
  rewrite (bind_val _ _ _ _ _ _ _ _ (on_model_run model n s)), IH. reflexivity.
Qed.

Lemma list_models_without_client (env : environ) models_list n (s : unit) e :
  create_client env n s = Run [] n s (Raise e) ->
  list_models env models_list n s = Run [] n s (Raise e).
Proof.
  intros H. unfold list_models.
  rewrite (bind_raise _ _ _ _ _ _ _ _ (create_client_passes env n s [] e H)).
  reflexivity.
Qed.

(** X16: without both credentials [list_models] fails before it prints or
    calls anything. *)
Theorem list_models_needs_credentials (env : environ) models_list n (s : unit) :
  Py.truthy_opt (OPENAI_API_KEY env) && Py.truthy_opt (OPENAI_BASE_URL env) = false ->
  let r := list_models env models_list n s in
  events r = [] /\ calls r = n /\
  exit_code (outcome r) = Some 1 /\
  exists msg, outcome r = Raise (ClickException msg).
Proof.
  intros H. cbv zeta. destruct (create_client_refuses env n s H) as [msg Hc].
  rewrite (list_models_without_client env models_list n s _ Hc).
  cbn [events calls outcome exit_code].
  repeat split. exists msg. reflexivity.
Qed.

(** X17: with the credentials set and the listing call answered,
    [list_models], once the SDK's constructor has returned the client,
    prints the endpoint, the heading and, for every model in the order
    received, its identifier followed by its creation time and its owner
    when the record has them; it makes that one call and returns.  When
    the constructor raises instead, the exception goes through as it is,
    with nothing printed and nothing called. *)
Theorem list_models_prints_every_model (env : environ) models_list n (s : unit)
  (url : string) (models : list Model) :
  Py.truthy_opt (OPENAI_API_KEY env) = true ->
  OPENAI_BASE_URL env = Some url -> Py.truthy url = true ->
  models_list n = inr models ->
  (OpenAI env (OPENAI_BASE_URL env) (OPENAI_API_KEY env) = None ->
   list_models env models_list n s =
   Run ([ClientCreated; Echo ("Endpoint: " ++ url) true; Echo EmptyString true;
         Echo "Available Models:" true; Echo (Py.repeat_str "-" 60) true]
        ++ flat_map model_lines models)%list
       (Datatypes.S n) s (Val tt)) /\
  (forall e,
     OpenAI env (OPENAI_BASE_URL env) (OPENAI_API_KEY env) = Some e ->
     list_models env models_list n s = Run [] n s (Raise e)).
Proof.
  intros Hk Hu Ht Hm.
  assert (Hb : Py.truthy_opt (OPENAI_BASE_URL env) = true) by (rewrite Hu; exact Ht).
  split.
  - intros Ho. unfold list_models. cbv zeta. rewrite Hu.
    pose proof (create_client_run env n s Hk Hb Ho) as Hcl.
    rewrite (bind_val _ _ _ _ _ _ _ _ (try_val _ _ _ _ _ _ _ _ Hcl)).
    prim. prim.
    match goal with
    | |- context [try_catch ?c ?h n s] =>
        assert (Hl : c n s = Run ([Echo "Available Models:" true;
                                   Echo (Py.repeat_str "-" 60) true]
                                  ++ flat_map model_lines models)%list
                                 (Datatypes.S n) s (Val tt))
    end.
    { assert (Hc : @call_models_list unit models_list n s =
                   Run [] (Datatypes.S n) s (Val models)).
      { unfold call_models_list. rewrite Hm. reflexivity. }
      rewrite (bind_val _ _ _ _ _ _ _ _ Hc). prim. prim.
      rewrite for_each_on_model. reflexivity. }
    rewrite (try_val _ _ _ _ _ _ _ _ Hl). reflexivity.
  - intros e Ho. apply list_models_without_client.
    apply create_client_fails; assumption.
Qed.

(** X18: with the credentials set and the client constructed, when the
    listing call fails [list_models] has printed the endpoint only and
    ends with a [ClickException] whose message is the failure behind the
    words Failed to list models.  When the constructor raises instead, the
    exception goes through as it is, with nothing printed and nothing
    called. *)
Theorem list_models_wraps_failure (env : environ) models_list n (s : unit)
  (url : string) (e : exn) :
  Py.truthy_opt (OPENAI_API_KEY env) = true ->
  OPENAI_BASE_URL env = Some url -> Py.truthy url = true ->
  models_list n = inl e ->
  (forall msg, e <> ClickException msg) ->
  (OpenAI env (OPENAI_BASE_URL env) (OPENAI_API_KEY env) = None ->
   list_models env models_list n s =
   Run [ClientCreated; Echo ("Endpoint: " ++ url) true; Echo EmptyString true]
       (Datatypes.S n) s
       (Raise (ClickException ("Failed to list models: " ++ exn_str e)))) /\
  (forall e',
     OpenAI env (OPENAI_BASE_URL env) (OPENAI_API_KEY env) = Some e' ->
     list_models env models_list n s = Run [] n s (Raise e')).
Proof.
  intros Hk Hu Ht Hm He.
  assert (Hb : Py.truthy_opt (OPENAI_BASE_URL env) = true) by (rewrite Hu; exact Ht).
  split.
  - intros Ho. unfold list_models. cbv zeta. rewrite Hu.
    pose proof (create_client_run env n s Hk Hb Ho) as Hcl.
    rewrite (bind_val _ _ _ _ _ _ _ _ (try_val _ _ _ _ _ _ _ _ Hcl)).
    prim. prim.
    match goal with
    | |- context [try_catch ?c ?h n s] =>
        assert (Hl : c n s = Run [] (Datatypes.S n) s (Raise e))
    end.
    { apply bind_raise. unfold call_models_list. rewrite Hm. reflexivity. }
    rewrite (try_raise _ _ _ _ _ _ _ _ Hl).
    destruct e as [m|m|a|m| |]; try reflexivity.
    exfalso. apply (He m). reflexivity.
  - intros e' Ho. apply list_models_without_client.
    apply create_client_fails; assumption.
Qed.

(* ================================================================= *)
(** ** Two turns of a conversation *)

(** X19: in the foreground without streaming, a turn that succeeds with a
    non-empty identifier hands it to the next turn: the next request holds
    the new user message alone and refers to that response, and it is the
    only remote call of the next turn. *)
Theorem context_is_carried_over fuel client model system line next n
  previous_response_id response text :
  ordinary_input line = true ->
  ordinary_input next = true ->
  responses_create client n
    (build_request model system (Py.strip line) previous_response_id) = inr response ->
  extract_response_text response = Val text ->
  Py.truthy (resp_id response) = true ->
  let r := responses_body fuel client model false false system line
             n previous_response_id in
  store r = Some (resp_id response) /\
  outcome r = Val Continue /\
  filter is_remote_call
    (events (responses_body fuel client model false false system next
               (calls r) (store r))) =
  [ResponsesCreate
     {| rp_model := model;
        rp_input := [user_message (Py.strip next)];
        rp_previous_response_id := Some (resp_id response);
        rp_background := false; rp_stream := false |}].
Proof.
  intros Hline Hnext Hc Hx Hid. cbv zeta.
  assert (E : responses_exchange fuel client model false false system (Py.strip line)
                n previous_response_id =
              Run [ResponsesCreate
                     (build_request model system (Py.strip line) previous_response_id);
                   Echo text true] (Datatypes.S n) (Some (resp_id response)) (Val tt)).
  { unfold responses_exchange. prim. rewrite after_nil. cbv zeta.
    apply plain_exchange_stores_identifier; assumption. }
  rewrite (responses_body_ordinary _ _ _ _ _ _ _ Hline).
  rewrite (bind_val _ _ _ _ _ _ _ _ (responses_turn_ok _ _ _ _ _ _ _ _ _ _ _ _ E)).
  cbn [after ret store outcome calls].
  split; [reflexivity|]. split; [reflexivity|].
  destruct (responses_body_calls fuel client model false false system next
              (Datatypes.S n) (Some (resp_id response)) Hnext) as [_ H].
  destruct (H eq_refl) as [_ ->].
  unfold sent_request, build_request. cbn. rewrite Hid. reflexivity.
Qed.

(* ================================================================= *)
(** ** Sessions of the chat command *)

(** The loop a chat session runs, on its own store. *)
Lemma chat_session_run fuel client model (stream completions background : bool)
  system inputs n (s : unit) :
  background && negb stream = false ->
  exists ev,
    (if completions then
       with_store [system_message system]
         (completions_loop client model stream system inputs)
     else
       with_store None
         (responses_loop fuel client model stream background system inputs)) n s =
    Run ev (turns inputs + n) s (session_end inputs) /\
    length (filter is_remote_call ev) = turns inputs.
Proof.
  intros Hshape.
  destruct (session_calls fuel client model stream background system inputs n)
    as [Hc Hr].
  destruct completions; unfold with_store.
  - destruct (Hc [system_message system]) as [H1 [H2 H3]].
    eexists. rewrite H1, H2. split; [reflexivity | exact H3].
  - destruct (Hr Hshape None) as [H1 [H2 H3]].
    eexists. rewrite H1, H2. split; [reflexivity | exact H3].
Qed.

(** What the second [try] of [chat] makes of the way the loop ended. *)
Lemma chat_wraps_session_end (c : M unit unit) inputs n (s : unit) ev n1 :
  c n s = Run ev n1 s (session_end inputs) ->
  try_catch c
    (fun e => match e with
              | ClickException _ => raise e
              | _ => raise (ClickException ("Chat error: " ++ exn_str e))
              end) n s =
  Run ev n1 s (if existsb is_exit inputs then Val tt
               else Raise (ClickException "Chat error: ")).
Proof.
  unfold session_end. intros H. destruct (existsb is_exit inputs).
  - apply try_val. exact H.
  - rewrite (try_raise _ _ _ _ _ _ _ _ H). unfold raise, after.
    cbn [events calls store outcome exn_str String.append]. rewrite app_nil_r.
    reflexivity.
Qed.

(** X20: with the credentials set and options that go together, a chat
    session that does not poll background jobs makes one remote call for
    every turn, whatever the remote end answers and however many calls fail,
    once the SDK's constructor has returned the client.  It ends with exit
    status 0 when an exit command is among the lines read; when the input
    ends first, the [Abort] of the prompt is reported as a chat error and
    the exit status is 1.  When the constructor raises, the exception goes
    through as it is after the banner: nothing is read and nothing called. *)
Theorem chat_session_exit_status fuel env client model
  (no_stream completions background : bool) system inputs n (s : unit) :
  background && completions = false ->
  background && no_stream = false ->
  Py.truthy_opt (OPENAI_API_KEY env) = true ->
  Py.truthy_opt (OPENAI_BASE_URL env) = true ->
  let r := chat fuel env client model no_stream completions background system
             inputs n s in
  (OpenAI env (OPENAI_BASE_URL env) (OPENAI_API_KEY env) = None ->
   calls r = turns inputs + n /\
   length (filter is_remote_call (events r)) = turns inputs /\
   outcome r = (if existsb is_exit inputs then Val tt
                else Raise (ClickException "Chat error: ")) /\
   exit_code (outcome r) = Some (if existsb is_exit inputs then 0 else 1)) /\
  (forall e,
     OpenAI env (OPENAI_BASE_URL env) (OPENAI_API_KEY env) = Some e ->
     outcome r = Raise e /\
     exit_code (outcome r) = Some 1 /\
     calls r = n /\
     filter is_remote_call (events r) = [] /\
     ~ In Prompt (events r)).
Proof.
  intros Hflags Hshape Hk Hb. cbv zeta.
  assert (Hs : background && negb (negb no_stream) = false).
  { rewrite negb_involutive. exact Hshape. }
  destruct (chat_session_run fuel client model (negb no_stream) completions background
              system inputs n s Hs) as [ev [Hrun Hlen]].
  apply chat_wraps_session_end in Hrun.
  split.
  - intros Ho.
    pose proof (try_val _ (fun e : exn => raise e) _ _ _ _ _ _
                  (create_client_run env n s Hk Hb Ho)) as Hcl.
    unfold chat. cbv zeta. rewrite Hflags.
    destruct background, no_stream, completions; try discriminate;
      cbn [andb negb] in *; repeat prim;
      rewrite (bind_val _ _ _ _ _ _ _ _ Hcl), Hrun;
      cbn [after events calls outcome exit_code];
      unfold echo, emit; cbn [events calls store app filter is_remote_call];
      rewrite Hlen; destruct (existsb is_exit inputs); repeat split.
  - intros e Ho.
    pose proof (create_client_passes env n s [] e
                  (create_client_fails env n s e Hk Hb Ho)) as Hcl.
    unfold chat. cbv zeta. rewrite Hflags.
    destruct background, no_stream, completions; try discriminate;
      cbn [andb negb] in *; repeat prim;
      rewrite (bind_raise _ _ _ _ _ _ _ _ Hcl);
      cbn [after events calls outcome exit_code];
      unfold echo, emit; cbn [events calls store app filter is_remote_call In];
      (repeat split; intuition discriminate).
Qed.

(** X21: without both credentials a chat session ends with exit status 1
    after the banner: no client is made, nothing is read from the user and
    no remote call is made. *)
Theorem chat_needs_credentials fuel env client model
  (no_stream completions background : bool) system inputs n (s : unit) :
  background && completions = false ->
  Py.truthy_opt (OPENAI_API_KEY env) && Py.truthy_opt (OPENAI_BASE_URL env) = false ->
  let r := chat fuel env client model no_stream completions background system
             inputs n s in
  calls r = n /\
  filter is_remote_call (events r) = [] /\
  ~ In ClientCreated (events r) /\
  ~ In Prompt (events r) /\
  exit_code (outcome r) = Some 1 /\
  exists msg, outcome r = Raise (ClickException msg).
Proof.
  intros Hflags Hcred. cbv zeta.
  destruct (create_client_refuses env n s Hcred) as [msg Hc].
  pose proof (try_raise _ (fun e : exn => raise e) _ _ _ _ _ _ Hc) as Hcl.
  unfold raise, after in Hcl. cbn [events calls store outcome app] in Hcl.
  unfold chat. cbv zeta. rewrite Hflags.
  destruct background, no_stream, completions; try discriminate;
    cbn [andb negb] in *; repeat prim;
    rewrite (bind_raise _ _ _ _ _ _ _ _ Hcl);
    cbn [after events calls outcome exit_code];
    unfold echo, emit; cbn [events calls store app filter is_remote_call In];
    (repeat split; [intuition discriminate | intuition discriminate | exists msg; reflexivity]).
Qed.

(* ================================================================= *)
(** ** The properties at work *)

Lemma failed_turn_rolls_back_witness :
  ordinary_input "hello" = true /\
  store (completions_body offline_client "m" true "Be brief." "hello" 0
           [system_message "Be brief."]) = [system_message "Be brief."].
Proof.
  split; [reflexivity|].
  exact (proj1 (failed_turn_rolls_back offline_client "m" true "Be brief." "hello" 0
                  [system_message "Be brief."] refused eq_refl eq_refl)).
Defined.

Lemma failed_response_keeps_context_witness :
  ordinary_input "hello" = true /\
  store (responses_body 0 offline_client "m" false true "Be brief." "hello" 3
           (Some "resp_7")) = Some "resp_7".
Proof.
  split; [reflexivity|].
  exact (proj1 (failed_response_keeps_context 0 offline_client "m" false true
                  "Be brief." "hello" 3 (Some "resp_7") refused eq_refl eq_refl)).
Defined.

Lemma clear_resets_history_witness :
  completions_body offline_client "m" true "Be brief." " /Clear " 2
    [system_message "Be brief."; user_message "hi"; assistant_message (Some "Hello!")]
  = Run [Echo ("Conversation cleared." ++ Py.LF) true] 2 [system_message "Be brief."]
        (Val Continue).
Proof.
  exact (clear_resets_history offline_client "m" true "Be brief." " /Clear " 2
           [system_message "Be brief."; user_message "hi";
            assistant_message (Some "Hello!")] eq_refl).
Defined.

Lemma background_polling_witness :
  ordinary_input " hello " = true /\
  responses_body 6 (slow_job_client 6) "m" false true "Be brief." " hello " 0 None =
  Run ([Echo EmptyString true; Echo "Assistant: " false;
        ResponsesCreate background_request;
        Echo "[Background processing started...]" false;
        Sleep 1; ResponsesRetrieve "job_1";
        Sleep 1; ResponsesRetrieve "job_1";
        Sleep 1; ResponsesRetrieve "job_1";
        Sleep 1; ResponsesRetrieve "job_1";
        Sleep 1; Echo "." false; ResponsesRetrieve "job_1";
        Sleep 1; ResponsesRetrieve "job_1";
        Echo EmptyString true; Echo "Assistant: " false;
        Echo "Done." true; Echo EmptyString true]) 7 (Some "job_1") (Val Continue).
Proof.
  split; [reflexivity|].
  refine (proj1 (background_polling 6 (slow_job_client 6) "m" "Be brief." " hello " 0 None
                   (text_response "job_1" "queued" EmptyString)
                   [text_response "job_1" "in_progress" EmptyString;
                    text_response "job_1" "in_progress" EmptyString;
                    text_response "job_1" "in_progress" EmptyString;
                    text_response "job_1" "in_progress" EmptyString;
                    text_response "job_1" "in_progress" EmptyString;
                    text_response "job_1" "completed" "Done."]
                   eq_refl eq_refl _ _) "Done." eq_refl eq_refl).
  - repeat split; reflexivity.
  - apply le_n.
Defined.

Lemma streaming_handler_result_witness :
  streamed_exchange (streaming_client sample_events) background_request 0 None =
  Run [ResponsesCreate (set_stream background_request);
       Echo "[Queued...]" false; Echo "Hel" false; Echo "lo" false;
       Echo EmptyString true] 1 (Some "resp_9") (Val tt) /\
  store (streamed_exchange (streaming_client sample_events) background_request 0 None)
    = Some "resp_9".
Proof.
  split; [reflexivity|].
  exact (proj1 (proj2 (proj2 (proj2 (streaming_handler_result sample_events 0 None))
                         (streaming_client sample_events) background_request eq_refl))).
Defined.

Lemma exit_commands_end_the_loop_witness :
  completions_loop offline_client "m" true "Be brief." ["/QUIT"; "never read"] 0
    [system_message "Be brief."]
    = Run [Prompt; Echo "Goodbye!" true] 0 [system_message "Be brief."] (Val tt) /\
  completions_loop offline_client "m" true "Be brief." ["/quitter"; "/q"] 0
    [system_message "Be brief."]
    = Run [Prompt; Echo EmptyString true; Echo "Assistant: " false;
           ChatCreate "m" [system_message "Be brief."; user_message "/quitter"] true;
           Echo (Py.LF ++ "Error: Connection error.") true; Echo EmptyString true;
           Prompt; Echo "Goodbye!" true] 1 [system_message "Be brief."] (Val tt).
Proof.
  split.
  - exact (proj2 (proj1 (proj1 (exit_commands_end_the_loop 0 offline_client "m" true
                                  false "Be brief." "/QUIT" 0)
                           (or_introl (or_introl eq_refl)))
                    [system_message "Be brief."] ["never read"])).
  - refine (proj1 (proj2 (proj1 (proj2 (exit_commands_end_the_loop 0 offline_client "m"
                                          true false "Be brief." "/quitter" 0) _)
                            [system_message "Be brief."] ["/q"]))).
    cbv. intros [H|[H|[H|[H|[]]]]]; discriminate.
Defined.

Lemma remote_failure_fails_completions_witness :
  completions_exchange offline_client "m" false 0
    [system_message "Be brief."; user_message "hello"] =
  Run [ChatCreate "m" [system_message "Be brief."; user_message "hello"] false] 1
      [system_message "Be brief."; user_message "hello"] (Raise refused).
Proof.
  exact (remote_failure_fails_completions offline_client "m" false 0
           [system_message "Be brief."; user_message "hello"] refused eq_refl).
Defined.

Lemma remote_failure_fails_responses_witness :
  responses_exchange 0 offline_client "m" true true "Be brief." "hello" 4 (Some "resp_7") =
  Run [ResponsesCreate
         {| rp_model := "m"; rp_input := [user_message "hello"];
            rp_previous_response_id := Some "resp_7";
            rp_background := true; rp_stream := true |}] 5 (Some "resp_7")
      (Raise refused).
Proof.
  exact (remote_failure_fails_responses 0 offline_client "m" true true "Be brief."
           "hello" 4 (Some "resp_7") refused eq_refl).
Defined.

Lemma status_makes_no_remote_call_witness :
  calls (completions_body offline_client "m" true "Be brief." "/Status" 0
           [system_message "Be brief."]) = 0 /\
  stdout (events (completions_body offline_client "m" true "Be brief." "/Status" 0
                    [system_message "Be brief."])) =
  "API: Chat Completions (stateless)" ++ Py.LF ++ "Model: m" ++ Py.LF ++
  "Messages in history: 1" ++ Py.LF ++ Py.LF.
Proof.
  split; [|reflexivity].
  exact (proj1 (proj2 (proj1 (status_makes_no_remote_call 0 offline_client "m" true false
                                "Be brief." "/Status" 0 eq_refl)
                         [system_message "Be brief."]))).
Defined.

Lemma clear_restores_system_message_witness :
  store (responses_body 0 offline_client "m" true false "Be brief." "/CLEAR" 2
           (Some "resp_7")) = None.
Proof.
  exact (proj1 (clear_restores_system_message 0 offline_client "m" true false "Be brief."
                  "/CLEAR" "hello" 2 (Some "resp_7") eq_refl)).
Defined.

Lemma blank_line_is_skipped_witness :
  completions_body offline_client "m" true "Be brief." "   " 0 [system_message "Be brief."]
  = Run [] 0 [system_message "Be brief."] (Val Continue).
Proof.
  exact (proj1 (blank_line_is_skipped 0 offline_client "m" true false "Be brief." "   " 0
                  eq_refl) [system_message "Be brief."]).
Defined.

Lemma successful_turn_appends_witness :
  store (completions_body (canned_client "Hello!") "m" false "Be brief." " hi " 0
           [system_message "Be brief."]) =
  [system_message "Be brief."; user_message "hi"; assistant_message (Some "Hello!")] /\
  exists a,
    store (completions_body (canned_client "Hello!") "m" false "Be brief." " hi " 0
             [system_message "Be brief."]) =
    [system_message "Be brief."; user_message (Py.strip " hi "); assistant_message a].
Proof.
  split; [reflexivity|].
  exact (proj2 (successful_turn_appends (canned_client "Hello!") "m" false "Be brief."
                  " hi " 0 [system_message "Be brief."] eq_refl eq_refl)).
Defined.

Lemma plain_exchange_stores_identifier_witness :
  plain_exchange answering_client (build_request "m" "Be brief." "hi" None) 0 None =
  Run [ResponsesCreate (build_request "m" "Be brief." "hi" None); Echo "Hello!" true] 1
      (Some "resp_1") (Val tt).
Proof.
  exact (plain_exchange_stores_identifier answering_client
           (build_request "m" "Be brief." "hi" None) 0 None
           (text_response "resp_1" "completed" "Hello!") "Hello!" eq_refl eq_refl).
Defined.

Lemma extract_response_text_cases_witness :
  extract_response_text fragmented_response = Val "Hello".
Proof.
  refine (proj1 (proj2 (extract_response_text_cases fragmented_response))
            _ eq_refl eq_refl _).
  discriminate.
Defined.

Lemma completions_turn_sends_whole_history_witness :
  filter is_remote_call
    (events (completions_body offline_client "m" true "Be brief." " hello " 0
               [system_message "Be brief."])) =
  [ChatCreate "m" [system_message "Be brief."; user_message "hello"] true].
Proof.
  exact (proj2 (completions_turn_sends_whole_history offline_client "m" true "Be brief."
                  " hello " 0 [system_message "Be brief."] eq_refl)).
Defined.

Lemma responses_turn_sends_built_request_witness :
  filter is_remote_call
    (events (responses_body 0 offline_client "m" true false "Be brief." "hello" 0
               (Some "resp_7"))) =
  [ResponsesCreate
     {| rp_model := "m"; rp_input := [user_message "hello"];
        rp_previous_response_id := Some "resp_7";
        rp_background := false; rp_stream := true |}].
Proof.
  exact (proj2 (proj2 (responses_turn_sends_built_request 0 offline_client "m" true false
                         "Be brief." "hello" 0 (Some "resp_7") eq_refl) eq_refl)).
Defined.

Lemma create_client_needs_credentials_witness :
  create_client malformed_env 0 tt = Run [] 0 tt (Raise (APIError "Invalid URL")) /\
  create_client configured_env 0 tt = Run [ClientCreated] 0 tt (Val tt).
Proof.
  split.
  - exact (proj2 (proj2 (proj2 (create_client_needs_credentials malformed_env 0 tt))
                    eq_refl eq_refl) _ eq_refl).
  - exact (proj1 (proj2 (proj2 (create_client_needs_credentials configured_env 0 tt))
                    eq_refl eq_refl) eq_refl).
Defined.

Lemma chat_session_exit_status_witness :
  (turns ["hi"; "/status"; "  "; "/quit"; "never read"] = 1 /\
   calls (chat 0 configured_env offline_client "m" false true false "Be brief."
            ["hi"; "/status"; "  "; "/quit"; "never read"] 0 tt) = 1 /\
   outcome (chat 0 configured_env offline_client "m" false true false "Be brief."
              ["hi"; "/status"; "  "; "/quit"; "never read"] 0 tt) = Val tt) /\
  (turns ["hi"; "/status"] = 1 /\
   calls (chat 0 configured_env offline_client "m" false true false "Be brief."
            ["hi"; "/status"] 0 tt) = 1 /\
   outcome (chat 0 configured_env offline_client "m" false true false "Be brief."
              ["hi"; "/status"] 0 tt) = Raise (ClickException "Chat error: ") /\
   exit_code (outcome (chat 0 configured_env offline_client "m" false true false
                         "Be brief." ["hi"; "/status"] 0 tt)) = Some 1).
Proof.
  split.
  - split; [reflexivity|].
    pose proof (proj1 (chat_session_exit_status 0 configured_env offline_client "m"
                         false true false "Be brief."
                         ["hi"; "/status"; "  "; "/quit"; "never read"] 0 tt
                         eq_refl eq_refl eq_refl eq_refl) eq_refl) as H.
    split; [exact (proj1 H) | exact (proj1 (proj2 (proj2 H)))].
  - split; [reflexivity|].
    pose proof (proj1 (chat_session_exit_status 0 configured_env offline_client "m"
                         false true false "Be brief." ["hi"; "/status"] 0 tt
                         eq_refl eq_refl eq_refl eq_refl) eq_refl) as H.
    split; [exact (proj1 H)|].
    split; [exact (proj1 (proj2 (proj2 H))) | exact (proj2 (proj2 (proj2 H)))].
Defined.

Lemma streamed_completion_accumulates_witness :
  completions_exchange
    (fixed_client (inl refused) (inr (mkStream sample_chunks None)) (inl refused)
       (inl refused) (inl refused))
    "m" true 0 [system_message "Be brief."; user_message "hi"] =
  Run [ChatCreate "m" [system_message "Be brief."; user_message "hi"] true;
       Echo "Hel" false; Echo "lo" false; Echo EmptyString true] 1
      [system_message "Be brief."; user_message "hi"; assistant_message (Some "Hello")]
      (Val tt).
Proof.
  exact (streamed_completion_accumulates
           (fixed_client (inl refused) (inr (mkStream sample_chunks None)) (inl refused)
              (inl refused) (inl refused))
           "m" 0 [system_message "Be brief."; user_message "hi"] sample_chunks
           eq_refl eq_refl).
Defined.

Lemma missing_choice_fails_turn_witness :
  completions_body
    (fixed_client (inr (ChatCompletion [])) (inl refused) (inl refused) (inl refused)
       (inl refused))
    "m" false "Be brief." "hi" 0 [system_message "Be brief."] =
  Run [Echo EmptyString true; Echo "Assistant: " false;
       ChatCreate "m" [system_message "Be brief."; user_message "hi"] false;
       Echo (Py.LF ++ "Error: list index out of range") true; Echo EmptyString true]
      1 [system_message "Be brief."] (Val Continue).
Proof.
  exact (proj1 (missing_choice_fails_turn
                  (fixed_client (inr (ChatCompletion [])) (inl refused) (inl refused)
                     (inl refused) (inl refused))
                  "m" "Be brief." "hi" 0 [system_message "Be brief."] eq_refl) eq_refl).
Defined.

Lemma broken_stream_fails_exchange_witness :
  streamed_exchange
    (fixed_client (inl refused) (inl refused) (inl refused)
       (inr (mkStream sample_events (Some refused))) (inl refused))
    background_request 0 (Some "resp_7") =
  Run [ResponsesCreate (set_stream background_request);
       Echo "[Queued...]" false; Echo "Hel" false; Echo "lo" false] 1
      (Some "resp_7") (Raise refused).
Proof.
  exact (proj1 (broken_stream_fails_exchange
                  (fixed_client (inl refused) (inl refused) (inl refused)
                     (inr (mkStream sample_events (Some refused))) (inl refused))
                  0 refused)
           background_request (Some "resp_7") sample_events eq_refl).
Defined.

Lemma list_models_needs_credentials_witness :
  events (list_models bare_env (fun _ => inr sample_models) 0 tt) = [] /\
  calls (list_models bare_env (fun _ => inr sample_models) 0 tt) = 0.
Proof.
  pose proof (list_models_needs_credentials bare_env (fun _ => inr sample_models) 0 tt
                eq_refl) as H.
  split; [exact (proj1 H) | exact (proj1 (proj2 H))].
Defined.

Lemma list_models_prints_every_model_witness :
  stdout (events (list_models configured_env (fun _ => inr sample_models) 0 tt)) =
  "Endpoint: https://bedrock-mantle.us-east-1.api.aws/v1" ++ Py.LF ++ Py.LF ++
  "Available Models:" ++ Py.LF ++ Py.repeat_str "-" 60 ++ Py.LF ++
  "  ID: openai.gpt-oss-20b" ++ Py.LF ++ "      Created: 1700000000" ++ Py.LF ++
  "      Owner: system" ++ Py.LF ++ Py.LF ++
  "  ID: openai.gpt-oss-120b" ++ Py.LF ++ Py.LF.
Proof.
  rewrite (proj1 (list_models_prints_every_model configured_env
                    (fun _ => inr sample_models)
                    0 tt "https://bedrock-mantle.us-east-1.api.aws/v1" sample_models
                    eq_refl eq_refl eq_refl eq_refl) eq_refl).
  reflexivity.
Defined.

Lemma list_models_wraps_failure_witness :
  outcome (list_models configured_env (fun _ => inl refused) 0 tt) =
  Raise (ClickException "Failed to list models: Connection error.").
Proof.
  refine (f_equal outcome
            (proj1 (list_models_wraps_failure configured_env (fun _ => inl refused) 0 tt
                      "https://bedrock-mantle.us-east-1.api.aws/v1" refused
                      eq_refl eq_refl eq_refl eq_refl _) eq_refl)).
  intros msg H. discriminate H.
Defined.

Lemma context_is_carried_over_witness :
  store (responses_body 0 answering_client "m" false false "Be brief." "hi" 0 None)
    = Some "resp_1" /\
  filter is_remote_call
    (events (run_responses_api 0 answering_client "m" false false "Be brief."
               ["hi"; "and then?"] 0)) =
  [ ResponsesCreate
      {| rp_model := "m";
         rp_input := [system_message "Be brief."; user_message "hi"];
         rp_previous_response_id := None;
         rp_background := false; rp_stream := false |};
    ResponsesCreate
      {| rp_model := "m";
         rp_input := [user_message "and then?"];
         rp_previous_response_id := Some "resp_1";
         rp_background := false; rp_stream := false |} ].
Proof.
  split; [|reflexivity].
  exact (proj1 (context_is_carried_over 0 answering_client "m" "Be brief." "hi"
                  "and then?" 0 None (text_response "resp_1" "completed" "Hello!")
                  "Hello!" eq_refl eq_refl eq_refl eq_refl eq_refl)).
Defined.

Lemma chat_needs_credentials_witness :
  calls (chat 0 bare_env offline_client "m" false false false "Be brief." ["hi"] 0 tt) = 0 /\
  exit_code (outcome (chat 0 bare_env offline_client "m" false false false "Be brief."
                        ["hi"] 0 tt)) = Some 1.
Proof.
  pose proof (chat_needs_credentials 0 bare_env offline_client "m" false false false
                "Be brief." ["hi"] 0 tt eq_refl eq_refl) as H.
  split; [exact (proj1 H) | exact (proj1 (proj2 (proj2 (proj2 (proj2 H)))))].
Defined.
